(** * GitLab MCP server: request construction and error normalisation

    A shallow embedding of the configuration store ([server/config.py]) and
    of the tool functions under [server/mcp_tools/], together with the
    properties of the specification that concern them.

    Python dictionaries with string keys are finite maps ([gmap string _]),
    Python's [None]-defaulted parameters are [option]s, exceptions are an
    explicit outcome type, and the single HTTP round trip each tool performs
    is an oracle from the request to what the network gave back. *)

From stdpp Require Import gmap strings list fin_maps pretty.
From Stdlib Require Import ZArith Ascii.

Set Warnings "-register-all".
Open Scope string_scope.
Open Scope Z_scope.

(** ** Python values *)

(** The values that travel through the tools: arguments, query and body
    maps, decoded JSON payloads and returned dictionaries. *)
Inductive pyval : Type :=
| PyNone
| PyBool (b : bool)
| PyInt (n : Z)
| PyStr (s : string)
| PyList (l : list pyval)
| PyDict (d : gmap string pyval).

Abbreviation pydict := (gmap string pyval).

(** A keyword argument whose default is not [None]: the caller either
    leaves it out or passes a value. *)
Inductive arg (A : Type) : Type :=
| Omitted
| Passed (a : A).
Arguments Omitted {A}.
Arguments Passed {A} a.

Definition arg_default {A : Type} (d : A) (a : arg A) : A :=
  match a with
  | Omitted => d
  | Passed v => v
  end.

(** Truth value of a [str]-or-[None] object, as tested by [if x:]. *)
Definition truthy_str (x : option string) : bool :=
  match x with
  | None => false
  | Some s => negb (String.eqb s "")
  end.

(** Truth value of a [bool]-or-[None] object. *)
Definition truthy_bool (x : option bool) : bool :=
  match x with
  | None => false
  | Some b => b
  end.

(** Truth value of a [str]. *)
Definition nonempty (s : string) : bool := negb (String.eqb s "").

Definition opt_str (x : option string) : pyval :=
  match x with
  | None => PyNone
  | Some s => PyStr s
  end.

Definition opt_bool (x : option bool) : pyval :=
  match x with
  | None => PyNone
  | Some b => PyBool b
  end.

(** [key in v] for a returned value: false on anything that is not a
    dictionary. *)
Definition has_key (k : string) (v : pyval) : bool :=
  match v with
  | PyDict d => bool_decide (is_Some (d !! k))
  | _ => false
  end.

(** ** Runtime configuration store ([server/config.py]) *)

Module Config.

(** The module-level dictionary [_config], with its two fixed keys. *)
Record config : Type := mk_config {
  api_url : string;
  token : string
}.

Definition get_gitlab_api (c : config) : string := api_url c.

Definition get_gitlab_token (c : config) : string := token c.

Definition set_gitlab_config (new_api_url new_token : option string)
    (c : config) : config :=
  let c1 :=
    if truthy_str new_api_url
    then mk_config (default "" new_api_url) (token c)
    else c in
  if truthy_str new_token
  then mk_config (api_url c1) (default "" new_token)
  else c1.

Definition get_headers (c : config) : gmap string string :=
  let headers : gmap string string := {[ "Accept" := "application/json" ]} in
  if nonempty (token c)
  then <[ "PRIVATE-TOKEN" := token c ]> headers
  else headers.

Definition is_configured (c : config) : bool :=
  nonempty (api_url c) && nonempty (token c).

Definition default_api_url : string := "https://gitlab.com/api/v4".

(** The [configure_gitlab] tool.  It returns its dictionary and the store
    after the call. *)
Definition configure_gitlab (api_url_arg : arg (option string))
    (token_arg : arg (option string)) (c : config) : pyval * config :=
  let api_url := arg_default (Some default_api_url) api_url_arg in
  let token := arg_default None token_arg in
  if negb (truthy_str token)
  then
    (PyDict {[ "error" := PyStr "Token is required";
               "message" := PyStr ("Please provide your GitLab Personal Access Token. "
                 +:+ "Create one at: https://gitlab.com/-/user_settings/personal_access_tokens") ]},
     c)
  else
    (PyDict {[ "status" := PyStr "configured";
               "api_url" := opt_str api_url;
               "message" := PyStr "GitLab credentials configured successfully. You can now use GitLab tools." ]},
     set_gitlab_config api_url token c).

(** The [check_gitlab_config] tool. *)
Definition check_gitlab_config (c : config) : pyval :=
  PyDict {[ "configured" := PyBool (is_configured c);
            "api_url" := PyStr (if nonempty (api_url c) then api_url c else "(not set)");
            "token_set" := PyBool (nonempty (token c));
            "message" := PyStr (if is_configured c
                                then "Ready to use GitLab tools."
                                else "Please run configure_gitlab with your token first.") ]}.

End Config.

Import Config.

(** ** Exceptions and outcomes *)

(** The exception classes the tools name in their [except] clauses or can
    meet.  [RequestsJSONDecodeError] is [requests.exceptions.JSONDecodeError],
    what [Response.json()] raises on an undecodable body since requests 2.27:
    it derives both from [requests.exceptions.RequestException] (through
    [InvalidJSONError]) and from [json.JSONDecodeError].  [InvalidURL] derives
    from [RequestException] and from [ValueError], [UnicodeEncodeError]
    from [ValueError], and [RecursionError] from [Exception] alone. *)
Inductive exn_class : Type :=
| Exception_
| ValueError
| KeyError
| NameError
| AttributeError
| TypeError
| JSONDecodeError
| RequestException
| HTTPError
| ConnectionError
| Timeout
| InvalidURL
| TooManyRedirects
| RequestsJSONDecodeError
| HttpxHTTPError
| UnicodeEncodeError
| RecursionError.

(** [issubclass c d]: an exception of class [c] is caught by [except d]. *)
Definition issubclass (c d : exn_class) : bool :=
  match d, c with
  | Exception_, _ => true
  | ValueError,
      (ValueError | JSONDecodeError | RequestsJSONDecodeError | InvalidURL
       | UnicodeEncodeError) => true
  | KeyError, KeyError => true
  | NameError, NameError => true
  | AttributeError, AttributeError => true
  | TypeError, TypeError => true
  | JSONDecodeError, (JSONDecodeError | RequestsJSONDecodeError) => true
  | RequestException,
      (RequestException | HTTPError | ConnectionError | Timeout | InvalidURL
       | TooManyRedirects | RequestsJSONDecodeError) => true
  | HTTPError, HTTPError => true
  | ConnectionError, ConnectionError => true
  | Timeout, Timeout => true
  | InvalidURL, InvalidURL => true
  | TooManyRedirects, TooManyRedirects => true
  | RequestsJSONDecodeError, RequestsJSONDecodeError => true
  | HttpxHTTPError, HttpxHTTPError => true
  | UnicodeEncodeError, UnicodeEncodeError => true
  | RecursionError, RecursionError => true
  | _, _ => false
  end.

(** The ways the JSON decoder fails other than by finding that the text is
    not JSON: an integer literal longer than the interpreter converts (a
    plain [ValueError]), and nesting deeper than the interpreter's stack (a
    [RecursionError]).  [Response.json()] lets both through as they are. *)
Inductive decoder_failure : Type :=
| IntegerTooLong
| NestingTooDeep.

Definition decoder_class (k : decoder_failure) : exn_class :=
  match k with
  | IntegerTooLong => ValueError
  | NestingTooDeep => RecursionError
  end.

(** What [Response.json()] gives: the decoded value, the decoder's
    complaint that the text is not JSON, or one of the failures above. *)
Inductive json_decoding : Type :=
| Decoded (v : pyval)
| Undecodable (msg : string)
| DecoderRaises (k : decoder_failure) (msg : string).

(** The attributes of a [requests.Response] the tools read. *)
Record response : Type := mk_response {
  status_code : Z;
  reason : string;
  url : string;
  text : string;
  body_json : json_decoding
}.

(** An exception object: its class, [str(e)], and [e.response]. *)
Record exn : Type := mk_exn {
  exn_class_of : exn_class;
  exn_str : string;
  exn_response : option response
}.

(** A Python computation returns, raises, or never comes back (no call of
    [requests] in the tools passes a [timeout]). *)
Inductive outcome (A : Type) : Type :=
| Return (a : A)
| Raise (e : exn)
| Hangs.
Arguments Return {A} a.
Arguments Raise {A} e.
Arguments Hangs {A}.

#[export] Instance outcome_ret : MRet outcome := fun A a => Return a.

#[export] Instance outcome_bind : MBind outcome := fun A B k m =>
  match m with
  | Return a => k a
  | Raise e => Raise e
  | Hangs => Hangs
  end.

(** [try: body except C1 as e: h1 e except C2 as e: h2 e ...]: the first
    clause whose class the exception belongs to handles it, and what a handler
    raises is not offered to the clauses after it. *)
Definition handler (A : Type) : Type := exn_class * (exn -> outcome A).

Fixpoint handle {A : Type} (hs : list (handler A)) (e : exn) : outcome A :=
  match hs with
  | [] => Raise e
  | (c, h) :: hs' =>
      if issubclass (exn_class_of e) c then h e else handle hs' e
  end.

Definition try_except {A : Type} (body : outcome A) (hs : list (handler A)) : outcome A :=
  match body with
  | Return a => Return a
  | Raise e => handle hs e
  | Hangs => Hangs
  end.

(** ** The [requests] library at the boundary *)

Inductive http_method : Type := GET | POST | PUT | DELETE.

(** The body keyword of a call: none, [json=], or [data=]. *)
Inductive payload : Type :=
| NoBody
| JsonBody (d : pydict)
| FormBody (d : pydict).

(** What a tool hands to [requests.get/post/put/delete]. *)
Record request : Type := mk_request {
  rq_method : http_method;
  rq_url : string;
  rq_headers : gmap string string;
  rq_params : pydict;
  rq_body : payload
}.

(** The ways a call can end without a response; each is a subclass of
    [RequestException] other than [HTTPError]. *)
Inductive transport_failure : Type :=
| ConnectionFailed
| TimedOut
| BadURL
| RedirectLoop.

Definition transport_class (k : transport_failure) : exn_class :=
  match k with
  | ConnectionFailed => ConnectionError
  | TimedOut => Timeout
  | BadURL => InvalidURL
  | RedirectLoop => TooManyRedirects
  end.

(** The ways a call ends before anything is sent, with an exception that
    is no [RequestException]: [http.client] refuses a header value, with a
    [ValueError] (a token that ends in a newline) or with a
    [UnicodeEncodeError] (a token with a character outside Latin-1). *)
Inductive local_failure : Type :=
| HeaderValueRefused
| HeaderNotLatin1.

Definition local_class (k : local_failure) : exn_class :=
  match k with
  | HeaderValueRefused => ValueError
  | HeaderNotLatin1 => UnicodeEncodeError
  end.

(** The outcome of the one HTTP round trip: no response at all, with the
    text of the exception; a response; a refusal before anything is sent;
    or no outcome at all, the call being made without a timeout. *)
Inductive net_result : Type :=
| NoResponse (k : transport_failure) (msg : string)
| Got (r : response)
| Refused (k : local_failure) (msg : string)
| NeverReturns.

(** The remote side and the HTTP library under the tool, as seen from it:
    what a request leads to.  The request holds the headers, so the
    outcome may depend on the token. *)
Definition world : Type := request -> net_result.

Definition requests_send (w : world) (rq : request) : outcome response :=
  match w rq with
  | NoResponse k msg => Raise (mk_exn (transport_class k) msg None)
  | Got r => Return r
  | Refused k msg => Raise (mk_exn (local_class k) msg None)
  | NeverReturns => Hangs
  end.

(** [4xx] and [5xx], the codes [raise_for_status] raises on. *)
Definition is_client_error (r : response) : bool :=
  (400 <=? status_code r) && (status_code r <? 500).

Definition is_server_error (r : response) : bool :=
  (500 <=? status_code r) && (status_code r <? 600).

Definition is_error_status (r : response) : bool :=
  is_client_error r || is_server_error r.

Definition http_error_msg (r : response) : string :=
  if is_client_error r
  then pretty (status_code r) +:+ " Client Error: " +:+ reason r +:+ " for url: " +:+ url r
  else pretty (status_code r) +:+ " Server Error: " +:+ reason r +:+ " for url: " +:+ url r.

Definition raise_for_status (r : response) : outcome unit :=
  if is_error_status r
  then Raise (mk_exn HTTPError (http_error_msg r) (Some r))
  else Return tt.

Definition response_json (r : response) : outcome pyval :=
  match body_json r with
  | Decoded v => Return v
  | Undecodable msg => Raise (mk_exn RequestsJSONDecodeError msg None)
  | DecoderRaises k msg => Raise (mk_exn (decoder_class k) msg None)
  end.

(** [e.response], and the [AttributeError] of reading an attribute of
    [None] when the exception carries no response. *)
Definition e_response (e : exn) : outcome response :=
  match exn_response e with
  | Some r => Return r
  | None =>
      Raise (mk_exn AttributeError "'NoneType' object has no attribute 'status_code'" None)
  end.

(** ** The two [except] clauses shared by the tools *)

(** [except requests.exceptions.HTTPError as e:] with its inner
    [try: ... e.response.json() ... except json.JSONDecodeError:]. *)
Definition http_error_handler (e : exn) : outcome pyval :=
  r ← e_response e;
  try_except
    (error_details ← response_json r;
     Return (PyDict {[ "error" := PyStr (exn_str e); "details" := error_details ]}))
    [ (JSONDecodeError,
       fun _ => Return (PyDict {[ "error" := PyStr (exn_str e);
                                  "details" := PyStr (text r) ]})) ].

(** The variant of [get_single_project], whose inner clause is
    [except Exception:]. *)
Definition http_error_handler_any (e : exn) : outcome pyval :=
  r ← e_response e;
  try_except
    (error_details ← response_json r;
     Return (PyDict {[ "error" := PyStr (exn_str e); "details" := error_details ]}))
    [ (Exception_,
       fun _ => Return (PyDict {[ "error" := PyStr (exn_str e);
                                  "details" := PyStr (text r) ]})) ].

(** [except requests.exceptions.RequestException as e:]. *)
Definition request_error_handler (e : exn) : outcome pyval :=
  Return (PyDict {[ "error" := PyStr ("Network/Request Error: " +:+ exn_str e) ]}).

Definition api_handlers : list (handler pyval) :=
  [ (HTTPError, http_error_handler); (RequestException, request_error_handler) ].

Definition api_handlers_any : list (handler pyval) :=
  [ (HTTPError, http_error_handler_any); (RequestException, request_error_handler) ].

(** The [try] body most tools share: send, [raise_for_status()], and return
    [response.json()]. *)
Definition send_and_decode (w : world) (rq : request) : outcome pyval :=
  response ← requests_send w rq;
  raise_for_status response;;
  response_json response.

(** [d[k] = v] when [cond], the shape of every optional-parameter line. *)
Definition set_if (cond : bool) (k : string) (v : pyval) (d : pydict) : pydict :=
  if cond then <[ k := v ]> d else d.

(** [d[k] = v] when [v is not None]. *)
Definition set_some (k : string) (v : option pyval) (d : pydict) : pydict :=
  match v with
  | Some x => <[ k := x ]> d
  | None => d
  end.

(** What a tool of the shared pattern returns from a response without an
    error code: [response.json()] or [response.text]. *)
Inductive success_value : Type :=
| ResponseJson
| ResponseText.

(** The pattern that most tools follow to the letter, for any request: in
    the [try] block one call of [requests], [raise_for_status()] and the
    [return] of the decoded body or of the text, then the two clauses
    above. *)
Definition standard_tool (w : world) (rq : request) (s : success_value) : outcome pyval :=
  try_except
    (response ← requests_send w rq;
     raise_for_status response;;
     match s with
     | ResponseJson => response_json response
     | ResponseText => Return (PyStr (text response))
     end)
    api_handlers.

(** ** [urllib.parse.quote_plus] *)

(** A [str] is taken as the bytes of its UTF-8 encoding, which is what
    [quote] works on; the result is ASCII. *)
Module Urllib.

Definition in_range (lo hi : N) (c : ascii) : bool :=
  ((lo <=? N_of_ascii c) && (N_of_ascii c <=? hi))%N.

Fixpoint mem_char (c : ascii) (s : string) : bool :=
  match s with
  | EmptyString => false
  | String d s' => Ascii.eqb c d || mem_char c s'
  end.

(** [_ALWAYS_SAFE]: letters, digits and [_.-~]. *)
Definition always_safe (c : ascii) : bool :=
  in_range 65 90 c || in_range 97 122 c || in_range 48 57 c || mem_char c "_.-~".

Definition hex_digit (n : N) : ascii :=
  if (n <? 10)%N then ascii_of_N (48 + n) else ascii_of_N (55 + n).

(** ['%{:02X}'.format(b)]. *)
Definition percent (c : ascii) : string :=
  String "%" (String (hex_digit (N_of_ascii c / 16))
             (String (hex_digit (N_of_ascii c mod 16)) EmptyString)).

Definition quoter (safe : string) (c : ascii) : string :=
  if always_safe c || mem_char c safe then String c EmptyString else percent c.

Fixpoint quote_from_bytes (bs : string) (safe : string) : string :=
  match bs with
  | EmptyString => EmptyString
  | String c bs' => quoter safe c +:+ quote_from_bytes bs' safe
  end.

Definition quote (s : string) (safe : string) : string :=
  quote_from_bytes s safe.

(** [s.replace(a, b)] for single characters. *)
Fixpoint replace_char (a b : ascii) (s : string) : string :=
  match s with
  | EmptyString => EmptyString
  | String c s' => String (if Ascii.eqb c a then b else c) (replace_char a b s')
  end.

(** [quote_plus(string)] with its default [safe='']: without a space it is
    [quote(string, '')]; with one, the space is kept by [quote] and then
    replaced by a plus sign. *)
Definition quote_plus (s : string) : string :=
  if negb (mem_char " " s)
  then quote s EmptyString
  else replace_char " " "+" (quote s " ").

(** The reserved characters of RFC 3986: [gen-delims] and [sub-delims]. *)
Definition is_reserved (c : ascii) : bool :=
  mem_char c ":/?#[]@!$&'()*+,;=".

(** What [quote_plus] is shown below to write for one byte of its
    argument: the byte itself when always safe, a plus sign for a space,
    and the percent escape otherwise. *)
Definition plus_encode (c : ascii) : string :=
  if always_safe c then String c EmptyString
  else if Ascii.eqb c " " then "+"
  else percent c.

Fixpoint concat_map (f : ascii -> string) (s : string) : string :=
  match s with
  | EmptyString => EmptyString
  | String c s' => f c +:+ concat_map f s'
  end.

Fixpoint all_chars (p : ascii -> bool) (s : string) : bool :=
  match s with
  | EmptyString => true
  | String c s' => p c && all_chars p s'
  end.

(** The characters an encoded segment is made of. *)
Definition segment_char (c : ascii) : bool :=
  always_safe c || Ascii.eqb c "%" || Ascii.eqb c "+".

End Urllib.

(** ** Small pieces of Python's [str] *)

Definition lower_char (c : ascii) : ascii :=
  if Urllib.in_range 65 90 c then ascii_of_N (N_of_ascii c + 32) else c.

(** [s.lower()] on ASCII text. *)
Fixpoint str_lower (s : string) : string :=
  match s with
  | EmptyString => EmptyString
  | String c s' => String (lower_char c) (str_lower s')
  end.

(** [str(b)] for a [bool]. *)
Definition str_bool (b : bool) : string := if b then "True" else "False".

(** The conversion the commit tools apply to each value they send:
    [str(value).lower()] when [isinstance(value, bool)], the value itself
    otherwise. *)
Definition lower_if_bool (value : pyval) : pyval :=
  match value with
  | PyBool b => PyStr (str_lower (str_bool b))
  | _ => value
  end.

(** ** [server/mcp_tools/branch_tools.py] *)

Module BranchTools.

Definition gitlab_list_branches_request (cfg : config) (project_id : string)
    (regex search : option string) : request :=
  let api_url := get_gitlab_api cfg +:+ "/projects/" +:+ project_id +:+ "/repository/branches" in
  let headers : gmap string string := {[ "PRIVATE-TOKEN" := get_gitlab_token cfg ]} in
  let params : pydict :=
    if truthy_str regex then {[ "regex" := opt_str regex ]}
    else if truthy_str search then {[ "search" := opt_str search ]}
    else ∅ in
  mk_request GET api_url headers params NoBody.

Definition gitlab_list_branches (cfg : config) (w : world) (project_id : string)
    (regex search : option string) : outcome pyval :=
  try_except
    (send_and_decode w (gitlab_list_branches_request cfg project_id regex search))
    api_handlers.

Definition gitlab_get_single_branch_request (cfg : config) (project_id branch : string)
    : request :=
  let api_url := get_gitlab_api cfg +:+ "/projects/" +:+ project_id
                 +:+ "/repository/branches/" +:+ branch in
  let headers : gmap string string := {[ "PRIVATE-TOKEN" := get_gitlab_token cfg ]} in
  mk_request GET api_url headers ∅ NoBody.

Definition gitlab_get_single_branch (cfg : config) (w : world)
    (project_id branch : string) : outcome pyval :=
  try_except
    (send_and_decode w (gitlab_get_single_branch_request cfg project_id branch))
    api_handlers.

Definition gitlab_create_branch_request (cfg : config)
    (project_id branch_name ref_source : string) : request :=
  let api_url := get_gitlab_api cfg +:+ "/projects/" +:+ project_id +:+ "/repository/branches" in
  let headers : gmap string string := {[ "PRIVATE-TOKEN" := get_gitlab_token cfg ]} in
  let params : pydict := {[ "branch" := PyStr branch_name; "ref" := PyStr ref_source ]} in
  mk_request POST api_url headers params NoBody.

Definition gitlab_create_branch (cfg : config) (w : world)
    (project_id branch_name ref_source : string) : outcome pyval :=
  try_except
    (send_and_decode w (gitlab_create_branch_request cfg project_id branch_name ref_source))
    api_handlers.

Definition gitlab_delete_branch_request (cfg : config) (project_id branch_name : string)
    : request :=
  let api_url := get_gitlab_api cfg +:+ "/projects/" +:+ project_id
                 +:+ "/repository/branches/" +:+ branch_name in
  let headers : gmap string string := {[ "PRIVATE-TOKEN" := get_gitlab_token cfg ]} in
  mk_request DELETE api_url headers ∅ NoBody.

Definition gitlab_delete_branch (cfg : config) (w : world)
    (project_id branch_name : string) : outcome pyval :=
  try_except
    (response ← requests_send w (gitlab_delete_branch_request cfg project_id branch_name);
     raise_for_status response;;
     if status_code response =? 204
     then Return (PyStr ("[GITLAB DELETE BRANCH] Branch '" +:+ branch_name
                         +:+ "' deleted successfully (HTTP 204 No Content)."))
     else Return (PyDict {[ "warning" := PyStr ("Branch deletion returned unexpected status code "
                                                 +:+ pretty (status_code response) +:+ ".");
                            "text" := PyStr (text response) ]}))
    api_handlers.

End BranchTools.

(** ** [server/mcp_tools/file_tools.py] *)

Module FileTools.

Definition files_url (cfg : config) (project_id file_path : string) : string :=
  let encoded_file_path := Urllib.quote_plus file_path in
  get_gitlab_api cfg +:+ "/projects/" +:+ project_id
    +:+ "/repository/files/" +:+ encoded_file_path.

Definition json_headers (cfg : config) : gmap string string :=
  {[ "PRIVATE-TOKEN" := get_gitlab_token cfg; "Content-Type" := "application/json" ]}.

Definition create_gitlab_file_request (cfg : config)
    (project_id file_path branch content commit_message : string)
    (author_email author_name : option string)
    (encoding : arg (option string)) (execute_filemode : arg (option bool))
    (start_branch : option string) : request :=
  let encoding := arg_default (Some "text") encoding in
  let execute_filemode := arg_default (Some false) execute_filemode in
  let api_url := files_url cfg project_id file_path in
  let headers := json_headers cfg in
  let data : pydict :=
    {[ "branch" := PyStr branch;
       "commit_message" := PyStr commit_message;
       "content" := PyStr content;
       "encoding" := opt_str encoding;
       "execute_filemode" := opt_bool execute_filemode ]} in
  let data := set_if (truthy_str author_email) "author_email" (opt_str author_email) data in
  let data := set_if (truthy_str author_name) "author_name" (opt_str author_name) data in
  let data := set_if (truthy_str start_branch) "start_branch" (opt_str start_branch) data in
  mk_request POST api_url headers ∅ (JsonBody data).

Definition create_gitlab_file (cfg : config) (w : world)
    (project_id file_path branch content commit_message : string)
    (author_email author_name : option string)
    (encoding : arg (option string)) (execute_filemode : arg (option bool))
    (start_branch : option string) : outcome pyval :=
  try_except
    (send_and_decode w
       (create_gitlab_file_request cfg project_id file_path branch content commit_message
          author_email author_name encoding execute_filemode start_branch))
    api_handlers.

Definition update_gitlab_file_request (cfg : config)
    (project_id file_path branch content commit_message : string)
    (author_email author_name : option string)
    (encoding : arg string) (execute_filemode : arg bool)
    (last_commit_id start_branch : option string) : request :=
  let encoding := arg_default "text" encoding in
  let execute_filemode := arg_default false execute_filemode in
  let api_url := files_url cfg project_id file_path in
  let headers := json_headers cfg in
  let data : pydict :=
    {[ "branch" := PyStr branch;
       "commit_message" := PyStr commit_message;
       "content" := PyStr content;
       "encoding" := PyStr encoding;
       "execute_filemode" := PyBool execute_filemode ]} in
  let data := set_if (truthy_str author_email) "author_email" (opt_str author_email) data in
  let data := set_if (truthy_str author_name) "author_name" (opt_str author_name) data in
  let data := set_if (truthy_str last_commit_id) "last_commit_id" (opt_str last_commit_id) data in
  let data := set_if (truthy_str start_branch) "start_branch" (opt_str start_branch) data in
  mk_request PUT api_url headers ∅ (JsonBody data).

Definition update_gitlab_file (cfg : config) (w : world)
    (project_id file_path branch content commit_message : string)
    (author_email author_name : option string)
    (encoding : arg string) (execute_filemode : arg bool)
    (last_commit_id start_branch : option string) : outcome pyval :=
  try_except
    (send_and_decode w
       (update_gitlab_file_request cfg project_id file_path branch content commit_message
          author_email author_name encoding execute_filemode last_commit_id start_branch))
    api_handlers.

Definition delete_gitlab_file_request (cfg : config)
    (project_id file_path branch commit_message : string)
    (author_email author_name last_commit_id start_branch : option string) : request :=
  let api_url := files_url cfg project_id file_path in
  let headers := json_headers cfg in
  let data : pydict :=
    {[ "branch" := PyStr branch; "commit_message" := PyStr commit_message ]} in
  let data := set_if (truthy_str author_email) "author_email" (opt_str author_email) data in
  let data := set_if (truthy_str author_name) "author_name" (opt_str author_name) data in
  let data := set_if (truthy_str last_commit_id) "last_commit_id" (opt_str last_commit_id) data in
  let data := set_if (truthy_str start_branch) "start_branch" (opt_str start_branch) data in
  mk_request DELETE api_url headers ∅ (JsonBody data).

Definition delete_gitlab_file (cfg : config) (w : world)
    (project_id file_path branch commit_message : string)
    (author_email author_name last_commit_id start_branch : option string)
    : outcome pyval :=
  try_except
    (response ← requests_send w
       (delete_gitlab_file_request cfg project_id file_path branch commit_message
          author_email author_name last_commit_id start_branch);
     raise_for_status response;;
     if status_code response =? 204
     then Return (PyDict {[ "status" := PyStr "success";
                            "message" := PyStr "File deleted successfully (No Content returned)" ]})
     else response_json response)
    api_handlers.

Definition get_raw_gitlab_file_request (cfg : config)
    (project_id file_path ref : string) (lfs : arg bool) : request :=
  let lfs := arg_default false lfs in
  let api_url := files_url cfg project_id file_path +:+ "/raw" in
  let headers : gmap string string := {[ "PRIVATE-TOKEN" := get_gitlab_token cfg ]} in
  let params : pydict := {[ "ref" := PyStr ref; "lfs" := PyBool lfs ]} in
  mk_request GET api_url headers params NoBody.

Definition get_raw_gitlab_file (cfg : config) (w : world)
    (project_id file_path ref : string) (lfs : arg bool) : outcome pyval :=
  try_except
    (response ← requests_send w (get_raw_gitlab_file_request cfg project_id file_path ref lfs);
     raise_for_status response;;
     Return (PyStr (text response)))
    api_handlers.

Definition get_gitlab_file_metadata_and_content_request (cfg : config)
    (project_id file_path ref : string) : request :=
  let api_url := files_url cfg project_id file_path in
  let headers : gmap string string := {[ "PRIVATE-TOKEN" := get_gitlab_token cfg ]} in
  let params : pydict := {[ "ref" := PyStr ref ]} in
  mk_request GET api_url headers params NoBody.

Definition get_gitlab_file_metadata_and_content (cfg : config) (w : world)
    (project_id file_path ref : string) : outcome pyval :=
  try_except
    (send_and_decode w
       (get_gitlab_file_metadata_and_content_request cfg project_id file_path ref))
    api_handlers.

Definition get_gitlab_file_blame_request (cfg : config)
    (project_id file_path ref : string) (range_start range_end : option Z)
    (range_hash : option string) : request :=
  let api_url := files_url cfg project_id file_path +:+ "/blame" in
  let headers : gmap string string := {[ "PRIVATE-TOKEN" := get_gitlab_token cfg ]} in
  let params : pydict := {[ "ref" := PyStr ref ]} in
  let params := set_some "range[start]" (PyInt <$> range_start) params in
  let params := set_some "range[end]" (PyInt <$> range_end) params in
  let params := set_some "range" (PyStr <$> range_hash) params in
  mk_request GET api_url headers params NoBody.

Definition get_gitlab_file_blame (cfg : config) (w : world)
    (project_id file_path ref : string) (range_start range_end : option Z)
    (range_hash : option string) : outcome pyval :=
  try_except
    (send_and_decode w
       (get_gitlab_file_blame_request cfg project_id file_path ref
          range_start range_end range_hash))
    api_handlers.

End FileTools.

(** ** Helpers shared by the remaining tool modules *)

(** [headers = {}] followed by
    [if get_gitlab_token(): headers['PRIVATE-TOKEN'] = get_gitlab_token()]. *)
Definition token_headers (cfg : config) (headers : gmap string string)
    : gmap string string :=
  if nonempty (get_gitlab_token cfg)
  then <[ "PRIVATE-TOKEN" := get_gitlab_token cfg ]> headers
  else headers.

Definition is_none (v : pyval) : bool :=
  match v with
  | PyNone => true
  | _ => false
  end.

(** [{k: v for k, v in data.items() if v is not None}] for a dictionary
    literal given by its items. *)
Definition drop_none (data : list (string * pyval)) : pydict :=
  list_to_map (filter (fun kv => is_none kv.2 = false) data).

(** [len(d) == 0], the test behind [if not d:]. *)
Definition dict_is_empty (d : pydict) : bool := Nat.eqb (size d) 0.

(** ** [server/mcp_tools/commit_tools.py] *)

Module CommitTools.

(** One turn of the loop over [api_params_map] (or [optional_params]):
    a value that is not [None] is stored under its API name, booleans as
    lowercase strings. *)
Definition add_param (params : pydict) (entry : option pyval * string) : pydict :=
  match entry.1 with
  | Some value => <[ entry.2 := lower_if_bool value ]> params
  | None => params
  end.

Definition list_gitlab_repository_commits_request (cfg : config) (project_id : string)
    (all_commits : option bool) (author : option string) (first_parent : option bool)
    (order path ref_name since : option string) (trailers : option bool)
    (until : option string) (with_stats : option bool) (per_page page : option Z)
    : request :=
  let api_url := get_gitlab_api cfg +:+ "/projects/" +:+ project_id
                 +:+ "/repository/commits" in
  let headers := token_headers cfg ∅ in
  let params : pydict :=
    foldl add_param ∅
      [ (PyBool <$> all_commits, "all");
        (PyStr <$> author, "author");
        (PyBool <$> first_parent, "first_parent");
        (PyStr <$> order, "order");
        (PyStr <$> path, "path");
        (PyStr <$> ref_name, "ref_name");
        (PyStr <$> since, "since");
        (PyBool <$> trailers, "trailers");
        (PyStr <$> until, "until");
        (PyBool <$> with_stats, "with_stats");
        (PyInt <$> per_page, "per_page");
        (PyInt <$> page, "page") ] in
  mk_request GET api_url headers params NoBody.

Definition list_gitlab_repository_commits (cfg : config) (w : world) (project_id : string)
    (all_commits : option bool) (author : option string) (first_parent : option bool)
    (order path ref_name since : option string) (trailers : option bool)
    (until : option string) (with_stats : option bool) (per_page page : option Z)
    : outcome pyval :=
  try_except
    (send_and_decode w
       (list_gitlab_repository_commits_request cfg project_id all_commits author
          first_parent order path ref_name since trailers until with_stats per_page page))
    api_handlers.

Definition create_gitlab_commit_request (cfg : config)
    (project_id branch commit_message : string) (actions : list pyval)
    (author_email author_name : option string) (force : option bool)
    (start_branch : option string) (start_project : option pyval)
    (start_sha : option string) (stats : option bool) : request :=
  let api_url := get_gitlab_api cfg +:+ "/projects/" +:+ project_id
                 +:+ "/repository/commits" in
  let headers := token_headers cfg {[ "Content-Type" := "application/json" ]} in
  let payload : pydict :=
    {[ "branch" := PyStr branch;
       "commit_message" := PyStr commit_message;
       "actions" := PyList actions ]} in
  let payload :=
    foldl add_param payload
      [ (PyStr <$> author_email, "author_email");
        (PyStr <$> author_name, "author_name");
        (PyBool <$> force, "force");
        (PyStr <$> start_branch, "start_branch");
        (start_project, "start_project");
        (PyStr <$> start_sha, "start_sha");
        (PyBool <$> stats, "stats") ] in
  mk_request POST api_url headers ∅ (JsonBody payload).

Definition create_gitlab_commit (cfg : config) (w : world)
    (project_id branch commit_message : string) (actions : list pyval)
    (author_email author_name : option string) (force : option bool)
    (start_branch : option string) (start_project : option pyval)
    (start_sha : option string) (stats : option bool) : outcome pyval :=
  try_except
    (send_and_decode w
       (create_gitlab_commit_request cfg project_id branch commit_message actions
          author_email author_name force start_branch start_project start_sha stats))
    api_handlers.

(** [error_details.get('message', '')]: only a dictionary has [get]. *)
Definition get_message (error_details : pyval) : outcome pyval :=
  match error_details with
  | PyDict d => Return (default (PyStr EmptyString) (d !! "message"))
  | _ => Raise (mk_exn AttributeError "object has no attribute 'get'" None)
  end.

(** [x.lower()]: only a string has [lower]. *)
Definition py_lower (x : pyval) : outcome string :=
  match x with
  | PyStr s => Return (str_lower s)
  | _ => Raise (mk_exn AttributeError "object has no attribute 'lower'" None)
  end.

Definition get_gitlab_commit_signature_request (cfg : config) (project_id sha : string)
    : request :=
  let api_url := get_gitlab_api cfg +:+ "/projects/" +:+ project_id
                 +:+ "/repository/commits/" +:+ sha +:+ "/signature" in
  mk_request GET api_url (token_headers cfg ∅) ∅ NoBody.

(** The [HTTPError] clause of [get_gitlab_commit_signature], which looks
    into the decoded body before it returns. *)
Definition signature_error_handler (e : exn) : outcome pyval :=
  r ← e_response e;
  let status_code := status_code r in
  try_except
    (error_details ← response_json r;
     unsigned ←
       (if status_code =? 404
        then (message ← get_message error_details;
              lowered ← py_lower message;
              Return (String.eqb lowered "404 gpg signature not found"))
        else Return false);
     if (unsigned : bool)
     then Return (PyDict {[ "error" := PyStr "Commit signature not found (Commit is likely unsigned).";
                            "details" := error_details ]})
     else Return (PyDict {[ "error" := PyStr (exn_str e); "details" := error_details ]}))
    [ (JSONDecodeError,
       fun _ => Return (PyDict {[ "error" := PyStr (exn_str e);
                                  "details" := PyStr (text r) ]})) ].

Definition get_gitlab_commit_signature (cfg : config) (w : world) (project_id sha : string)
    : outcome pyval :=
  try_except
    (send_and_decode w (get_gitlab_commit_signature_request cfg project_id sha))
    [ (HTTPError, signature_error_handler); (RequestException, request_error_handler) ].

End CommitTools.

(** ** [server/mcp_tools/issue_tools.py] *)

Module IssueTools.

(** The optional fields of [edit_issue], in the order of its signature. *)
Record edit_issue_fields : Type := mk_edit_issue_fields {
  add_labels : option string;
  assignee_ids : option (list Z);
  confidential : option bool;
  description : option string;
  discussion_locked : option bool;
  due_date : option string;
  epic_id : option Z;
  issue_type : option string;
  labels : option string;
  milestone_id : option Z;
  remove_labels : option string;
  state_event : option string;
  title : option string;
  updated_at : option string;
  weight : option Z
}.

Definition edit_issue_data (f : edit_issue_fields) : pydict :=
  let data : pydict := ∅ in
  let data := set_some "add_labels" (PyStr <$> add_labels f) data in
  let data := set_some "assignee_ids" ((fun l => PyList (PyInt <$> l)) <$> assignee_ids f) data in
  let data := set_some "confidential" (PyBool <$> confidential f) data in
  let data := set_some "description" (PyStr <$> description f) data in
  let data := set_some "discussion_locked" (PyBool <$> discussion_locked f) data in
  let data := set_some "due_date" (PyStr <$> due_date f) data in
  let data := set_some "epic_id" (PyInt <$> epic_id f) data in
  let data := set_some "issue_type" (PyStr <$> issue_type f) data in
  let data := set_some "labels" (PyStr <$> labels f) data in
  let data := set_some "milestone_id" (PyInt <$> milestone_id f) data in
  let data := set_some "remove_labels" (PyStr <$> remove_labels f) data in
  let data := set_some "state_event" (PyStr <$> state_event f) data in
  let data := set_some "title" (PyStr <$> title f) data in
  let data := set_some "updated_at" (PyStr <$> updated_at f) data in
  let data := set_some "weight" (PyInt <$> weight f) data in
  data.

Definition edit_issue_request (cfg : config) (project_id : string) (issue_iid : Z)
    (f : edit_issue_fields) : request :=
  let api_url := get_gitlab_api cfg +:+ "/projects/" +:+ project_id
                 +:+ "/issues/" +:+ pretty issue_iid in
  let headers : gmap string string := {[ "PRIVATE-TOKEN" := get_gitlab_token cfg ]} in
  mk_request PUT api_url headers ∅ (JsonBody (edit_issue_data f)).

Definition edit_issue (cfg : config) (w : world) (project_id : string) (issue_iid : Z)
    (f : edit_issue_fields) : outcome pyval :=
  if dict_is_empty (edit_issue_data f)
  then Return (PyDict {[ "error" := PyStr "At least one parameter to update is required." ]})
  else
    try_except
      (send_and_decode w (edit_issue_request cfg project_id issue_iid f))
      api_handlers.

Definition delete_issue_request (cfg : config) (project_id : string) (issue_iid : Z)
    : request :=
  let api_url := get_gitlab_api cfg +:+ "/projects/" +:+ project_id
                 +:+ "/issues/" +:+ pretty issue_iid in
  let headers : gmap string string := {[ "PRIVATE-TOKEN" := get_gitlab_token cfg ]} in
  mk_request DELETE api_url headers ∅ NoBody.

Definition delete_issue (cfg : config) (w : world) (project_id : string) (issue_iid : Z)
    : outcome pyval :=
  try_except
    (response ← requests_send w (delete_issue_request cfg project_id issue_iid);
     raise_for_status response;;
     Return (PyDict {[ "status" := PyStr "success";
                       "message" := PyStr ("Issue " +:+ pretty issue_iid
                                           +:+ " deleted successfully.") ]}))
    api_handlers.

Definition delete_incident_metric_image_request (cfg : config) (project_id : string)
    (issue_iid image_id : Z) : request :=
  let api_url := get_gitlab_api cfg +:+ "/projects/" +:+ project_id
                 +:+ "/issues/" +:+ pretty issue_iid
                 +:+ "/metric_images/" +:+ pretty image_id in
  let headers : gmap string string := {[ "PRIVATE-TOKEN" := get_gitlab_token cfg ]} in
  mk_request DELETE api_url headers ∅ NoBody.

Definition delete_incident_metric_image (cfg : config) (w : world) (project_id : string)
    (issue_iid image_id : Z) : outcome pyval :=
  try_except
    (response ← requests_send w
       (delete_incident_metric_image_request cfg project_id issue_iid image_id);
     raise_for_status response;;
     Return (PyDict {[ "status" := PyStr "success";
                       "message" := PyStr ("Metric image " +:+ pretty image_id
                                           +:+ " deleted successfully.") ]}))
    api_handlers.

End IssueTools.

(** ** [server/mcp_tools/merge_request_tools.py] *)

Module MergeRequestTools.

Definition delete_gitlab_project_approval_rule_request (cfg : config)
    (project_id : string) (approval_rule_id : Z) : request :=
  let api_url := get_gitlab_api cfg +:+ "/projects/" +:+ project_id
                 +:+ "/approval_rules/" +:+ pretty approval_rule_id in
  mk_request DELETE api_url (token_headers cfg ∅) ∅ NoBody.

Definition delete_gitlab_project_approval_rule (cfg : config) (w : world)
    (project_id : string) (approval_rule_id : Z) : outcome pyval :=
  try_except
    (response ← requests_send w
       (delete_gitlab_project_approval_rule_request cfg project_id approval_rule_id);
     raise_for_status response;;
     if status_code response =? 204
     then Return (PyDict {[ "message" := PyStr ("Successfully deleted approval rule "
                                                 +:+ pretty approval_rule_id +:+ ".");
                            "status_code" := PyInt 204 ]})
     else response_json response)
    api_handlers.

Definition delete_gitlab_merge_request_approval_rule_request (cfg : config)
    (project_id : string) (merge_request_iid approval_rule_id : Z) : request :=
  let api_url := get_gitlab_api cfg +:+ "/projects/" +:+ project_id
                 +:+ "/merge_requests/" +:+ pretty merge_request_iid
                 +:+ "/approval_rules/" +:+ pretty approval_rule_id in
  mk_request DELETE api_url (token_headers cfg ∅) ∅ NoBody.

Definition delete_gitlab_merge_request_approval_rule (cfg : config) (w : world)
    (project_id : string) (merge_request_iid approval_rule_id : Z) : outcome pyval :=
  try_except
    (response ← requests_send w
       (delete_gitlab_merge_request_approval_rule_request cfg project_id
          merge_request_iid approval_rule_id);
     raise_for_status response;;
     if status_code response =? 204
     then Return (PyDict {[ "message" := PyStr ("Successfully deleted approval rule "
                                                 +:+ pretty approval_rule_id +:+ ".");
                            "status_code" := PyInt 204 ]})
     else response_json response)
    api_handlers.

Definition delete_gitlab_merge_request_dependency_request (cfg : config)
    (project_id : string) (merge_request_iid block_id : Z) : request :=
  let api_url := get_gitlab_api cfg +:+ "/projects/" +:+ project_id
                 +:+ "/merge_requests/" +:+ pretty merge_request_iid
                 +:+ "/blocks/" +:+ pretty block_id in
  mk_request DELETE api_url (token_headers cfg ∅) ∅ NoBody.

Definition delete_gitlab_merge_request_dependency (cfg : config) (w : world)
    (project_id : string) (merge_request_iid block_id : Z) : outcome pyval :=
  try_except
    (response ← requests_send w
       (delete_gitlab_merge_request_dependency_request cfg project_id
          merge_request_iid block_id);
     raise_for_status response;;
     if status_code response =? 204
     then Return PyNone
     else Return (PyDict {[ "status" := PyStr "Success";
                            "message" := PyStr ("Dependency deleted, received unexpected status code "
                                                 +:+ pretty (status_code response)) ]}))
    api_handlers.

Definition delete_gitlab_merge_request_request (cfg : config)
    (project_id : string) (merge_request_iid : Z) : request :=
  let api_url := get_gitlab_api cfg +:+ "/projects/" +:+ project_id
                 +:+ "/merge_requests/" +:+ pretty merge_request_iid in
  mk_request DELETE api_url (token_headers cfg ∅) ∅ NoBody.

Definition delete_gitlab_merge_request (cfg : config) (w : world)
    (project_id : string) (merge_request_iid : Z) : outcome pyval :=
  try_except
    (response ← requests_send w
       (delete_gitlab_merge_request_request cfg project_id merge_request_iid);
     raise_for_status response;;
     if status_code response =? 204
     then Return PyNone
     else Return (PyDict {[ "status" := PyStr "Success";
                            "message" := PyStr ("Merge request deleted, received unexpected status code "
                                                 +:+ pretty (status_code response)) ]}))
    api_handlers.

(** The optional fields of [update_gitlab_merge_request], in the order of
    its signature. *)
Record update_fields : Type := mk_update_fields {
  title : option string;
  description : option string;
  target_branch : option string;
  state_event : option string;
  assignee_ids : option (list Z);
  reviewer_ids : option (list Z);
  add_labels : option string;
  remove_labels : option string;
  labels : option string;
  milestone_id : option Z;
  remove_source_branch : option bool;
  squash : option bool;
  discussion_locked : option bool;
  allow_collaboration : option bool;
  merge_after : option string;
  assignee_id : option Z;
  allow_maintainer_to_push : option bool
}.

Definition opt_int (x : option Z) : pyval :=
  match x with
  | None => PyNone
  | Some n => PyInt n
  end.

Definition opt_ints (x : option (list Z)) : pyval :=
  match x with
  | None => PyNone
  | Some l => PyList (PyInt <$> l)
  end.

Definition update_gitlab_merge_request_payload (f : update_fields) : pydict :=
  let data : list (string * pyval) :=
    [ ("title", opt_str (title f));
      ("description", opt_str (description f));
      ("target_branch", opt_str (target_branch f));
      ("state_event", opt_str (state_event f));
      ("assignee_ids", opt_ints (assignee_ids f));
      ("reviewer_ids", opt_ints (reviewer_ids f));
      ("add_labels", opt_str (add_labels f));
      ("remove_labels", opt_str (remove_labels f));
      ("labels", opt_str (labels f));
      ("milestone_id", opt_int (milestone_id f));
      ("remove_source_branch", opt_bool (remove_source_branch f));
      ("squash", opt_bool (squash f));
      ("discussion_locked", opt_bool (discussion_locked f));
      ("allow_collaboration", opt_bool (allow_collaboration f));
      ("merge_after", opt_str (merge_after f));
      ("assignee_id", opt_int (assignee_id f));
      ("allow_maintainer_to_push", opt_bool (allow_maintainer_to_push f)) ] in
  drop_none data.

Definition update_gitlab_merge_request_request (cfg : config)
    (project_id : string) (merge_request_iid : Z) (f : update_fields) : request :=
  let api_url := get_gitlab_api cfg +:+ "/projects/" +:+ project_id
                 +:+ "/merge_requests/" +:+ pretty merge_request_iid in
  mk_request PUT api_url (token_headers cfg ∅) ∅
    (JsonBody (update_gitlab_merge_request_payload f)).

Definition update_gitlab_merge_request (cfg : config) (w : world)
    (project_id : string) (merge_request_iid : Z) (f : update_fields) : outcome pyval :=
  if dict_is_empty (update_gitlab_merge_request_payload f)
  then Return (PyDict {[ "error" := PyStr ("Update failed: Must provide at least one field "
                           +:+ "to update (e.g., title, description, state_event).") ]})
  else
    try_except
      (send_and_decode w (update_gitlab_merge_request_request cfg project_id merge_request_iid f))
      api_handlers.

End MergeRequestTools.

(** ** [server/mcp_tools/project_tools.py] *)

Module ProjectTools.

Definition get_single_project_request (cfg : config) (project_id : string)
    (license statistics with_custom_attributes : arg (option bool)) : request :=
  let license := arg_default (Some false) license in
  let statistics := arg_default (Some false) statistics in
  let with_custom_attributes := arg_default (Some false) with_custom_attributes in
  let api_url := get_gitlab_api cfg +:+ "/projects/" +:+ project_id in
  let headers : gmap string string := {[ "PRIVATE-TOKEN" := get_gitlab_token cfg ]} in
  let params : pydict := ∅ in
  let params := set_if (truthy_bool license) "license" (opt_bool license) params in
  let params := set_if (truthy_bool statistics) "statistics" (opt_bool statistics) params in
  let params := set_if (truthy_bool with_custom_attributes) "with_custom_attributes"
                  (opt_bool with_custom_attributes) params in
  mk_request GET api_url headers params NoBody.

Definition get_single_project (cfg : config) (w : world) (project_id : string)
    (license statistics with_custom_attributes : arg (option bool)) : outcome pyval :=
  try_except
    (send_and_decode w
       (get_single_project_request cfg project_id license statistics with_custom_attributes))
    api_handlers_any.

Definition delete_project_request (cfg : config) (project_id : string)
    (full_path : option string) (permanently_remove : option pyval) : request :=
  let api_url := get_gitlab_api cfg +:+ "/projects/" +:+ project_id in
  let headers : gmap string string := {[ "PRIVATE-TOKEN" := get_gitlab_token cfg ]} in
  let params : pydict := ∅ in
  let params := set_some "full_path" (PyStr <$> full_path) params in
  let params := set_some "permanently_remove" permanently_remove params in
  mk_request DELETE api_url headers params NoBody.

(** After [raise_for_status()] the function body ends: a code that is
    neither 202 nor 204 nor an error makes the function return [None]. *)
Definition delete_project (cfg : config) (w : world) (project_id : string)
    (full_path : option string) (permanently_remove : option pyval) : outcome pyval :=
  try_except
    (response ← requests_send w
       (delete_project_request cfg project_id full_path permanently_remove);
     if (status_code response =? 202) || (status_code response =? 204)
     then
       let status_desc :=
         if status_code response =? 204 then "immediately deleted"
         else "queued for deletion" in
       Return (PyStr ("Project '" +:+ project_id +:+ "' successfully " +:+ status_desc
                      +:+ " (HTTP " +:+ pretty (status_code response) +:+ ")."))
     else
       (raise_for_status response;;
        Return PyNone))
    api_handlers.

Definition unshare_project_from_group_request (cfg : config) (project_id : string)
    (group_id : Z) : request :=
  let api_url := get_gitlab_api cfg +:+ "/projects/" +:+ project_id
                 +:+ "/share/" +:+ pretty group_id in
  let headers : gmap string string := {[ "PRIVATE-TOKEN" := get_gitlab_token cfg ]} in
  mk_request DELETE api_url headers ∅ NoBody.

Definition unshare_project_from_group (cfg : config) (w : world) (project_id : string)
    (group_id : Z) : outcome pyval :=
  try_except
    (response ← requests_send w (unshare_project_from_group_request cfg project_id group_id);
     raise_for_status response;;
     if status_code response =? 204
     then Return (PyDict {[ "success" := PyStr ("Project " +:+ project_id
                                                 +:+ " unshared from group "
                                                 +:+ pretty group_id +:+ ".") ]})
     else Return (PyDict {[ "warning" := PyStr ("Unshare request completed with status code "
                                                 +:+ pretty (status_code response) +:+ ".") ]}))
    api_handlers.

End ProjectTools.

(** ** [server/mcp_tools/repo_tools.py] *)

Module RepoTools.

Definition update_gitlab_submodule_reference_request (cfg : config)
    (project_id submodule_path branch commit_sha : string)
    (commit_message : option string) : request :=
  let api_url := get_gitlab_api cfg +:+ "/projects/" +:+ project_id
                 +:+ "/repository/submodules/" +:+ submodule_path in
  let headers : gmap string string :=
    {[ "PRIVATE-TOKEN" := get_gitlab_token cfg;
       "Content-Type" := "application/x-www-form-urlencoded" ]} in
  let data : pydict := {[ "branch" := PyStr branch; "commit_sha" := PyStr commit_sha ]} in
  let data := set_if (truthy_str commit_message) "commit_message" (opt_str commit_message) data in
  mk_request PUT api_url headers ∅ (FormBody data).

Definition update_gitlab_submodule_reference (cfg : config) (w : world)
    (project_id submodule_path branch commit_sha : string)
    (commit_message : option string) : outcome pyval :=
  try_except
    (send_and_decode w
       (update_gitlab_submodule_reference_request cfg project_id submodule_path branch
          commit_sha commit_message))
    api_handlers.

(** [client.post(...)]: no statement of [repo_tools.py] binds the name
    [client] (the module imports [mcp], [get_gitlab_api] and
    [get_gitlab_token] from the configuration module, and [httpx]), so
    evaluating it raises [NameError] and nothing is ever returned. *)
Definition client_post (rq : request) : outcome Empty_set :=
  Raise (mk_exn NameError "name 'client' is not defined" None).

Definition raise_ {A : Type} (c : exn_class) (msg : string) : outcome A :=
  Raise (mk_exn c msg None).

(** The four [except] clauses of [create_repository]; each one raises a new
    [Exception]. *)
Definition create_repository_handlers : list (handler pyval) :=
  [ (HttpxHTTPError,
     fun e =>
       match exn_response e with
       | Some r =>
           raise_ Exception_ ("GitLab API error " +:+ pretty (status_code r) +:+ ": "
                              +:+ reason r)
       | None =>
           raise_ Exception_ ("Network error connecting to GitLab API: " +:+ exn_str e)
       end);
    (ValueError,
     fun e => raise_ Exception_ ("Parameter validation error: " +:+ exn_str e));
    (KeyError,
     fun e => raise_ Exception_ ("Missing expected field in GitLab response: " +:+ exn_str e));
    (Exception_,
     fun e => raise_ Exception_ ("Unexpected error during repository creation: "
                                 +:+ exn_str e)) ].

Definition create_repository_request (cfg : config) (name : string)
    (description : option string) (visibility : option string)
    (initialize_with_readme : option bool) : request :=
  let payload :=
    drop_none
      [ ("name", PyStr name);
        ("description", opt_str description);
        ("visibility", opt_str visibility);
        ("initialize_with_readme", opt_bool initialize_with_readme) ] in
  mk_request POST (get_gitlab_api cfg +:+ "/projects") ∅ ∅ (JsonBody payload).

(** [create_repository], up to the call through [client]: the statements
    that follow it in the [try] body (the status checks, the decoding and
    the construction of the [GitLabRepository]) are never reached. *)
Definition create_repository (cfg : config) (name : string)
    (description : option string) (visibility : arg (option string))
    (initialize_with_readme : arg (option bool)) : outcome pyval :=
  let visibility := arg_default (Some "private") visibility in
  let initialize_with_readme := arg_default (Some false) initialize_with_readme in
  try_except
    ((if negb (nonempty name)
      then raise_ ValueError "Repository name is required"
      else Return tt);;
     (if truthy_str visibility
         && negb (bool_decide (default EmptyString visibility ∈ ["private"; "internal"; "public"]))
      then raise_ ValueError "Visibility must be 'private', 'internal', or 'public'"
      else Return tt);;
     client_post
       (create_repository_request cfg name description visibility initialize_with_readme)
     ≫= (fun response : Empty_set => match response with end))
    create_repository_handlers.

End RepoTools.

(** ** The tools built on [requests], as one family *)

Import BranchTools FileTools CommitTools.

(** A call of one of the modelled tools that go through [requests], with its
    arguments. *)
Inductive tool_call : Type :=
| GitlabListBranches (project_id : string) (regex search : option string)
| GitlabGetSingleBranch (project_id branch : string)
| GitlabCreateBranch (project_id branch_name ref_source : string)
| GitlabDeleteBranch (project_id branch_name : string)
| CreateGitlabFile (project_id file_path branch content commit_message : string)
    (author_email author_name : option string)
    (encoding : arg (option string)) (execute_filemode : arg (option bool))
    (start_branch : option string)
| UpdateGitlabFile (project_id file_path branch content commit_message : string)
    (author_email author_name : option string)
    (encoding : arg string) (execute_filemode : arg bool)
    (last_commit_id start_branch : option string)
| DeleteGitlabFile (project_id file_path branch commit_message : string)
    (author_email author_name last_commit_id start_branch : option string)
| GetRawGitlabFile (project_id file_path ref : string) (lfs : arg bool)
| GetGitlabFileMetadataAndContent (project_id file_path ref : string)
| GetGitlabFileBlame (project_id file_path ref : string)
    (range_start range_end : option Z) (range_hash : option string)
| ListGitlabRepositoryCommits (project_id : string)
    (all_commits : option bool) (author : option string) (first_parent : option bool)
    (order path ref_name since : option string) (trailers : option bool)
    (until : option string) (with_stats : option bool) (per_page page : option Z)
| CreateGitlabCommit (project_id branch commit_message : string) (actions : list pyval)
    (author_email author_name : option string) (force : option bool)
    (start_branch : option string) (start_project : option pyval)
    (start_sha : option string) (stats : option bool)
| EditIssue (project_id : string) (issue_iid : Z) (f : IssueTools.edit_issue_fields)
| DeleteIssue (project_id : string) (issue_iid : Z)
| DeleteIncidentMetricImage (project_id : string) (issue_iid image_id : Z)
| DeleteGitlabProjectApprovalRule (project_id : string) (approval_rule_id : Z)
| DeleteGitlabMergeRequestApprovalRule (project_id : string)
    (merge_request_iid approval_rule_id : Z)
| DeleteGitlabMergeRequestDependency (project_id : string) (merge_request_iid block_id : Z)
| DeleteGitlabMergeRequest (project_id : string) (merge_request_iid : Z)
| UpdateGitlabMergeRequest (project_id : string) (merge_request_iid : Z)
    (f : MergeRequestTools.update_fields)
| GetSingleProject (project_id : string)
    (license statistics with_custom_attributes : arg (option bool))
| DeleteProject (project_id : string) (full_path : option string)
    (permanently_remove : option pyval)
| UnshareProjectFromGroup (project_id : string) (group_id : Z)
| UpdateGitlabSubmoduleReference (project_id submodule_path branch commit_sha : string)
    (commit_message : option string).

(** The tool run against a store and a remote side. *)
Definition run_tool (cfg : config) (w : world) (c : tool_call) : outcome pyval :=
  match c with
  | GitlabListBranches p r s => gitlab_list_branches cfg w p r s
  | GitlabGetSingleBranch p b => gitlab_get_single_branch cfg w p b
  | GitlabCreateBranch p b r => gitlab_create_branch cfg w p b r
  | GitlabDeleteBranch p b => gitlab_delete_branch cfg w p b
  | CreateGitlabFile p fp b ct m ae an enc ex sb =>
      create_gitlab_file cfg w p fp b ct m ae an enc ex sb
  | UpdateGitlabFile p fp b ct m ae an enc ex lc sb =>
      update_gitlab_file cfg w p fp b ct m ae an enc ex lc sb
  | DeleteGitlabFile p fp b m ae an lc sb => delete_gitlab_file cfg w p fp b m ae an lc sb
  | GetRawGitlabFile p fp r lfs => get_raw_gitlab_file cfg w p fp r lfs
  | GetGitlabFileMetadataAndContent p fp r => get_gitlab_file_metadata_and_content cfg w p fp r
  | GetGitlabFileBlame p fp r rs re rh => get_gitlab_file_blame cfg w p fp r rs re rh
  | ListGitlabRepositoryCommits p a au fpa o pa rn si tr un ws pp pg =>
      list_gitlab_repository_commits cfg w p a au fpa o pa rn si tr un ws pp pg
  | CreateGitlabCommit p b m acts ae an fo sb sp ss st =>
      create_gitlab_commit cfg w p b m acts ae an fo sb sp ss st
  | EditIssue p i f => IssueTools.edit_issue cfg w p i f
  | DeleteIssue p i => IssueTools.delete_issue cfg w p i
  | DeleteIncidentMetricImage p i im => IssueTools.delete_incident_metric_image cfg w p i im
  | DeleteGitlabProjectApprovalRule p a =>
      MergeRequestTools.delete_gitlab_project_approval_rule cfg w p a
  | DeleteGitlabMergeRequestApprovalRule p m a =>
      MergeRequestTools.delete_gitlab_merge_request_approval_rule cfg w p m a
  | DeleteGitlabMergeRequestDependency p m b =>
      MergeRequestTools.delete_gitlab_merge_request_dependency cfg w p m b
  | DeleteGitlabMergeRequest p m => MergeRequestTools.delete_gitlab_merge_request cfg w p m
  | UpdateGitlabMergeRequest p m f => MergeRequestTools.update_gitlab_merge_request cfg w p m f
  | GetSingleProject p l s wc => ProjectTools.get_single_project cfg w p l s wc
  | DeleteProject p fp pr => ProjectTools.delete_project cfg w p fp pr
  | UnshareProjectFromGroup p g => ProjectTools.unshare_project_from_group cfg w p g
  | UpdateGitlabSubmoduleReference p sp b cs m =>
      RepoTools.update_gitlab_submodule_reference cfg w p sp b cs m
  end.

(** The request the tool hands to [requests]; [None] when it returns before
    sending one. *)
Definition tool_request (cfg : config) (c : tool_call) : option request :=
  match c with
  | GitlabListBranches p r s => Some (gitlab_list_branches_request cfg p r s)
  | GitlabGetSingleBranch p b => Some (gitlab_get_single_branch_request cfg p b)
  | GitlabCreateBranch p b r => Some (gitlab_create_branch_request cfg p b r)
  | GitlabDeleteBranch p b => Some (gitlab_delete_branch_request cfg p b)
  | CreateGitlabFile p fp b ct m ae an enc ex sb =>
      Some (create_gitlab_file_request cfg p fp b ct m ae an enc ex sb)
  | UpdateGitlabFile p fp b ct m ae an enc ex lc sb =>
      Some (update_gitlab_file_request cfg p fp b ct m ae an enc ex lc sb)
  | DeleteGitlabFile p fp b m ae an lc sb =>
      Some (delete_gitlab_file_request cfg p fp b m ae an lc sb)
  | GetRawGitlabFile p fp r lfs => Some (get_raw_gitlab_file_request cfg p fp r lfs)
  | GetGitlabFileMetadataAndContent p fp r =>
      Some (get_gitlab_file_metadata_and_content_request cfg p fp r)
  | GetGitlabFileBlame p fp r rs re rh =>
      Some (get_gitlab_file_blame_request cfg p fp r rs re rh)
  | ListGitlabRepositoryCommits p a au fpa o pa rn si tr un ws pp pg =>
      Some (list_gitlab_repository_commits_request cfg p a au fpa o pa rn si tr un ws pp pg)
  | CreateGitlabCommit p b m acts ae an fo sb sp ss st =>
      Some (create_gitlab_commit_request cfg p b m acts ae an fo sb sp ss st)
  | EditIssue p i f =>
      if dict_is_empty (IssueTools.edit_issue_data f) then None
      else Some (IssueTools.edit_issue_request cfg p i f)
  | DeleteIssue p i => Some (IssueTools.delete_issue_request cfg p i)
  | DeleteIncidentMetricImage p i im =>
      Some (IssueTools.delete_incident_metric_image_request cfg p i im)
  | DeleteGitlabProjectApprovalRule p a =>
      Some (MergeRequestTools.delete_gitlab_project_approval_rule_request cfg p a)
  | DeleteGitlabMergeRequestApprovalRule p m a =>
      Some (MergeRequestTools.delete_gitlab_merge_request_approval_rule_request cfg p m a)
  | DeleteGitlabMergeRequestDependency p m b =>
      Some (MergeRequestTools.delete_gitlab_merge_request_dependency_request cfg p m b)
  | DeleteGitlabMergeRequest p m =>
      Some (MergeRequestTools.delete_gitlab_merge_request_request cfg p m)
  | UpdateGitlabMergeRequest p m f =>
      if dict_is_empty (MergeRequestTools.update_gitlab_merge_request_payload f) then None
      else Some (MergeRequestTools.update_gitlab_merge_request_request cfg p m f)
  | GetSingleProject p l s wc => Some (ProjectTools.get_single_project_request cfg p l s wc)
  | DeleteProject p fp pr => Some (ProjectTools.delete_project_request cfg p fp pr)
  | UnshareProjectFromGroup p g =>
      Some (ProjectTools.unshare_project_from_group_request cfg p g)
  | UpdateGitlabSubmoduleReference p sp b cs m =>
      Some (RepoTools.update_gitlab_submodule_reference_request cfg p sp b cs m)
  end.

(** The tools that issue an HTTP DELETE. *)
Definition is_delete_tool (c : tool_call) : bool :=
  match c with
  | GitlabDeleteBranch _ _
  | DeleteGitlabFile _ _ _ _ _ _ _ _
  | DeleteIssue _ _
  | DeleteIncidentMetricImage _ _ _
  | DeleteGitlabProjectApprovalRule _ _
  | DeleteGitlabMergeRequestApprovalRule _ _ _
  | DeleteGitlabMergeRequestDependency _ _ _
  | DeleteGitlabMergeRequest _ _
  | DeleteProject _ _ _
  | UnshareProjectFromGroup _ _ => true
  | _ => false
  end.

(** Whether, on a response with this status code that is not an error, the
    tool returns [response.json()]. *)
Definition returns_decoded_body (c : tool_call) (status : Z) : bool :=
  match c with
  | GitlabDeleteBranch _ _
  | GetRawGitlabFile _ _ _ _
  | DeleteIssue _ _
  | DeleteIncidentMetricImage _ _ _
  | DeleteGitlabMergeRequestDependency _ _ _
  | DeleteGitlabMergeRequest _ _
  | DeleteProject _ _ _
  | UnshareProjectFromGroup _ _ => false
  | DeleteGitlabFile _ _ _ _ _ _ _ _
  | DeleteGitlabProjectApprovalRule _ _
  | DeleteGitlabMergeRequestApprovalRule _ _ _ => negb (status =? 204)
  | _ => true
  end.

(** The dictionary returned when a [RequestException] other than an
    [HTTPError] is caught. *)
Definition network_error_result (msg : string) : pyval :=
  PyDict {[ "error" := PyStr ("Network/Request Error: " +:+ msg) ]}.

(** What the shared [HTTPError] clause makes of a response: the error with
    the decoded body as details, or with the raw text when the body is not
    JSON; a failure of the decoder that is no [JSONDecodeError] leaves the
    clause as it is. *)
Definition http_error_result (r : response) : outcome pyval :=
  match body_json r with
  | Decoded v =>
      Return (PyDict {[ "error" := PyStr (http_error_msg r); "details" := v ]})
  | Undecodable _ =>
      Return (PyDict {[ "error" := PyStr (http_error_msg r); "details" := PyStr (text r) ]})
  | DecoderRaises k msg => Raise (mk_exn (decoder_class k) msg None)
  end.

(** The same for the clause whose inner [except] names [Exception]: every
    failure of the decoder leads to the raw text. *)
Definition http_error_result_any (r : response) : outcome pyval :=
  match body_json r with
  | Decoded v =>
      Return (PyDict {[ "error" := PyStr (http_error_msg r); "details" := v ]})
  | Undecodable _ | DecoderRaises _ _ =>
      Return (PyDict {[ "error" := PyStr (http_error_msg r); "details" := PyStr (text r) ]})
  end.

(** What [return response.json()] gives under the two shared clauses: the
    decoded payload; the dictionary of the [RequestException] clause when
    the body is not JSON; the decoder's other failures untouched. *)
Definition decoded_or_error (r : response) : outcome pyval :=
  match body_json r with
  | Decoded v => Return v
  | Undecodable msg => Return (network_error_result msg)
  | DecoderRaises k msg => Raise (mk_exn (decoder_class k) msg None)
  end.

(** The tools whose [HTTPError] clause has [except Exception:] inside. *)
Definition catches_every_decoder_failure (c : tool_call) : bool :=
  match c with
  | GetSingleProject _ _ _ _ => true
  | _ => false
  end.

(** The call comes back, with a response or with a [RequestException], and
    the decoder, if it fails on the body, fails with a [JSONDecodeError]. *)
Definition well_behaved (n : net_result) : bool :=
  match n with
  | NoResponse _ _ => true
  | Got r =>
      match body_json r with
      | DecoderRaises _ _ => false
      | _ => true
      end
  | Refused _ _ | NeverReturns => false
  end.

(** What came back counts as a failure: nothing, or a 4xx or 5xx code. *)
Definition is_failure (n : net_result) : bool :=
  match n with
  | NoResponse _ _ => true
  | Got r => is_error_status r
  | Refused _ _ | NeverReturns => false
  end.

(** The tools whose header map always carries [PRIVATE-TOKEN]; the others
    add it only when the token is not empty. *)
Definition sends_token_unconditionally (c : tool_call) : bool :=
  match c with
  | ListGitlabRepositoryCommits _ _ _ _ _ _ _ _ _ _ _ _ _
  | CreateGitlabCommit _ _ _ _ _ _ _ _ _ _ _
  | DeleteGitlabProjectApprovalRule _ _
  | DeleteGitlabMergeRequestApprovalRule _ _ _
  | DeleteGitlabMergeRequestDependency _ _ _
  | DeleteGitlabMergeRequest _ _
  | UpdateGitlabMergeRequest _ _ _ => false
  | _ => true
  end.

(** The delete tools documented to return [None] on 204. *)
Definition returns_none_on_204 (c : tool_call) : bool :=
  match c with
  | DeleteGitlabMergeRequestDependency _ _ _
  | DeleteGitlabMergeRequest _ _ => true
  | _ => false
  end.

(** A message ([str]) or a status object ([dict]). *)
Definition is_message_or_status (v : pyval) : bool :=
  match v with
  | PyStr _ | PyDict _ => true
  | _ => false
  end.

(** The dictionary of a JSON or form body. *)
Definition body_dict (p : payload) : pydict :=
  match p with
  | NoBody => ∅
  | JsonBody d | FormBody d => d
  end.

(** ** Concrete stores and remote sides used in the examples *)

Module Examples.

Definition configured : config := mk_config "https://gitlab.com/api/v4" "glpat-example".

Definition no_token : config := mk_config "https://gitlab.com/api/v4" EmptyString.

(** The network is down. *)
Definition offline : world :=
  fun _ => NoResponse ConnectionFailed "Connection refused".

Definition not_found_html : response :=
  mk_response 404 "Not Found" "https://gitlab.com/api/v4/projects/42/repository/branches"
    "<html>404</html>" (Undecodable "Expecting value: line 1 column 1 (char 0)").

Definition not_found_json : response :=
  mk_response 404 "Not Found" "https://gitlab.com/api/v4/projects/42/repository/branches"
    "{'message': '404 Project Not Found'}"
    (Decoded (PyDict {[ "message" := PyStr "404 Project Not Found" ]})).

Definition no_content : response :=
  mk_response 204 "No Content" "https://gitlab.com/api/v4/projects/42/merge_requests/7"
    EmptyString (Undecodable "Expecting value: line 1 column 1 (char 0)").

(** A 404 whose body is the JSON text of an empty list. *)
Definition not_found_list : response :=
  mk_response 404 "Not Found"
    "https://gitlab.com/api/v4/projects/42/repository/commits/main/signature"
    "[]" (Decoded (PyList [])).

Definition answers (r : response) : world := fun _ => Got r.

End Examples.


(** ** Reading an encoded path segment back *)

(** The inverse of the byte-wise encoding, used to show that
    [quote_plus] loses nothing: a plus sign stands for a space and
    [%XY] for the byte with these two hexadecimal digits. *)
Module Unquote.

Definition hex_value (c : ascii) : N :=
  if Urllib.in_range 48 57 c then (N_of_ascii c - 48)%N
  else if Urllib.in_range 65 70 c then (N_of_ascii c - 55)%N
  else if Urllib.in_range 97 102 c then (N_of_ascii c - 87)%N
  else 0%N.

Fixpoint unquote_plus (s : string) : string :=
  match s with
  | EmptyString => EmptyString
  | String c s' =>
      if Ascii.eqb c "+" then String " " (unquote_plus s')
      else if Ascii.eqb c "%" then
        match s' with
        | String h (String l s'') =>
            String (ascii_of_N (16 * hex_value h + hex_value l)) (unquote_plus s'')
        | _ => String c (unquote_plus s')
        end
      else String c (unquote_plus s')
  end.

(** The bytes [quote_plus] writes as a percent escape. *)
Definition is_escaped (c : ascii) : bool :=
  negb (Urllib.always_safe c) && negb (Ascii.eqb c " ").

Fixpoint count_chars (p : ascii -> bool) (s : string) : nat :=
  match s with
  | EmptyString => 0%nat
  | String c s' => ((if p c then 1 else 0) + count_chars p s')%nat
  end.

End Unquote.

(** ** More of [server/mcp_tools/commit_tools.py] *)

Module MoreCommitTools.

(** [needle in s] for two strings. *)
Fixpoint is_substring (needle s : string) : bool :=
  String.prefix needle s
  || match s with
     | EmptyString => false
     | String _ s' => is_substring needle s'
     end.

(** [key in v] for a string [key] and a decoded JSON value [v]: membership
    among the keys of an object or the items of an array, containment in a
    string, and a [TypeError] on anything else. *)
Definition str_in (key : string) (v : pyval) : outcome bool :=
  match v with
  | PyDict d => Return (bool_decide (is_Some (d !! key)))
  | PyList l =>
      Return (existsb (fun x => match x with
                                | PyStr s => String.eqb s key
                                | _ => false
                                end) l)
  | PyStr s => Return (is_substring key s)
  | _ => Raise (mk_exn TypeError "argument of this type is not iterable" None)
  end.

(** [v.get(key, dflt)]: only a dictionary has [get]. *)
Definition py_get (key : string) (dflt : pyval) (v : pyval) : outcome pyval :=
  match v with
  | PyDict d => Return (default dflt (d !! key))
  | _ => Raise (mk_exn AttributeError "object has no attribute 'get'" None)
  end.

(** The [HTTPError] clause shared by [cherry_pick_gitlab_commit] and
    [revert_gitlab_commit]. *)
Definition pick_error_handler (e : exn) : outcome pyval :=
  r ← e_response e;
  try_except
    (error_details ← response_json r;
     has_code ← str_in "error_code" error_details;
     known ← (if (has_code : bool) then Return true else str_in "message" error_details);
     if (known : bool)
     then
       (error ← py_get "message" (PyStr (exn_str e)) error_details;
        error_code ← py_get "error_code" (PyStr "unknown_api_error") error_details;
        Return (PyDict {[ "error" := error; "error_code" := error_code ]}))
     else Return (PyDict {[ "error" := PyStr (exn_str e); "details" := error_details ]}))
    [ (JSONDecodeError,
       fun _ => Return (PyDict {[ "error" := PyStr (exn_str e);
                                  "details" := PyStr (text r) ]})) ].

Definition pick_handlers : list (handler pyval) :=
  [ (HTTPError, pick_error_handler); (RequestException, request_error_handler) ].

(** [str(dry_run).lower()]. *)
Definition lower_bool (b : bool) : pyval := PyStr (str_lower (str_bool b)).

Definition cherry_pick_gitlab_commit_request (cfg : config) (project_id sha branch : string)
    (dry_run : option bool) (message : option string) : request :=
  let api_url := get_gitlab_api cfg +:+ "/projects/" +:+ project_id
                 +:+ "/repository/commits/" +:+ sha +:+ "/cherry_pick" in
  let headers := token_headers cfg {[ "Content-Type" := "application/json" ]} in
  let payload : pydict := {[ "branch" := PyStr branch ]} in
  let payload := set_some "dry_run" (lower_bool <$> dry_run) payload in
  let payload := set_some "message" (PyStr <$> message) payload in
  mk_request POST api_url headers ∅ (JsonBody payload).

Definition cherry_pick_gitlab_commit (cfg : config) (w : world)
    (project_id sha branch : string) (dry_run : option bool) (message : option string)
    : outcome pyval :=
  try_except
    (response ← requests_send w
       (cherry_pick_gitlab_commit_request cfg project_id sha branch dry_run message);
     if status_code response =? 201 then response_json response
     else if (status_code response =? 200) && truthy_bool dry_run
          then response_json response
          else (raise_for_status response;; response_json response))
    pick_handlers.

Definition revert_gitlab_commit_request (cfg : config) (project_id sha branch : string)
    (dry_run : option bool) : request :=
  let api_url := get_gitlab_api cfg +:+ "/projects/" +:+ project_id
                 +:+ "/repository/commits/" +:+ sha +:+ "/revert" in
  let headers := token_headers cfg {[ "Content-Type" := "application/json" ]} in
  let payload : pydict := {[ "branch" := PyStr branch ]} in
  let payload := set_some "dry_run" (lower_bool <$> dry_run) payload in
  mk_request POST api_url headers ∅ (JsonBody payload).

Definition revert_gitlab_commit (cfg : config) (w : world)
    (project_id sha branch : string) (dry_run : option bool) : outcome pyval :=
  try_except
    (response ← requests_send w
       (revert_gitlab_commit_request cfg project_id sha branch dry_run);
     if status_code response =? 201 then response_json response
     else if (status_code response =? 200) && truthy_bool dry_run
          then response_json response
          else (raise_for_status response;; response_json response))
    pick_handlers.

(** [coverage] is a float, which the tool hands on as it is; it is kept
    as an opaque value. *)
Definition set_gitlab_commit_pipeline_status_request (cfg : config)
    (project_id sha state : string) (coverage : option pyval)
    (description name context : option string) (pipeline_id : option Z)
    (ref target_url : option string) : request :=
  let api_url := get_gitlab_api cfg +:+ "/projects/" +:+ project_id
                 +:+ "/statuses/" +:+ sha in
  let headers := token_headers cfg {[ "Content-Type" := "application/json" ]} in
  let payload : pydict := {[ "state" := PyStr state ]} in
  let payload :=
    match name with
    | Some n => <[ "name" := PyStr n ]> payload
    | None => set_some "context" (PyStr <$> context) payload
    end in
  let payload := set_some "coverage" coverage payload in
  let payload := set_some "description" (PyStr <$> description) payload in
  let payload := set_some "pipeline_id" (PyInt <$> pipeline_id) payload in
  let payload := set_some "ref" (PyStr <$> ref) payload in
  let payload := set_some "target_url" (PyStr <$> target_url) payload in
  mk_request POST api_url headers ∅ (JsonBody payload).

Definition set_gitlab_commit_pipeline_status (cfg : config) (w : world)
    (project_id sha state : string) (coverage : option pyval)
    (description name context : option string) (pipeline_id : option Z)
    (ref target_url : option string) : outcome pyval :=
  try_except
    (send_and_decode w
       (set_gitlab_commit_pipeline_status_request cfg project_id sha state coverage
          description name context pipeline_id ref target_url))
    api_handlers.

End MoreCommitTools.

(** ** More of [server/mcp_tools/issue_tools.py] *)

Module MoreIssueTools.

Definition reorder_issue_request (cfg : config) (project_id : string) (issue_iid : Z)
    (move_after_id move_before_id : option Z) : request :=
  let api_url := get_gitlab_api cfg +:+ "/projects/" +:+ project_id
                 +:+ "/issues/" +:+ pretty issue_iid +:+ "/reorder" in
  let headers : gmap string string := {[ "PRIVATE-TOKEN" := get_gitlab_token cfg ]} in
  let params : pydict := ∅ in
  let params := set_some "move_after_id" (PyInt <$> move_after_id) params in
  let params := set_some "move_before_id" (PyInt <$> move_before_id) params in
  mk_request PUT api_url headers params NoBody.

Definition reorder_issue (cfg : config) (w : world) (project_id : string) (issue_iid : Z)
    (move_after_id move_before_id : option Z) : outcome pyval :=
  if bool_decide (move_after_id = None) && bool_decide (move_before_id = None)
  then Return (PyDict {[ "error" := PyStr
                 "At least one of 'move_after_id' or 'move_before_id' is required." ]})
  else
    try_except
      (send_and_decode w
         (reorder_issue_request cfg project_id issue_iid move_after_id move_before_id))
      api_handlers.

(** The three tools that post to a sub-resource of an issue and treat
    304 on their own differ in the last URL segment and in the message. *)
Definition issue_action_request (cfg : config) (project_id : string) (issue_iid : Z)
    (action : string) : request :=
  let api_url := get_gitlab_api cfg +:+ "/projects/" +:+ project_id
                 +:+ "/issues/" +:+ pretty issue_iid +:+ "/" +:+ action in
  let headers : gmap string string := {[ "PRIVATE-TOKEN" := get_gitlab_token cfg ]} in
  mk_request POST api_url headers ∅ NoBody.

Definition not_modified (message : string) : pyval :=
  PyDict {[ "status" := PyStr "not_modified"; "message" := PyStr message ]}.

Definition subscribe_to_issue (cfg : config) (w : world) (project_id : string)
    (issue_iid : Z) : outcome pyval :=
  try_except
    (response ← requests_send w (issue_action_request cfg project_id issue_iid "subscribe");
     if status_code response =? 304
     then Return (not_modified ("Already subscribed to issue " +:+ pretty issue_iid +:+ "."))
     else (raise_for_status response;; response_json response))
    api_handlers.

Definition unsubscribe_from_issue (cfg : config) (w : world) (project_id : string)
    (issue_iid : Z) : outcome pyval :=
  try_except
    (response ← requests_send w (issue_action_request cfg project_id issue_iid "unsubscribe");
     if status_code response =? 304
     then Return (not_modified ("You were not subscribed to issue "
                                +:+ pretty issue_iid +:+ "."))
     else (raise_for_status response;; response_json response))
    api_handlers.

Definition create_todo_on_issue (cfg : config) (w : world) (project_id : string)
    (issue_iid : Z) : outcome pyval :=
  try_except
    (response ← requests_send w (issue_action_request cfg project_id issue_iid "todo");
     if status_code response =? 304
     then Return (not_modified ("A to-do item already exists for you on issue "
                                +:+ pretty issue_iid +:+ "."))
     else (raise_for_status response;; response_json response))
    api_handlers.

Definition update_incident_metric_image_request (cfg : config) (project_id : string)
    (issue_iid image_id : Z) (url url_text : option string) : request :=
  let api_url := get_gitlab_api cfg +:+ "/projects/" +:+ project_id
                 +:+ "/issues/" +:+ pretty issue_iid
                 +:+ "/metric_images/" +:+ pretty image_id in
  let headers : gmap string string := {[ "PRIVATE-TOKEN" := get_gitlab_token cfg ]} in
  let data : pydict := ∅ in
  let data := set_if (truthy_str url) "url" (opt_str url) data in
  let data := set_if (truthy_str url_text) "url_text" (opt_str url_text) data in
  mk_request PUT api_url headers ∅ (FormBody data).

(** The check is on [None], the body is filled on truth values. *)
Definition update_incident_metric_image (cfg : config) (w : world) (project_id : string)
    (issue_iid image_id : Z) (url url_text : option string) : outcome pyval :=
  if bool_decide (url = None) && bool_decide (url_text = None)
  then Return (PyDict {[ "error" := PyStr
                 "At least one of 'url' or 'url_text' is required to update." ]})
  else
    try_except
      (send_and_decode w
         (update_incident_metric_image_request cfg project_id issue_iid image_id url url_text))
      api_handlers.

End MoreIssueTools.

(** ** More of [server/mcp_tools/repo_tools.py] *)

Module MoreRepoTools.

Definition valid_orders : list string := ["name"; "email"; "commits"].

Definition valid_sorts : list string := ["asc"; "desc"].

(** [if value: if value.lower() in valid: params[key] = value.lower()];
    a value outside the list is only reported on the console. *)
Definition set_if_valid (key : string) (value : option string) (valid : list string)
    (params : pydict) : pydict :=
  if truthy_str value
  then
    let lowered := str_lower (default EmptyString value) in
    if bool_decide (lowered ∈ valid)
    then <[ key := PyStr lowered ]> params
    else params
  else params.

Definition get_gitlab_contributors_request (cfg : config) (project_id : string)
    (order_by sort : option string) : request :=
  let api_url := get_gitlab_api cfg +:+ "/projects/" +:+ project_id
                 +:+ "/repository/contributors" in
  let headers := token_headers cfg ∅ in
  let params : pydict := ∅ in
  let params := set_if_valid "order_by" order_by valid_orders params in
  let params := set_if_valid "sort" sort valid_sorts params in
  mk_request GET api_url headers params NoBody.

Definition get_gitlab_contributors (cfg : config) (w : world) (project_id : string)
    (order_by sort : option string) : outcome pyval :=
  try_except
    (send_and_decode w (get_gitlab_contributors_request cfg project_id order_by sort))
    api_handlers.

(** An argument of type [Iterable[str]]: a sequence (a list or a tuple),
    or an iterator or generator over the same items. *)
Inductive iterable : Type :=
| Sequence (items : list string)
| Iterator (items : list string).

(** [len(x)]: only a sequence has a length. *)
Definition py_len (x : iterable) : outcome nat :=
  match x with
  | Sequence items => Return (length items)
  | Iterator _ =>
      Raise (mk_exn TypeError "object of type 'generator' has no len()" None)
  end.

(** [list(x)]. *)
Definition py_list (x : iterable) : list string :=
  match x with
  | Sequence items | Iterator items => items
  end.

Definition get_gitlab_merge_base_request (cfg : config) (project_id : string)
    (refs : list string) : request :=
  let api_url := get_gitlab_api cfg +:+ "/projects/" +:+ project_id
                 +:+ "/repository/merge_base" in
  let headers := token_headers cfg ∅ in
  let params : pydict := {[ "refs" := PyList (PyStr <$> refs) ]} in
  mk_request GET api_url headers params NoBody.

(** [len(refs)] is called before the [try] block, after [list(refs)] has
    gone into the query. *)
Definition get_gitlab_merge_base (cfg : config) (w : world) (project_id : string)
    (refs : iterable) : outcome pyval :=
  let rq := get_gitlab_merge_base_request cfg project_id (py_list refs) in
  n ← py_len refs;
  if (n <? 2)%nat
  then Return (PyDict {[ "error" := PyStr "Invalid Input";
                         "details" := PyStr ("The 'refs' list must contain at least two "
                           +:+ "references (SHA, branch, or tag) to find a common merge base.") ]})
  else try_except (send_and_decode w rq) api_handlers.

(** [client.get(...)]: as in [create_repository], the name [client] is
    bound nowhere in the module. *)
Definition client_get (rq : request) : outcome Empty_set :=
  Raise (mk_exn NameError "name 'client' is not defined" None).

Definition search_repositories_request (cfg : config) (search : string)
    (page per_page : option Z) : request :=
  let params :=
    drop_none
      [ ("search", PyStr search);
        ("page", MergeRequestTools.opt_int page);
        ("per_page", MergeRequestTools.opt_int per_page) ] in
  mk_request GET (get_gitlab_api cfg +:+ "/projects") ∅ params NoBody.

(** The two [except] clauses of [search_repositories]; each raises a new
    [Exception]. *)
Definition search_repositories_handlers : list (handler pyval) :=
  [ (HttpxHTTPError,
     fun e =>
       match exn_response e with
       | Some r => RepoTools.raise_ Exception_ ("GitLab API error: " +:+ reason r)
       | None =>
           RepoTools.raise_ AttributeError
             "'NoneType' object has no attribute 'reason_phrase'"
       end);
    (KeyError,
     fun e => RepoTools.raise_ Exception_
                ("Missing expected field in GitLab response: " +:+ exn_str e)) ].

(** [search_repositories], up to the call through [client]; what follows
    it in the [try] body is never reached. *)
Definition search_repositories (cfg : config) (search : string)
    (page per_page : arg (option Z)) : outcome pyval :=
  let page := arg_default (Some 1) page in
  let per_page := arg_default (Some 20) per_page in
  try_except
    (client_get (search_repositories_request cfg search page per_page)
     ≫= (fun response : Empty_set => match response with end))
    search_repositories_handlers.

End MoreRepoTools.

(** ** More of [server/mcp_tools/merge_request_tools.py] *)

Module MoreMergeRequestTools.

Definition merge_request_action_request (cfg : config) (project_id : string)
    (merge_request_iid : Z) (action : string) : request :=
  let api_url := get_gitlab_api cfg +:+ "/projects/" +:+ project_id
                 +:+ "/merge_requests/" +:+ pretty merge_request_iid +:+ "/" +:+ action in
  mk_request POST api_url (token_headers cfg ∅) ∅ NoBody.

Definition not_modified_status (message : string) : pydict :=
  {[ "status" := PyStr "Not Modified"; "message" := PyStr message ]}.

(** After [raise_for_status()] in the last branch the function body ends:
    a code that is neither the expected one, nor 304, nor an error makes
    the function return [None]. *)
Definition subscribe_to_gitlab_merge_request (cfg : config) (w : world)
    (project_id : string) (merge_request_iid : Z) : outcome pyval :=
  try_except
    (response ← requests_send w
       (merge_request_action_request cfg project_id merge_request_iid "subscribe");
     let status_code := status_code response in
     if status_code =? 200 then response_json response
     else if status_code =? 304
          then Return (PyDict (not_modified_status
                                 "User is already subscribed to this merge request."))
          else (raise_for_status response;; Return PyNone))
    api_handlers.

Definition unsubscribe_from_gitlab_merge_request (cfg : config) (w : world)
    (project_id : string) (merge_request_iid : Z) : outcome pyval :=
  try_except
    (response ← requests_send w
       (merge_request_action_request cfg project_id merge_request_iid "unsubscribe");
     let status_code := status_code response in
     if status_code =? 200 then response_json response
     else if status_code =? 304
          then Return (PyDict (not_modified_status
                                 "User is already unsubscribed from this merge request."))
          else (raise_for_status response;; Return PyNone))
    api_handlers.

Definition create_gitlab_merge_request_todo (cfg : config) (w : world)
    (project_id : string) (merge_request_iid : Z) : outcome pyval :=
  try_except
    (response ← requests_send w
       (merge_request_action_request cfg project_id merge_request_iid "todo");
     let status_code := status_code response in
     if status_code =? 201 then response_json response
     else if status_code =? 304
          then
            try_except
              (details ← response_json response;
               Return (PyDict (<[ "details" := details ]>
                                 (not_modified_status "To-do item already exists."))))
              [ (JSONDecodeError,
                 fun _ => Return (PyDict (not_modified_status "To-do item already exists."))) ]
          else (raise_for_status response;; Return PyNone))
    api_handlers.

End MoreMergeRequestTools.

(** ** More of [server/mcp_tools/project_tools.py] *)

Module MoreProjectTools.

Definition list_user_contributed_projects_request (cfg : config) (user_id : string)
    (order_by : option string) (simple : option bool) (sort : option string) : request :=
  let api_url := get_gitlab_api cfg +:+ "/users/" +:+ user_id +:+ "/contributed_projects" in
  let headers : gmap string string :=
    {[ "PRIVATE-TOKEN" := get_gitlab_token cfg; "Content-Type" := "application/json" ]} in
  let params : pydict := ∅ in
  let params := set_some "order_by" (PyStr <$> order_by) params in
  let params := set_some "simple" (PyBool <$> simple) params in
  let params := set_some "sort" (PyStr <$> sort) params in
  mk_request GET api_url headers params NoBody.

(** [response.content == b'']: the body has no byte, which is when
    [response.text] is the empty string. *)
Definition content_is_empty (r : response) : bool := String.eqb (text r) "".

Definition list_user_contributed_projects (cfg : config) (w : world) (user_id : string)
    (order_by : option string) (simple : option bool) (sort : option string)
    : outcome pyval :=
  try_except
    (response ← requests_send w
       (list_user_contributed_projects_request cfg user_id order_by simple sort);
     if content_is_empty response then Return (PyList [])
     else
       (raise_for_status response;;
        try_except
          (data ← response_json response;
           match data with
           | PyList _ => Return data
           | _ => Return (PyDict {[ "error" := PyStr "Unexpected response format";
                                    "response" := data ]})
           end)
          [ (JSONDecodeError,
             fun _ => Return (PyDict {[ "error" := PyStr "Failed to parse JSON response";
                                        "raw_response" := PyStr (text response) ]})) ]))
    api_handlers_any.

End MoreProjectTools.

(** ** Histories of the configuration store *)

(** The two ways [server/config.py] writes to [_config] after start-up. *)
Inductive config_op : Type :=
| SetGitlabConfig (new_api_url new_token : option string)
| ConfigureGitlab (api_url_arg token_arg : arg (option string)).

Definition run_op (c : config) (op : config_op) : config :=
  match op with
  | SetGitlabConfig a t => set_gitlab_config a t c
  | ConfigureGitlab a t => (configure_gitlab a t c).2
  end.

Definition run_ops (ops : list config_op) (c : config) : config := foldl run_op c ops.

(** [v.get(k)] on a returned value: [None] on anything that is not a
    dictionary or lacks the key. *)
Definition py_item (k : string) (v : pyval) : option pyval :=
  match v with
  | PyDict d => d !! k
  | _ => None
  end.

(** ** The further tools, as one family *)

Import MoreCommitTools MoreIssueTools MoreRepoTools MoreMergeRequestTools MoreProjectTools.

(** A call of one of the further tools whose [except] clauses are the two
    shared ones. *)
Inductive more_tool_call : Type :=
| SetGitlabCommitPipelineStatus (project_id sha state : string) (coverage : option pyval)
    (description name context : option string) (pipeline_id : option Z)
    (ref target_url : option string)
| ReorderIssue (project_id : string) (issue_iid : Z) (move_after_id move_before_id : option Z)
| SubscribeToIssue (project_id : string) (issue_iid : Z)
| UnsubscribeFromIssue (project_id : string) (issue_iid : Z)
| CreateTodoOnIssue (project_id : string) (issue_iid : Z)
| GetGitlabContributors (project_id : string) (order_by sort : option string)
| GetGitlabMergeBase (project_id : string) (refs : iterable).

Definition run_more_tool (cfg : config) (w : world) (c : more_tool_call) : outcome pyval :=
  match c with
  | SetGitlabCommitPipelineStatus p sha st cov d n ctx pid r t =>
      set_gitlab_commit_pipeline_status cfg w p sha st cov d n ctx pid r t
  | ReorderIssue p i a b => reorder_issue cfg w p i a b
  | SubscribeToIssue p i => subscribe_to_issue cfg w p i
  | UnsubscribeFromIssue p i => unsubscribe_from_issue cfg w p i
  | CreateTodoOnIssue p i => create_todo_on_issue cfg w p i
  | GetGitlabContributors p o s => get_gitlab_contributors cfg w p o s
  | GetGitlabMergeBase p refs => get_gitlab_merge_base cfg w p refs
  end.

(** The request the tool hands to [requests]; [None] when it returns or
    raises before sending one. *)
Definition more_tool_request (cfg : config) (c : more_tool_call) : option request :=
  match c with
  | SetGitlabCommitPipelineStatus p sha st cov d n ctx pid r t =>
      Some (set_gitlab_commit_pipeline_status_request cfg p sha st cov d n ctx pid r t)
  | ReorderIssue p i a b =>
      if bool_decide (a = None) && bool_decide (b = None) then None
      else Some (reorder_issue_request cfg p i a b)
  | SubscribeToIssue p i => Some (issue_action_request cfg p i "subscribe")
  | UnsubscribeFromIssue p i => Some (issue_action_request cfg p i "unsubscribe")
  | CreateTodoOnIssue p i => Some (issue_action_request cfg p i "todo")
  | GetGitlabContributors p o s => Some (get_gitlab_contributors_request cfg p o s)
  | GetGitlabMergeBase p (Sequence items) =>
      if (length items <? 2)%nat then None
      else Some (get_gitlab_merge_base_request cfg p items)
  | GetGitlabMergeBase p (Iterator _) => None
  end.

(** The call is refused by a check of the tool itself on its arguments. *)
Definition refuses_arguments (c : more_tool_call) : bool :=
  match c with
  | ReorderIssue _ _ a b => bool_decide (a = None) && bool_decide (b = None)
  | GetGitlabMergeBase _ (Sequence items) => (length items <? 2)%nat
  | _ => false
  end.

(** The tools that answer 304 themselves. *)
Definition answers_304_itself (c : more_tool_call) : bool :=
  match c with
  | SubscribeToIssue _ _ | UnsubscribeFromIssue _ _ | CreateTodoOnIssue _ _ => true
  | _ => false
  end.

(** The remaining modelled tools that go through [requests]; each has
    clauses or branches of its own. *)
Inductive other_tool_call : Type :=
| CherryPickGitlabCommit (project_id sha branch : string) (dry_run : option bool)
    (message : option string)
| RevertGitlabCommit (project_id sha branch : string) (dry_run : option bool)
| GetGitlabCommitSignature (project_id sha : string)
| UpdateIncidentMetricImage (project_id : string) (issue_iid image_id : Z)
    (url url_text : option string)
| SubscribeToGitlabMergeRequest (project_id : string) (merge_request_iid : Z)
| UnsubscribeFromGitlabMergeRequest (project_id : string) (merge_request_iid : Z)
| CreateGitlabMergeRequestTodo (project_id : string) (merge_request_iid : Z)
| ListUserContributedProjects (user_id : string) (order_by : option string)
    (simple : option bool) (sort : option string).

Definition other_tool_request (cfg : config) (c : other_tool_call) : option request :=
  match c with
  | CherryPickGitlabCommit p sha b d m =>
      Some (cherry_pick_gitlab_commit_request cfg p sha b d m)
  | RevertGitlabCommit p sha b d => Some (revert_gitlab_commit_request cfg p sha b d)
  | GetGitlabCommitSignature p sha => Some (get_gitlab_commit_signature_request cfg p sha)
  | UpdateIncidentMetricImage p i im u t =>
      if bool_decide (u = None) && bool_decide (t = None) then None
      else Some (update_incident_metric_image_request cfg p i im u t)
  | SubscribeToGitlabMergeRequest p m =>
      Some (merge_request_action_request cfg p m "subscribe")
  | UnsubscribeFromGitlabMergeRequest p m =>
      Some (merge_request_action_request cfg p m "unsubscribe")
  | CreateGitlabMergeRequestTodo p m => Some (merge_request_action_request cfg p m "todo")
  | ListUserContributedProjects u o s so =>
      Some (list_user_contributed_projects_request cfg u o s so)
  end.

(** A call of any of the modelled tools that go through [requests]. *)
Inductive modelled_call : Type :=
| OfTool (c : tool_call)
| OfMoreTool (c : more_tool_call)
| OfOtherTool (c : other_tool_call).

Definition modelled_request (cfg : config) (c : modelled_call) : option request :=
  match c with
  | OfTool c => tool_request cfg c
  | OfMoreTool c => more_tool_request cfg c
  | OfOtherTool c => other_tool_request cfg c
  end.

(** The tools whose header map holds [PRIVATE-TOKEN] whatever the token
    is: the branch, file, issue and project tools and
    [update_gitlab_submodule_reference].  The others, the commit and
    merge-request tools, [get_gitlab_contributors] and
    [get_gitlab_merge_base], add it when the token is not empty. *)
Definition sends_token_always (c : modelled_call) : bool :=
  match c with
  | OfTool c => sends_token_unconditionally c
  | OfMoreTool (ReorderIssue _ _ _ _ | SubscribeToIssue _ _ | UnsubscribeFromIssue _ _
                | CreateTodoOnIssue _ _) => true
  | OfMoreTool _ => false
  | OfOtherTool (UpdateIncidentMetricImage _ _ _ _ _
                 | ListUserContributedProjects _ _ _ _) => true
  | OfOtherTool _ => false
  end.

(** The tools that declare the body as JSON or as a form. *)
Definition content_type_of (c : modelled_call) : option string :=
  match c with
  | OfTool (CreateGitlabFile _ _ _ _ _ _ _ _ _ _
            | UpdateGitlabFile _ _ _ _ _ _ _ _ _ _ _
            | DeleteGitlabFile _ _ _ _ _ _ _ _
            | CreateGitlabCommit _ _ _ _ _ _ _ _ _ _ _) => Some "application/json"
  | OfTool (UpdateGitlabSubmoduleReference _ _ _ _ _) =>
      Some "application/x-www-form-urlencoded"
  | OfMoreTool (SetGitlabCommitPipelineStatus _ _ _ _ _ _ _ _ _ _) => Some "application/json"
  | OfOtherTool (CherryPickGitlabCommit _ _ _ _ _ | RevertGitlabCommit _ _ _ _
                 | ListUserContributedProjects _ _ _ _) => Some "application/json"
  | _ => None
  end.

(** The first segment of the path: [users] for
    [list_user_contributed_projects], [projects] for every other tool. *)
Definition first_segment (c : modelled_call) : string :=
  match c with
  | OfOtherTool (ListUserContributedProjects _ _ _ _) => "/users/"
  | _ => "/projects/"
  end.

(** [edit_issue] and [update_gitlab_merge_request] called with every
    optional argument left at [None]. *)
Definition no_edit_issue_fields : IssueTools.edit_issue_fields :=
  IssueTools.mk_edit_issue_fields None None None None None None None None None None
    None None None None None.

Definition no_update_fields : MergeRequestTools.update_fields :=
  MergeRequestTools.mk_update_fields None None None None None None None None None None
    None None None None None None None.

(** The decoded JSON values that are neither an object, an array nor a
    string: [null], booleans and numbers. *)
Definition not_iterable (v : pyval) : bool :=
  match v with
  | PyNone | PyBool _ | PyInt _ => true
  | _ => false
  end.

(** What [cherry_pick_gitlab_commit] and [revert_gitlab_commit] make of
    an error response whose body is a JSON object. *)
Definition pick_error_result (r : response) (d : pydict) : pyval :=
  if bool_decide (is_Some (d !! "error_code")) || bool_decide (is_Some (d !! "message"))
  then PyDict {[ "error" := default (PyStr (http_error_msg r)) (d !! "message");
                 "error_code" := default (PyStr "unknown_api_error") (d !! "error_code") ]}
  else PyDict {[ "error" := PyStr (http_error_msg r); "details" := PyDict d ]}.

(** An array. *)
Definition is_list (v : pyval) : bool :=
  match v with
  | PyList _ => true
  | _ => false
  end.

(** ** Further remote sides used in the examples *)

Module MoreExamples.

Definition ok_empty_object : response :=
  mk_response 200 "OK" "https://gitlab.com/api/v4/projects/42/repository/commits/abc/revert"
    "{}" (Decoded (PyDict ∅)).

Definition conflict : response :=
  mk_response 400 "Bad Request"
    "https://gitlab.com/api/v4/projects/42/repository/commits/abc/cherry_pick"
    "{'message': 'Sorry, we cannot cherry-pick this commit automatically.', 'error_code': 'conflict'}"
    (Decoded (PyDict {[ "message" := PyStr "Sorry, we cannot cherry-pick this commit automatically.";
                        "error_code" := PyStr "conflict" ]})).

Definition bad_gateway_null : response :=
  mk_response 502 "Bad Gateway"
    "https://gitlab.com/api/v4/projects/42/repository/commits/abc/revert"
    "null" (Decoded PyNone).

Definition unsigned : response :=
  mk_response 404 "Not Found"
    "https://gitlab.com/api/v4/projects/42/repository/commits/abc/signature"
    "{'message': '404 GPG Signature Not Found'}"
    (Decoded (PyDict {[ "message" := PyStr "404 GPG Signature Not Found" ]})).

Definition not_modified_empty : response :=
  mk_response 304 "Not Modified"
    "https://gitlab.com/api/v4/projects/42/issues/7/subscribe"
    EmptyString (Undecodable "Expecting value: line 1 column 1 (char 0)").

Definition ok_other : response :=
  mk_response 200 "OK" "https://gitlab.com/api/v4/projects/42"
    "{}" (Decoded (PyDict ∅)).

Definition created : response :=
  mk_response 201 "Created" "https://gitlab.com/api/v4/projects/42/merge_requests/7/subscribe"
    "{'id': 7, 'subscribed': true}"
    (Decoded (PyDict {[ "id" := PyInt 7; "subscribed" := PyBool true ]})).

Definition not_found_empty : response :=
  mk_response 404 "Not Found" "https://gitlab.com/api/v4/users/nobody/contributed_projects"
    EmptyString (Undecodable "Expecting value: line 1 column 1 (char 0)").

End MoreExamples.

(** A request with the token line taken out of its headers. *)
Definition without_token (rq : request) : request :=
  mk_request (rq_method rq) (rq_url rq) (delete "PRIVATE-TOKEN" (rq_headers rq))
    (rq_params rq) (rq_body rq).
(** * Properties

    The lemmas below are about the definitions above; each numbered claim of
    the specification has its theorem, under a comment that starts with its
    number. *)

(** ** The configuration store *)

Section ConfigFacts.

Lemma truthy_str_Some (s : string) : truthy_str (Some s) = nonempty s.
Proof. reflexivity. Qed.

Lemma nonempty_true (s : string) : nonempty s = true <-> s <> "".
Proof.
  unfold nonempty. rewrite negb_true_iff.
  destruct (String.eqb_spec s ""); split; congruence.
Qed.

Lemma nonempty_false (s : string) : nonempty s = false <-> s = "".
Proof.
  unfold nonempty. rewrite negb_false_iff. apply String.eqb_eq.
Qed.

Lemma set_gitlab_config_api_url (a b : option string) (c : config) :
  api_url (set_gitlab_config a b c) =
    if truthy_str a then default "" a else api_url c.
Proof.
  unfold set_gitlab_config.
  destruct (truthy_str a), (truthy_str b); reflexivity.
Qed.

Lemma set_gitlab_config_token (a b : option string) (c : config) :
  token (set_gitlab_config a b c) =
    if truthy_str b then default "" b else token c.
Proof.
  unfold set_gitlab_config.
  destruct (truthy_str a), (truthy_str b); reflexivity.
Qed.

Lemma config_ext (c d : config) :
  api_url c = api_url d -> token c = token d -> c = d.
Proof. destruct c, d; simpl; congruence. Qed.

End ConfigFacts.

(** C6. [set_gitlab_config] overwrites exactly the fields it is given a
    non-empty value for and leaves the other field as it was; applying the
    same call twice gives the store of applying it once; and
    [set_gitlab_config a None] after [set_gitlab_config a b] changes nothing,
    so the token stays [b] whenever [b] was a non-empty token. *)
Theorem set_gitlab_config_frame_idempotent (a b : option string) (c : config) :
  api_url (set_gitlab_config a b c) = (if truthy_str a then default "" a else api_url c)
  /\ token (set_gitlab_config a b c) = (if truthy_str b then default "" b else token c)
  /\ set_gitlab_config a b (set_gitlab_config a b c) = set_gitlab_config a b c
  /\ set_gitlab_config a None (set_gitlab_config a b c) = set_gitlab_config a b c
  /\ token (set_gitlab_config a None (set_gitlab_config a b c)) =
       (if truthy_str b then default "" b else token c).
Proof.
  repeat split.
  - apply set_gitlab_config_api_url.
  - apply set_gitlab_config_token.
  - apply config_ext;
      rewrite ?set_gitlab_config_api_url, ?set_gitlab_config_token;
      destruct (truthy_str a), (truthy_str b); reflexivity.
  - apply config_ext.
    + rewrite !set_gitlab_config_api_url. destruct (truthy_str a); reflexivity.
    + rewrite !set_gitlab_config_token. reflexivity.
  - rewrite !set_gitlab_config_token. reflexivity.
Qed.

(** C7. Through the [configure_gitlab] tool, a call that passes a non-empty
    token and leaves [api_url] out stores the default URL
    "https://gitlab.com/api/v4" whatever URL was stored before: a custom URL
    is not preserved by a token-only reconfiguration. *)
Theorem configure_gitlab_token_only_resets_api_url (c : config) (tok : string) :
  api_url c <> "" ->
  tok <> "" ->
  let c' := snd (configure_gitlab Omitted (Passed (Some tok)) c) in
  get_gitlab_api c' = "https://gitlab.com/api/v4"
  /\ get_gitlab_token c' = tok
  /\ (api_url c <> "https://gitlab.com/api/v4" -> get_gitlab_api c' <> api_url c).
Proof.
  intros _ Htok.
  apply nonempty_true in Htok.
  unfold configure_gitlab. cbn [arg_default].
  rewrite truthy_str_Some, Htok. cbn [negb snd].
  unfold get_gitlab_api, get_gitlab_token.
  rewrite set_gitlab_config_api_url, set_gitlab_config_token.
  rewrite !truthy_str_Some, Htok.
  change (nonempty default_api_url) with true. cbn [default from_option].
  unfold default_api_url.
  split; [reflexivity | split; [reflexivity | ]].
  intros Hcustom E. apply Hcustom. symmetry. exact E.
Qed.

Lemma configure_gitlab_token_only_resets_api_url_witness :
  let c := mk_config "https://gitlab.example.org/api/v4" "old-token" in
  let c' := snd (configure_gitlab Omitted (Passed (Some "glpat-new")) c) in
  get_gitlab_api c' = "https://gitlab.com/api/v4"
  /\ get_gitlab_token c' = "glpat-new"
  /\ (api_url c <> "https://gitlab.com/api/v4" -> get_gitlab_api c' <> api_url c).
Proof.
  apply (configure_gitlab_token_only_resets_api_url
           (mk_config "https://gitlab.example.org/api/v4" "old-token") "glpat-new").
  - simpl. discriminate.
  - discriminate.
Defined.

(** C10. [check_gitlab_config] does not depend on the value of the token:
    two stores with the same URL whose tokens are both empty or both
    non-empty give the same answer. *)
Theorem check_gitlab_config_hides_token (c1 c2 : config) :
  api_url c1 = api_url c2 ->
  (token c1 = "" <-> token c2 = "") ->
  check_gitlab_config c1 = check_gitlab_config c2.
Proof.
  intros Hurl Htok.
  assert (Hne : nonempty (token c1) = nonempty (token c2)).
  { destruct (nonempty (token c1)) eqn:E1, (nonempty (token c2)) eqn:E2; try reflexivity.
    - apply nonempty_true in E1. apply nonempty_false in E2. tauto.
    - apply nonempty_false in E1. apply nonempty_true in E2. tauto. }
  unfold check_gitlab_config, is_configured.
  rewrite Hurl, Hne. reflexivity.
Qed.

Lemma check_gitlab_config_hides_token_witness :
  check_gitlab_config (mk_config "https://gitlab.com/api/v4" "glpat-AAAA") =
  check_gitlab_config (mk_config "https://gitlab.com/api/v4" "glpat-BBBB").
Proof.
  apply (check_gitlab_config_hides_token
           (mk_config "https://gitlab.com/api/v4" "glpat-AAAA")
           (mk_config "https://gitlab.com/api/v4" "glpat-BBBB")).
  - reflexivity.
  - simpl. split; discriminate.
Defined.

(** ** How the shared [try]/[except] skeleton evaluates *)

Section Skeleton.

(** The remote side is arbitrary throughout. *)
Variable w : world.

Lemma handle_transport (k : transport_failure) (msg : string) :
  handle api_handlers (mk_exn (transport_class k) msg None)
  = Return (network_error_result msg).
Proof. destruct k; reflexivity. Qed.

Lemma handle_transport_any (k : transport_failure) (msg : string) :
  handle api_handlers_any (mk_exn (transport_class k) msg None)
  = Return (network_error_result msg).
Proof. destruct k; reflexivity. Qed.

(** What [http.client] raises is caught by neither clause. *)
Lemma handle_local (k : local_failure) (msg : string) :
  handle api_handlers (mk_exn (local_class k) msg None)
  = Raise (mk_exn (local_class k) msg None).
Proof. destruct k; reflexivity. Qed.

Lemma handle_local_any (k : local_failure) (msg : string) :
  handle api_handlers_any (mk_exn (local_class k) msg None)
  = Raise (mk_exn (local_class k) msg None).
Proof. destruct k; reflexivity. Qed.

Lemma handle_http_error (r : response) :
  handle api_handlers (mk_exn HTTPError (http_error_msg r) (Some r))
  = http_error_result r.
Proof.
  unfold http_error_result. cbn [handle api_handlers issubclass exn_class_of].
  unfold http_error_handler, e_response, response_json.
  cbn [exn_response mbind outcome_bind exn_str].
  destruct (body_json r) as [v | msg | k msg]; [reflexivity | reflexivity |].
  destruct k; reflexivity.
Qed.

Lemma handle_http_error_any (r : response) :
  handle api_handlers_any (mk_exn HTTPError (http_error_msg r) (Some r))
  = http_error_result_any r.
Proof.
  unfold http_error_result_any. cbn [handle api_handlers_any issubclass exn_class_of].
  unfold http_error_handler_any, e_response, response_json.
  cbn [exn_response mbind outcome_bind exn_str].
  destruct (body_json r) as [v | msg | k msg]; [reflexivity | reflexivity |].
  destruct k; reflexivity.
Qed.

Lemma try_decode (r : response) :
  try_except (response_json r) api_handlers = decoded_or_error r.
Proof.
  unfold response_json, decoded_or_error.
  destruct (body_json r) as [v | msg | k msg]; [reflexivity | reflexivity |].
  destruct k; reflexivity.
Qed.

Lemma try_decode_any (r : response) :
  try_except (response_json r) api_handlers_any = decoded_or_error r.
Proof.
  unfold response_json, decoded_or_error.
  destruct (body_json r) as [v | msg | k msg]; [reflexivity | reflexivity |].
  destruct k; reflexivity.
Qed.

(** Send, [raise_for_status()], then [k]: with the two shared clauses the
    result only depends on [k] when a response without an error code came
    back. *)
Lemma guarded_eq (rq : request) (k : response -> outcome pyval) :
  try_except (response ← requests_send w rq; raise_for_status response;; k response)
    api_handlers
  = match w rq with
    | NoResponse _ msg => Return (network_error_result msg)
    | Got r => if is_error_status r then http_error_result r
               else try_except (k r) api_handlers
    | Refused f msg => Raise (mk_exn (local_class f) msg None)
    | NeverReturns => Hangs
    end.
Proof.
  unfold requests_send, raise_for_status.
  destruct (w rq) as [f msg | r | f msg |]; cbn [mbind outcome_bind try_except].
  - apply handle_transport.
  - destruct (is_error_status r); cbn [mbind outcome_bind try_except].
    + apply handle_http_error.
    + reflexivity.
  - apply handle_local.
  - reflexivity.
Qed.

Lemma guarded_any_eq (rq : request) (k : response -> outcome pyval) :
  try_except (response ← requests_send w rq; raise_for_status response;; k response)
    api_handlers_any
  = match w rq with
    | NoResponse _ msg => Return (network_error_result msg)
    | Got r => if is_error_status r then http_error_result_any r
               else try_except (k r) api_handlers_any
    | Refused f msg => Raise (mk_exn (local_class f) msg None)
    | NeverReturns => Hangs
    end.
Proof.
  unfold requests_send, raise_for_status.
  destruct (w rq) as [f msg | r | f msg |]; cbn [mbind outcome_bind try_except].
  - apply handle_transport_any.
  - destruct (is_error_status r); cbn [mbind outcome_bind try_except].
    + apply handle_http_error_any.
    + reflexivity.
  - apply handle_local_any.
  - reflexivity.
Qed.

Lemma error_status_not_2xx (r : response) (n : Z) :
  is_error_status r = true -> 200 <= n < 300 -> (status_code r =? n) = false.
Proof.
  unfold is_error_status, is_client_error, is_server_error. intros H Hn.
  apply Z.eqb_neq. lia.
Qed.

(** [delete_project] looks at the code before [raise_for_status()]. *)
Lemma delete_project_eq (cfg : config) (p : string) (fp : option string)
    (pr : option pyval) :
  ProjectTools.delete_project cfg w p fp pr
  = match w (ProjectTools.delete_project_request cfg p fp pr) with
    | NoResponse _ msg => Return (network_error_result msg)
    | Got r =>
        if is_error_status r then http_error_result r
        else if (status_code r =? 202) || (status_code r =? 204)
             then Return (PyStr ("Project '" +:+ p +:+ "' successfully "
                          +:+ (if status_code r =? 204 then "immediately deleted"
                               else "queued for deletion")
                          +:+ " (HTTP " +:+ pretty (status_code r) +:+ ")."))
             else Return PyNone
    | Refused f msg => Raise (mk_exn (local_class f) msg None)
    | NeverReturns => Hangs
    end.
Proof.
  unfold ProjectTools.delete_project, requests_send, raise_for_status.
  destruct (w _) as [f msg | r | f msg |]; cbn [mbind outcome_bind try_except].
  - apply handle_transport.
  - destruct (is_error_status r) eqn:E.
    + rewrite (error_status_not_2xx r 202 E), (error_status_not_2xx r 204 E) by lia.
      cbn [orb mbind outcome_bind try_except]. apply handle_http_error.
    + destruct ((status_code r =? 202) || (status_code r =? 204)); reflexivity.
  - apply handle_local.
  - reflexivity.
Qed.

End Skeleton.

Lemma standard_tool_eq (w : world) (rq : request) (s : success_value) :
  standard_tool w rq s
  = match w rq with
    | NoResponse _ msg => Return (network_error_result msg)
    | Got r =>
        if is_error_status r then http_error_result r
        else match s with
             | ResponseJson => decoded_or_error r
             | ResponseText => Return (PyStr (text r))
             end
    | Refused f msg => Raise (mk_exn (local_class f) msg None)
    | NeverReturns => Hangs
    end.
Proof.
  unfold standard_tool. rewrite guarded_eq.
  destruct (w rq) as [? ? | r | ? ? |]; try reflexivity.
  destruct (is_error_status r); [reflexivity|].
  destruct s; [apply try_decode | reflexivity].
Qed.

(** The tools written to the letter of the pattern are instances of it. *)
Lemma gitlab_list_branches_is_standard (cfg : config) (w : world) (project_id : string)
    (regex search : option string) :
  gitlab_list_branches cfg w project_id regex search
  = standard_tool w (gitlab_list_branches_request cfg project_id regex search) ResponseJson.
Proof. reflexivity. Qed.

Lemma get_raw_gitlab_file_is_standard (cfg : config) (w : world)
    (project_id file_path ref : string) (lfs : arg bool) :
  get_raw_gitlab_file cfg w project_id file_path ref lfs
  = standard_tool w (get_raw_gitlab_file_request cfg project_id file_path ref lfs) ResponseText.
Proof. reflexivity. Qed.

(** Unfolds a tool of the family down to the skeleton and evaluates it. *)
Ltac unfold_tool :=
  cbn [run_tool tool_request] in *;
  unfold gitlab_list_branches, gitlab_get_single_branch, gitlab_create_branch,
    gitlab_delete_branch, create_gitlab_file, update_gitlab_file, delete_gitlab_file,
    get_raw_gitlab_file, get_gitlab_file_metadata_and_content, get_gitlab_file_blame,
    list_gitlab_repository_commits, create_gitlab_commit,
    IssueTools.edit_issue, IssueTools.delete_issue, IssueTools.delete_incident_metric_image,
    MergeRequestTools.delete_gitlab_project_approval_rule,
    MergeRequestTools.delete_gitlab_merge_request_approval_rule,
    MergeRequestTools.delete_gitlab_merge_request_dependency,
    MergeRequestTools.delete_gitlab_merge_request,
    MergeRequestTools.update_gitlab_merge_request,
    ProjectTools.get_single_project, ProjectTools.unshare_project_from_group,
    RepoTools.update_gitlab_submodule_reference, send_and_decode in *;
  rewrite ?delete_project_eq, ?guarded_eq, ?guarded_any_eq in *.

Lemma has_key_false (k : string) (d : pydict) :
  d !! k = None -> has_key k (PyDict d) = false.
Proof.
  intros H. unfold has_key. apply bool_decide_eq_false. rewrite H. apply is_Some_None.
Qed.

Lemma has_key_true (k : string) (d : pydict) (v : pyval) :
  d !! k = Some v -> has_key k (PyDict d) = true.
Proof. intros H. unfold has_key. apply bool_decide_eq_true. rewrite H. eauto. Qed.

(** The result of the [HTTPError] clauses, when they return, has the two
    keys. *)
Lemma has_key_http_error (r : response) (v : pyval) :
  http_error_result r = Return v \/ http_error_result_any r = Return v ->
  has_key "error" v = true /\ has_key "details" v = true.
Proof.
  unfold http_error_result, http_error_result_any.
  intros [H | H]; destruct (body_json r); try discriminate H; injection H as <-;
    (split; [apply (has_key_true _ _ _ (lookup_insert_eq _ _ _))|]);
    eapply has_key_true; rewrite lookup_insert_ne by discriminate;
    apply lookup_singleton_eq.
Qed.

(** Looks a literal key up through a chain of inserts. *)
Ltac no_error_key :=
  first [ reflexivity
        | apply has_key_false;
          repeat first [ rewrite lookup_insert_ne by discriminate
                       | rewrite lookup_singleton_ne by discriminate
                       | rewrite lookup_empty ];
          reflexivity ].

(** What every tool of the family does with the outcome of its request. *)
Lemma run_tool_cases (cfg : config) (w : world) (c : tool_call) (rq : request) :
  tool_request cfg c = Some rq ->
  match w rq with
  | NoResponse _ msg => run_tool cfg w c = Return (network_error_result msg)
  | Got r =>
      if is_error_status r
      then run_tool cfg w c
           = (if catches_every_decoder_failure c then http_error_result_any r
              else http_error_result r)
      else if returns_decoded_body c (status_code r)
           then run_tool cfg w c = decoded_or_error r
           else exists v, run_tool cfg w c = Return v /\ has_key "error" v = false
  | Refused f msg => run_tool cfg w c = Raise (mk_exn (local_class f) msg None)
  | NeverReturns => run_tool cfg w c = Hangs
  end.
Proof.
  intros Hrq.
  destruct c; unfold_tool;
    try (destruct (dict_is_empty _); [discriminate|]);
    injection Hrq as <-; unfold_tool;
    (destruct (w _) as [? ? | resp | ? ? |]; [reflexivity | | reflexivity | reflexivity]);
    cbn [catches_every_decoder_failure];
    (destruct (is_error_status resp); [reflexivity|]);
    rewrite ?try_decode, ?try_decode_any;
    cbn [returns_decoded_body];
    try reflexivity;
    try (destruct (status_code resp =? 204) eqn:E204; cbn [negb]; rewrite ?try_decode);
    try (destruct ((status_code resp =? 202) || _));
    try reflexivity;
    eexists; (split; [reflexivity | no_error_key]).
Qed.

(** ** C1: values, never exceptions *)

Lemma run_tool_without_request (cfg : config) (w : world) (c : tool_call) :
  tool_request cfg c = None ->
  exists v, run_tool cfg w c = Return v /\ has_key "error" v = true.
Proof.
  intros Hrq.
  destruct c; cbn [tool_request] in Hrq; try discriminate;
    cbn [run_tool];
    unfold IssueTools.edit_issue, MergeRequestTools.update_gitlab_merge_request;
    destruct (dict_is_empty _); try discriminate;
    eexists; split; reflexivity.
Qed.

(** Whatever the [try] block of [create_repository] raises, the clause that
    catches it raises an [Exception] in its turn. *)
Lemma create_repository_handlers_raise (e : exn) :
  exists msg, handle RepoTools.create_repository_handlers e = Raise (mk_exn Exception_ msg None).
Proof.
  unfold RepoTools.create_repository_handlers, RepoTools.raise_. cbn [handle].
  destruct (issubclass (exn_class_of e) HttpxHTTPError);
    [destruct (exn_response e); eexists; reflexivity|].
  destruct (issubclass (exn_class_of e) ValueError); [eexists; reflexivity|].
  destruct (issubclass (exn_class_of e) KeyError); [eexists; reflexivity|].
  replace (issubclass (exn_class_of e) Exception_) with true
    by (destruct (exn_class_of e); reflexivity).
  eexists; reflexivity.
Qed.

Lemma create_repository_raises (cfg : config) (name : string)
    (description : option string) (visibility : arg (option string))
    (initialize_with_readme : arg (option bool)) :
  exists msg,
    RepoTools.create_repository cfg name description visibility initialize_with_readme
    = Raise (mk_exn Exception_ msg None).
Proof.
  unfold RepoTools.create_repository, RepoTools.client_post, RepoTools.raise_.
  destruct (negb (nonempty name)); cbn [mbind outcome_bind try_except];
    [eexists; reflexivity|].
  destruct (truthy_str _ && _); cbn [mbind outcome_bind try_except];
    eexists; reflexivity.
Qed.

(** C1, as amended.  Each tool of the modelled family returns a value
    whenever the call of [requests] comes back, with a response or with a
    [RequestException], and the decoder, where the tool calls it, returns
    or raises a [JSONDecodeError]: a dictionary with an ["error"] key when
    no response came or one with a 4xx or 5xx code, and, when another
    response came and the tool returns its decoded body, the decoded
    payload, or a dictionary with an ["error"] key if the body is not JSON.
    An exception does reach the caller when the call of [requests] raises
    something else (what [http.client] raises for a token it cannot put in
    a header), and when the decoder raises a [ValueError] or a
    [RecursionError] where the tool reads the body, [get_single_project]
    apart on a 4xx or 5xx response; and the call being made without a
    timeout, the tool does not return if the call does not.
    [create_repository] is built otherwise: each of its [except] clauses
    raises a new [Exception] for whatever it catches, so the tool returns
    no error dictionary. *)
Theorem requests_tools_return_create_repository_raises :
  (forall (cfg : config) (w : world) (c : tool_call),
     (forall rq, tool_request cfg c = Some rq -> well_behaved (w rq) = true) ->
     exists v,
       run_tool cfg w c = Return v
       /\ (forall rq, tool_request cfg c = Some rq ->
             is_failure (w rq) = true -> has_key "error" v = true)
       /\ (tool_request cfg c = None -> has_key "error" v = true)
       /\ (forall rq r, tool_request cfg c = Some rq -> w rq = Got r ->
             is_error_status r = false ->
             returns_decoded_body c (status_code r) = true ->
             match body_json r with
             | Decoded j => v = j
             | _ => has_key "error" v = true
             end))
  /\ (forall (cfg : config) (w : world) (c : tool_call) (rq : request)
         (f : local_failure) (msg : string),
        tool_request cfg c = Some rq -> w rq = Refused f msg ->
        run_tool cfg w c = Raise (mk_exn (local_class f) msg None))
  /\ (forall (cfg : config) (w : world) (c : tool_call) (rq : request) (r : response)
         (k : decoder_failure) (msg : string),
        tool_request cfg c = Some rq -> w rq = Got r ->
        body_json r = DecoderRaises k msg ->
        (if is_error_status r then catches_every_decoder_failure c = false
         else returns_decoded_body c (status_code r) = true) ->
        run_tool cfg w c = Raise (mk_exn (decoder_class k) msg None))
  /\ (forall (cfg : config) (w : world) (c : tool_call) (rq : request) (r : response)
         (k : decoder_failure) (msg : string),
        tool_request cfg c = Some rq -> w rq = Got r ->
        body_json r = DecoderRaises k msg ->
        is_error_status r = true -> catches_every_decoder_failure c = true ->
        exists v, run_tool cfg w c = Return v /\ has_key "error" v = true)
  /\ (forall (cfg : config) (w : world) (c : tool_call) (rq : request),
        tool_request cfg c = Some rq -> w rq = NeverReturns ->
        run_tool cfg w c = Hangs)
  /\ (forall (cfg : config) (name : string) (description : option string)
        (visibility : arg (option string)) (initialize_with_readme : arg (option bool)),
        exists msg,
          RepoTools.create_repository cfg name description visibility initialize_with_readme
          = Raise (mk_exn Exception_ msg None))
  /\ (forall e : exn,
        exists msg,
          handle RepoTools.create_repository_handlers e = Raise (mk_exn Exception_ msg None)).
Proof.
  split; [| split; [| split; [| split; [| split; [| split;
    [apply create_repository_raises | apply create_repository_handlers_raise]]]]]].
  - intros cfg w c Hwell.
    destruct (tool_request cfg c) as [rq|] eqn:Hrq.
    + pose proof (run_tool_cases cfg w c rq Hrq) as H.
      specialize (Hwell rq eq_refl).
      destruct (w rq) as [? msg | r | ? ? |] eqn:Hw; try discriminate Hwell.
      * eexists. split; [exact H|]. split; [intros rq' Hrq' _; reflexivity|].
        split; [intros E; discriminate E|]. intros rq' r' Hrq'. injection Hrq' as <-.
        rewrite Hw. discriminate.
      * cbn [well_behaved] in Hwell. destruct (is_error_status r) eqn:Herr.
        -- assert (Hv : exists v, run_tool cfg w c = Return v
                                  /\ has_key "error" v = true).
           { rewrite H. unfold http_error_result, http_error_result_any.
             destruct (catches_every_decoder_failure c), (body_json r);
               try discriminate Hwell; eexists; (split; [reflexivity|]);
               apply (has_key_true _ _ _ (lookup_insert_eq _ _ _)). }
           destruct Hv as (v & Hv & Hk). exists v. split; [exact Hv|].
           split; [intros; exact Hk|]. split; [intros E; discriminate E|].
           intros rq' r' Hrq' Hr'. injection Hrq' as <-. rewrite Hw in Hr'.
           injection Hr' as <-. congruence.
        -- destruct (returns_decoded_body c (status_code r)) eqn:Hdec.
           ++ assert (Hv : exists v, run_tool cfg w c = Return v
                                     /\ match body_json r with
                                        | Decoded j => v = j
                                        | _ => has_key "error" v = true
                                        end).
              { rewrite H. unfold decoded_or_error.
                destruct (body_json r); try discriminate Hwell; eexists;
                  (split; reflexivity). }
              destruct Hv as (v & Hv & Hb). exists v. split; [exact Hv|].
              split.
              { intros rq' Hrq'. injection Hrq' as <-. rewrite Hw. cbn [is_failure].
                congruence. }
              split; [intros E; discriminate E|].
              intros rq' r' Hrq' Hr'. injection Hrq' as <-. rewrite Hw in Hr'.
              injection Hr' as <-. intros _ _. exact Hb.
           ++ destruct H as (v & Hv & _). exists v. split; [exact Hv|].
              split.
              { intros rq' Hrq'. injection Hrq' as <-. rewrite Hw. cbn [is_failure].
                congruence. }
              split; [intros E; discriminate E|].
              intros rq' r' Hrq' Hr'. injection Hrq' as <-. rewrite Hw in Hr'.
              injection Hr' as <-. congruence.
    + destruct (run_tool_without_request cfg w c Hrq) as (v & Hv & Hk).
      exists v. split; [exact Hv|]. split; [intros rq E; discriminate E|].
      split; [intros _; exact Hk|]. intros rq r E. discriminate E.
  - intros cfg w c rq f msg Hrq Hw.
    pose proof (run_tool_cases cfg w c rq Hrq) as H. rewrite Hw in H. exact H.
  - intros cfg w c rq r k msg Hrq Hw Hb Hreads.
    pose proof (run_tool_cases cfg w c rq Hrq) as H. rewrite Hw in H.
    destruct (is_error_status r).
    + rewrite Hreads in H. rewrite H. unfold http_error_result. rewrite Hb. reflexivity.
    + rewrite Hreads in H. rewrite H. unfold decoded_or_error. rewrite Hb. reflexivity.
  - intros cfg w c rq r k msg Hrq Hw Hb Herr Hany.
    pose proof (run_tool_cases cfg w c rq Hrq) as H. rewrite Hw, Herr, Hany in H.
    rewrite H. unfold http_error_result_any. rewrite Hb. eexists. split; [reflexivity|].
    apply (has_key_true _ _ _ (lookup_insert_eq _ _ _)).
  - intros cfg w c rq Hrq Hw.
    pose proof (run_tool_cases cfg w c rq Hrq) as H. rewrite Hw in H. exact H.
Qed.

(** C1, as stated, fails: called with an empty name, [create_repository]
    lets an [Exception] reach its caller instead of returning a dictionary
    with an ["error"] key. *)
Lemma create_repository_empty_name_raises :
  RepoTools.create_repository Examples.configured EmptyString None Omitted Omitted
  = Raise (mk_exn Exception_ "Parameter validation error: Repository name is required" None).
Proof. reflexivity. Qed.

(** Not covered by C1 above: [get_gitlab_commit_signature] reads
    [error_details.get('message', '')] in its [HTTPError] clause, so a 404
    whose body decodes to something other than a dictionary makes an
    [AttributeError] reach the caller. *)
Lemma get_gitlab_commit_signature_list_body_raises :
  exists e,
    CommitTools.get_gitlab_commit_signature Examples.configured
      (Examples.answers Examples.not_found_list) "42" "main" = Raise e
    /\ exn_class_of e = AttributeError.
Proof. eexists. split; reflexivity. Qed.

(** ** C2: the shape of a failure result *)

(** C2, as amended.  For each tool of the modelled family once it has sent
    its request, what came back fixes the result, and a result with an
    ["error"] key is built in four cases only.  A response with a 4xx or
    5xx code gives exactly [{"error": str(e), "details": d}], where [d] is
    the decoded body if it decodes as JSON and the raw text of the response
    if it is not JSON.  No response at all gives exactly
    [{"error": "Network/Request Error: ..."}], a dictionary with no
    ["details"] key, and so does a response without an error code whose
    body the tool decodes and is not JSON.  In every other case the tool
    returns the decoded body itself or a value of its own making that has
    no ["error"] key, or it does not return: an exception of the decoder
    that is no [JSONDecodeError], or of the call that is no
    [RequestException], reaches the caller, except that
    [get_single_project] answers the former with the raw text on a 4xx or
    5xx response. *)
Theorem failure_result_shape (cfg : config) (w : world) (c : tool_call) (rq : request) :
  tool_request cfg c = Some rq ->
  match w rq with
  | NoResponse _ msg =>
      run_tool cfg w c
      = Return (PyDict {[ "error" := PyStr ("Network/Request Error: " +:+ msg) ]})
      /\ has_key "details"
           (PyDict {[ "error" := PyStr ("Network/Request Error: " +:+ msg) ]}) = false
  | Got r =>
      if is_error_status r
      then
        match body_json r with
        | Decoded j =>
            run_tool cfg w c
            = Return (PyDict {[ "error" := PyStr (http_error_msg r); "details" := j ]})
        | Undecodable _ =>
            run_tool cfg w c
            = Return (PyDict {[ "error" := PyStr (http_error_msg r);
                                "details" := PyStr (text r) ]})
        | DecoderRaises k msg =>
            if catches_every_decoder_failure c
            then run_tool cfg w c
                 = Return (PyDict {[ "error" := PyStr (http_error_msg r);
                                     "details" := PyStr (text r) ]})
            else run_tool cfg w c = Raise (mk_exn (decoder_class k) msg None)
        end
      else
        if returns_decoded_body c (status_code r)
        then
          match body_json r with
          | Decoded j => run_tool cfg w c = Return j
          | Undecodable msg =>
              run_tool cfg w c
              = Return (PyDict {[ "error" := PyStr ("Network/Request Error: " +:+ msg) ]})
          | DecoderRaises k msg =>
              run_tool cfg w c = Raise (mk_exn (decoder_class k) msg None)
          end
        else exists v, run_tool cfg w c = Return v /\ has_key "error" v = false
  | Refused f msg => run_tool cfg w c = Raise (mk_exn (local_class f) msg None)
  | NeverReturns => run_tool cfg w c = Hangs
  end.
Proof.
  intros Hrq. pose proof (run_tool_cases cfg w c rq Hrq) as H.
  destruct (w rq) as [? msg | r | ? ? |]; [split; [exact H | reflexivity] | | exact H | exact H].
  destruct (is_error_status r).
  - rewrite H. unfold http_error_result, http_error_result_any.
    destruct (catches_every_decoder_failure c), (body_json r); reflexivity.
  - destruct (returns_decoded_body c (status_code r)); [|exact H].
    rewrite H. unfold decoded_or_error. destruct (body_json r); reflexivity.
Qed.

(** A 404 with a JSON body: the decoded body is the details. *)
Lemma failure_result_shape_witness :
  gitlab_list_branches Examples.configured (Examples.answers Examples.not_found_json)
    "42" None None
  = Return (PyDict {[ "error" := PyStr (http_error_msg Examples.not_found_json);
                      "details" := PyDict {[ "message" := PyStr "404 Project Not Found" ]} ]}).
Proof.
  exact (failure_result_shape Examples.configured
           (Examples.answers Examples.not_found_json)
           (GitlabListBranches "42" None None) _ eq_refl).
Defined.

(** A 404 with an HTML body: the raw text is the details. *)
Example gitlab_list_branches_not_found_html :
  gitlab_list_branches Examples.configured (Examples.answers Examples.not_found_html)
    "42" None None
  = Return (PyDict {[ "error" := PyStr ("404 Client Error: Not Found for url: "
                        +:+ "https://gitlab.com/api/v4/projects/42/repository/branches");
                      "details" := PyStr "<html>404</html>" ]}).
Proof. vm_compute. reflexivity. Qed.

(** C2, as stated, fails: with the network down, [gitlab_list_branches]
    returns a failure dictionary that has an ["error"] key and no
    ["details"] key. *)
Lemma gitlab_list_branches_offline_has_no_details :
  exists v,
    gitlab_list_branches Examples.configured Examples.offline "42" None None = Return v
    /\ has_key "error" v = true
    /\ has_key "details" v = false.
Proof. eexists. split; [reflexivity|]. split; reflexivity. Qed.

(** ** C3: the headers that are sent *)

Lemma token_headers_lookup (cfg : config) (h : gmap string string) (k : string) :
  token_headers cfg h !! k =
    if nonempty (get_gitlab_token cfg) && bool_decide (k = "PRIVATE-TOKEN")
    then Some (get_gitlab_token cfg)
    else h !! k.
Proof.
  unfold token_headers.
  destruct (nonempty (get_gitlab_token cfg)); cbn [andb]; [|reflexivity].
  case_bool_decide as Hk.
  - subst k. apply lookup_insert_eq.
  - apply lookup_insert_ne. congruence.
Qed.

(** Unfolds the request a tool builds. *)
Ltac unfold_request :=
  unfold gitlab_list_branches_request, gitlab_get_single_branch_request,
    gitlab_create_branch_request, gitlab_delete_branch_request,
    create_gitlab_file_request, update_gitlab_file_request, delete_gitlab_file_request,
    get_raw_gitlab_file_request, get_gitlab_file_metadata_and_content_request,
    get_gitlab_file_blame_request, list_gitlab_repository_commits_request,
    create_gitlab_commit_request, get_gitlab_commit_signature_request,
    IssueTools.edit_issue_request,
    IssueTools.delete_issue_request, IssueTools.delete_incident_metric_image_request,
    MergeRequestTools.delete_gitlab_project_approval_rule_request,
    MergeRequestTools.delete_gitlab_merge_request_approval_rule_request,
    MergeRequestTools.delete_gitlab_merge_request_dependency_request,
    MergeRequestTools.delete_gitlab_merge_request_request,
    MergeRequestTools.update_gitlab_merge_request_request,
    ProjectTools.get_single_project_request, ProjectTools.delete_project_request,
    ProjectTools.unshare_project_from_group_request,
    RepoTools.update_gitlab_submodule_reference_request,
    set_gitlab_commit_pipeline_status_request, reorder_issue_request,
    issue_action_request, get_gitlab_contributors_request,
    get_gitlab_merge_base_request, cherry_pick_gitlab_commit_request,
    revert_gitlab_commit_request, update_incident_metric_image_request,
    merge_request_action_request, list_user_contributed_projects_request,
    files_url, json_headers;
  cbv zeta; cbn [rq_method rq_url rq_headers rq_params rq_body].

(** Reduces a hypothesis [modelled_request cfg c = Some rq] to the request
    built, for each tool in turn. *)
Ltac each_request c Hrq :=
  destruct c as [c | c | c]; destruct c;
  cbn [modelled_request tool_request more_tool_request other_tool_request] in Hrq;
  try (destruct (dict_is_empty _); [discriminate Hrq|]);
  try (destruct (bool_decide _ && bool_decide _); [discriminate Hrq|]);
  try match type of Hrq with
      | context [match ?x with Sequence _ => _ | Iterator _ => _ end] =>
          destruct x; [|discriminate Hrq]
      end;
  try (destruct (length _ <? 2)%nat; [discriminate Hrq|]);
  injection Hrq as <-; unfold_request.

Lemma token_headers_lookup_ne (cfg : config) (h : gmap string string) (k : string) :
  k <> "PRIVATE-TOKEN" -> token_headers cfg h !! k = h !! k.
Proof.
  intros Hk. rewrite token_headers_lookup.
  rewrite (bool_decide_eq_false_2 _ Hk), andb_false_r. reflexivity.
Qed.

Lemma token_headers_lookup_eq (cfg : config) (h : gmap string string) :
  h !! "PRIVATE-TOKEN" = None ->
  token_headers cfg h !! "PRIVATE-TOKEN"
  = if nonempty (get_gitlab_token cfg) then Some (get_gitlab_token cfg) else None.
Proof.
  intros Hh. rewrite token_headers_lookup, Hh.
  destruct (nonempty (get_gitlab_token cfg)); reflexivity.
Qed.

(** Looks a key up in the header map of a request. *)
Ltac lookup_header :=
  repeat first
    [ rewrite token_headers_lookup_eq by (repeat first
        [ rewrite lookup_insert_ne by discriminate
        | rewrite lookup_singleton_ne by discriminate
        | apply lookup_empty ]; reflexivity)
    | rewrite token_headers_lookup_ne by congruence
    | rewrite lookup_insert_eq
    | rewrite lookup_singleton_eq
    | rewrite lookup_insert_ne by congruence
    | rewrite lookup_singleton_ne by congruence
    | rewrite lookup_empty ].

(** C3, as amended.  [get_headers] builds exactly
    [{"Accept": "application/json"}], plus [PRIVATE-TOKEN] bound to the token
    when the token is not empty.  No modelled tool sends that map: each of
    them builds its own, which has no [Accept] key and no key other than
    [PRIVATE-TOKEN] and [Content-Type].  The commit tools, the
    merge-request tools, [get_gitlab_contributors] and
    [get_gitlab_merge_base] put [PRIVATE-TOKEN] in it only when the token
    is not empty; every other modelled tool (the branch, file, issue and
    project tools and [update_gitlab_submodule_reference]) always does,
    with the empty string when the token is empty. *)
Theorem get_headers_exact_and_tool_headers :
  (forall cfg : config,
     get_headers cfg =
       if nonempty (token cfg)
       then <[ "PRIVATE-TOKEN" := token cfg ]> {[ "Accept" := "application/json" ]}
       else {[ "Accept" := "application/json" ]})
  /\ (forall (cfg : config) (c : modelled_call) (rq : request),
        modelled_request cfg c = Some rq ->
        rq_headers rq !! "Accept" = None
        /\ rq_headers rq !! "PRIVATE-TOKEN" =
             (if sends_token_always c || nonempty (get_gitlab_token cfg)
              then Some (get_gitlab_token cfg)
              else None)
        /\ rq_headers rq !! "Content-Type" = content_type_of c
        /\ (forall k, k <> "PRIVATE-TOKEN" -> k <> "Content-Type" ->
              rq_headers rq !! k = None)).
Proof.
  split; [reflexivity|].
  intros cfg c rq Hrq.
  each_request c Hrq;
    cbn [sends_token_always sends_token_unconditionally content_type_of orb];
    (split; [lookup_header; reflexivity|]);
    (split; [lookup_header; try destruct (nonempty (get_gitlab_token cfg)); reflexivity|]);
    (split; [lookup_header; reflexivity|]);
    intros k H1 H2; lookup_header; reflexivity.
Qed.

(** C3, as stated, fails: with an empty token, [gitlab_list_branches] sends
    a header map without [Accept] and with a [PRIVATE-TOKEN] header, bound to
    the empty string. *)
Lemma gitlab_list_branches_headers_without_token :
  rq_headers (gitlab_list_branches_request Examples.no_token "42" None None)
  = {[ "PRIVATE-TOKEN" := EmptyString ]}
  /\ rq_headers (gitlab_list_branches_request Examples.no_token "42" None None) !! "Accept"
     = None
  /\ get_headers Examples.no_token = {[ "Accept" := "application/json" ]}.
Proof. split; [reflexivity | split; reflexivity]. Qed.

(** ** C4 and C5: what goes into the query and body maps *)

Section Lookups.

Lemma lookup_set_if_eq (b : bool) (k : string) (v : pyval) (d : pydict) :
  set_if b k v d !! k = if b then Some v else d !! k.
Proof. unfold set_if. destruct b; [apply lookup_insert_eq | reflexivity]. Qed.

Lemma lookup_set_if_ne (b : bool) (k k' : string) (v : pyval) (d : pydict) :
  k <> k' -> set_if b k v d !! k' = d !! k'.
Proof. intros. unfold set_if. destruct b; [apply lookup_insert_ne; assumption | reflexivity]. Qed.

Lemma lookup_set_some_eq (k : string) (v : option pyval) (d : pydict) :
  set_some k v d !! k = match v with Some x => Some x | None => d !! k end.
Proof. unfold set_some. destruct v; [apply lookup_insert_eq | reflexivity]. Qed.

Lemma lookup_set_some_ne (k k' : string) (v : option pyval) (d : pydict) :
  k <> k' -> set_some k v d !! k' = d !! k'.
Proof. intros. unfold set_some. destruct v; [apply lookup_insert_ne; assumption | reflexivity]. Qed.

Lemma lookup_add_param_eq (d : pydict) (v : option pyval) (k : string) :
  add_param d (v, k) !! k =
    match v with Some x => Some (lower_if_bool x) | None => d !! k end.
Proof. unfold add_param. destruct v; [apply lookup_insert_eq | reflexivity]. Qed.

Lemma lookup_add_param_ne (d : pydict) (v : option pyval) (k k' : string) :
  k <> k' -> add_param d (v, k) !! k' = d !! k'.
Proof.
  intros. unfold add_param. destruct v; [apply lookup_insert_ne; assumption | reflexivity].
Qed.

Lemma lookup_drop_none_cons_eq (k : string) (v : pyval) (l : list (string * pyval)) :
  drop_none ((k, v) :: l) !! k = if is_none v then drop_none l !! k else Some v.
Proof.
  unfold drop_none. cbn [filter list_filter].
  destruct (decide _) as [Hn | Hn]; cbn [snd] in Hn.
  - rewrite Hn. cbn [list_to_map foldr]. apply lookup_insert_eq.
  - destruct (is_none v); [reflexivity | congruence].
Qed.

Lemma lookup_drop_none_cons_ne (k k' : string) (v : pyval) (l : list (string * pyval)) :
  k <> k' -> drop_none ((k, v) :: l) !! k' = drop_none l !! k'.
Proof.
  intros Hk. unfold drop_none. cbn [filter list_filter].
  destruct (decide _); [|reflexivity].
  cbn [list_to_map foldr]. apply lookup_insert_ne. exact Hk.
Qed.

End Lookups.

(** Looks a literal key up through a chain of optional-parameter lines. *)
Ltac lookup_key :=
  repeat first
    [ rewrite lookup_set_if_eq
    | rewrite lookup_set_some_eq
    | rewrite lookup_add_param_eq
    | rewrite lookup_drop_none_cons_eq
    | rewrite lookup_insert_eq
    | rewrite lookup_singleton_eq
    | rewrite lookup_set_if_ne by discriminate
    | rewrite lookup_set_some_ne by discriminate
    | rewrite lookup_add_param_ne by discriminate
    | rewrite lookup_drop_none_cons_ne by discriminate
    | rewrite lookup_insert_ne by discriminate
    | rewrite lookup_singleton_ne by discriminate
    | rewrite lookup_empty ].








(** [edit_issue] sends an explicitly empty [labels]. *)
Example edit_issue_sends_empty_labels :
  IssueTools.edit_issue_data
    (IssueTools.mk_edit_issue_fields None None (Some false) None None None None None
       (Some EmptyString) (Some 0) None None None None None) !! "labels"
  = Some (PyStr EmptyString).
Proof. vm_compute. reflexivity. Qed.

(** ** C5: how booleans are written *)





(** The query of [get_raw_gitlab_file] carries [lfs] as the boolean it was
    given, which [requests] renders as [True] or [False]. *)
Lemma get_raw_gitlab_file_lfs (cfg : config) (project_id file_path ref : string) (b : bool) :
  rq_params (get_raw_gitlab_file_request cfg project_id file_path ref (Passed b)) !! "lfs"
  = Some (PyBool b).
Proof. cbn. lookup_key. reflexivity. Qed.

(** ** C8: delete tools on 204 *)

Lemma status_204_is_no_error (r : response) :
  status_code r = 204 -> is_error_status r = false.
Proof.
  intros H. unfold is_error_status, is_client_error, is_server_error. rewrite H. reflexivity.
Qed.

(** What a delete tool returns on 204, read off the response code alone. *)
Lemma delete_tool_on_204 (cfg : config) (w : world) (c : tool_call) (rq : request)
    (r : response) :
  is_delete_tool c = true ->
  tool_request cfg c = Some rq ->
  w rq = Got r ->
  status_code r = 204 ->
  exists v,
    (forall w' r', w' rq = Got r' -> status_code r' = 204 -> run_tool cfg w' c = Return v)
    /\ has_key "error" v = false
    /\ (if returns_none_on_204 c then v = PyNone else is_message_or_status v = true).
Proof.
  intros Hdel Hrq Hw H204.
  destruct c; try discriminate Hdel; cbn [tool_request] in Hrq; injection Hrq as <-;
    cbn [returns_none_on_204];
    eexists; (split; [intros w' r' Hw' H204'; unfold_tool;
                      rewrite Hw', (status_204_is_no_error r' H204'), ?H204';
                      cbn [Z.eqb Pos.eqb orb try_except]; reflexivity |]);
    (split; [try reflexivity; apply has_key_false; lookup_key; reflexivity | reflexivity]).
Qed.

(** C8, as amended.  When the remote side answers 204 to a delete tool, the
    tool returns a value fixed by the call and the response code alone: the
    body is not decoded, and the value has no ["error"] key.  For
    [delete_gitlab_merge_request] and
    [delete_gitlab_merge_request_dependency] that value is [None]; for the
    other delete tools it is a confirmation built by the tool, a message
    string or a status dictionary. *)
Theorem delete_tools_on_204 (cfg : config) (w : world) (c : tool_call) (rq : request)
    (r : response) :
  is_delete_tool c = true ->
  tool_request cfg c = Some rq ->
  w rq = Got r ->
  status_code r = 204 ->
  exists v,
    run_tool cfg w c = Return v
    /\ has_key "error" v = false
    /\ (if returns_none_on_204 c then v = PyNone else is_message_or_status v = true)
    /\ (forall w' r', w' rq = Got r' -> status_code r' = 204 ->
          run_tool cfg w' c = Return v).
Proof.
  intros Hdel Hrq Hw H204.
  destruct (delete_tool_on_204 cfg w c rq r Hdel Hrq Hw H204) as (v & Hall & Hkey & Hkind).
  exists v. split; [exact (Hall w r Hw H204)|].
  split; [exact Hkey|]. split; [exact Hkind | exact Hall].
Qed.

Lemma delete_tools_on_204_witness :
  exists v,
    run_tool Examples.configured (Examples.answers Examples.no_content)
      (DeleteGitlabFile "42" "docs/old.md" "main" "Remove old page" None None None None)
    = Return v
    /\ has_key "error" v = false
    /\ is_message_or_status v = true
    /\ (forall w' r',
          w' (delete_gitlab_file_request Examples.configured "42" "docs/old.md" "main"
                "Remove old page" None None None None) = Got r' ->
          status_code r' = 204 ->
          run_tool Examples.configured w'
            (DeleteGitlabFile "42" "docs/old.md" "main" "Remove old page" None None None None)
          = Return v).
Proof.
  exact (delete_tools_on_204 Examples.configured (Examples.answers Examples.no_content)
           (DeleteGitlabFile "42" "docs/old.md" "main" "Remove old page" None None None None)
           _ Examples.no_content eq_refl eq_refl eq_refl eq_refl).
Defined.

(** C8, as stated, fails: on 204 [delete_gitlab_merge_request] returns
    [None], which is neither a message nor a status object. *)
Lemma delete_gitlab_merge_request_returns_none :
  MergeRequestTools.delete_gitlab_merge_request Examples.configured
    (Examples.answers Examples.no_content) "42" 7
  = Return PyNone
  /\ is_message_or_status PyNone = false.
Proof. split; reflexivity. Qed.

(** ** C9: file paths in URLs *)

Section QuotePlus.

Import Urllib.

(** A property of every byte, checked on the 256 of them. *)
Ltac each_byte c := destruct c as [[] [] [] [] [] [] [] []]; vm_compute; try reflexivity;
                    try discriminate; auto.

Lemma replace_char_app (a b : ascii) (s t : string) :
  replace_char a b (s +:+ t) = replace_char a b s +:+ replace_char a b t.
Proof. induction s as [|c s IH]; simpl; [reflexivity | rewrite IH; reflexivity]. Qed.

Lemma replace_quoter (c : ascii) :
  replace_char " " "+" (quoter " " c) = plus_encode c.
Proof. each_byte c. Qed.

Lemma quoter_without_space (c : ascii) :
  Ascii.eqb " " c = false -> quoter EmptyString c = plus_encode c.
Proof. each_byte c. Qed.

Lemma quote_with_space (s : string) :
  replace_char " " "+" (quote s " ") = concat_map plus_encode s.
Proof.
  unfold quote. induction s as [|c s IH]; [reflexivity|].
  cbn [quote_from_bytes concat_map].
  rewrite replace_char_app, replace_quoter, IH. reflexivity.
Qed.

Lemma quote_without_space (s : string) :
  mem_char " " s = false -> quote s EmptyString = concat_map plus_encode s.
Proof.
  unfold quote. induction s as [|c s IH]; [reflexivity|].
  cbn [mem_char quote_from_bytes concat_map]. intros H.
  apply orb_false_iff in H as [Hc Hs].
  rewrite (quoter_without_space c Hc), (IH Hs). reflexivity.
Qed.

Lemma quote_plus_bytewise (s : string) :
  quote_plus s = concat_map plus_encode s.
Proof.
  unfold quote_plus. destruct (mem_char " " s) eqn:E; cbn [negb].
  - apply quote_with_space.
  - apply quote_without_space. exact E.
Qed.

Lemma mem_char_app (c : ascii) (s t : string) :
  mem_char c (s +:+ t) = mem_char c s || mem_char c t.
Proof.
  induction s as [|d s IH]; simpl; [reflexivity | rewrite IH; apply orb_assoc].
Qed.

Lemma all_chars_app (p : ascii -> bool) (s t : string) :
  all_chars p (s +:+ t) = all_chars p s && all_chars p t.
Proof.
  induction s as [|d s IH]; simpl; [reflexivity | rewrite IH; apply andb_assoc].
Qed.

Lemma plus_encode_segment_chars (c : ascii) :
  all_chars segment_char (plus_encode c) = true.
Proof. each_byte c. Qed.

Lemma plus_encode_reserved (c : ascii) :
  is_reserved c = true -> plus_encode c = percent c.
Proof. each_byte c. Qed.

Lemma plus_in_plus_encode (c : ascii) :
  mem_char "+" (plus_encode c) = Ascii.eqb " " c.
Proof. each_byte c. Qed.

Lemma reserved_segment_char (c : ascii) :
  is_reserved c = true -> segment_char c = true -> c = "+"%char.
Proof. each_byte c. Qed.

Lemma quote_plus_segment_chars (s : string) :
  all_chars segment_char (quote_plus s) = true.
Proof.
  rewrite quote_plus_bytewise. induction s as [|c s IH]; [reflexivity|].
  cbn [concat_map]. rewrite all_chars_app, plus_encode_segment_chars, IH. reflexivity.
Qed.

Lemma all_chars_mem (p : ascii -> bool) (s : string) (c : ascii) :
  all_chars p s = true -> mem_char c s = true -> p c = true.
Proof.
  induction s as [|d s IH]; cbn; [discriminate|].
  intros Hall Hmem. apply andb_true_iff in Hall as [Hd Hs].
  apply orb_true_iff in Hmem as [Heq | Hin]; [|auto].
  apply Ascii.eqb_eq in Heq. subst d. exact Hd.
Qed.

Lemma quote_plus_no_raw_reserved (s : string) (c : ascii) :
  is_reserved c = true -> c <> "+"%char -> mem_char c (quote_plus s) = false.
Proof.
  intros Hres Hplus. destruct (mem_char c (quote_plus s)) eqn:E; [|reflexivity].
  exfalso. apply Hplus. apply reserved_segment_char; [exact Hres|].
  exact (all_chars_mem _ _ _ (quote_plus_segment_chars s) E).
Qed.

Lemma quote_plus_raw_plus (s : string) :
  mem_char "+" (quote_plus s) = mem_char " " s.
Proof.
  rewrite quote_plus_bytewise. induction s as [|c s IH]; [reflexivity|].
  cbn [concat_map mem_char]. rewrite mem_char_app, plus_in_plus_encode, IH. reflexivity.
Qed.

End QuotePlus.

(** C9, as amended.  Each of the six file tools passes its [file_path]
    through [quote_plus] and puts the result in the URL as one segment.
    [quote_plus] works byte by byte: a byte that is neither always safe nor a
    space is written as its percent escape, so every reserved character of the
    path, ['/'] included, is percent-encoded where it stands, and no reserved
    character other than ['+'] appears raw in the segment; a space is written
    as a raw ['+'], so the segment contains a raw ['+'] exactly when the path
    contains a space. *)
Theorem file_path_is_quote_plus_encoded :
  (forall s : string, Urllib.quote_plus s = Urllib.concat_map Urllib.plus_encode s)
  /\ (forall c : ascii, Urllib.is_reserved c = true -> Urllib.plus_encode c = Urllib.percent c)
  /\ (forall s : string, Urllib.all_chars Urllib.segment_char (Urllib.quote_plus s) = true)
  /\ (forall (s : string) (c : ascii),
        Urllib.is_reserved c = true -> c <> "+"%char ->
        Urllib.mem_char c (Urllib.quote_plus s) = false)
  /\ (forall s : string,
        Urllib.mem_char "+" (Urllib.quote_plus s) = Urllib.mem_char " " s)
  /\ (forall (cfg : config) (project_id file_path : string),
        let segment := Urllib.quote_plus file_path in
        let base := get_gitlab_api cfg +:+ "/projects/" +:+ project_id
                    +:+ "/repository/files/" +:+ segment in
        (forall branch content commit_message author_email author_name encoding
                execute_filemode start_branch,
           rq_url (create_gitlab_file_request cfg project_id file_path branch content
                     commit_message author_email author_name encoding execute_filemode
                     start_branch) = base)
        /\ (forall branch content commit_message author_email author_name encoding
                   execute_filemode last_commit_id start_branch,
              rq_url (update_gitlab_file_request cfg project_id file_path branch content
                        commit_message author_email author_name encoding execute_filemode
                        last_commit_id start_branch) = base)
        /\ (forall branch commit_message author_email author_name last_commit_id
                   start_branch,
              rq_url (delete_gitlab_file_request cfg project_id file_path branch
                        commit_message author_email author_name last_commit_id
                        start_branch) = base)
        /\ (forall ref lfs,
              rq_url (get_raw_gitlab_file_request cfg project_id file_path ref lfs)
              = base +:+ "/raw")
        /\ (forall ref,
              rq_url (get_gitlab_file_metadata_and_content_request cfg project_id file_path ref)
              = base)
        /\ (forall ref range_start range_end range_hash,
              rq_url (get_gitlab_file_blame_request cfg project_id file_path ref
                        range_start range_end range_hash)
              = base +:+ "/blame")).
Proof.
  split; [exact quote_plus_bytewise|].
  split; [exact plus_encode_reserved|].
  split; [exact quote_plus_segment_chars|].
  split; [exact quote_plus_no_raw_reserved|].
  split; [exact quote_plus_raw_plus|].
  intros cfg project_id file_path. cbv zeta. repeat split.
Qed.

(** C9, as stated, fails: ['+'] is a reserved character of the path
    [a+b c], and the segment [quote_plus] makes of it, [a%2Bb+c], contains
    a raw ['+'] next to the encoded one. *)
Lemma quote_plus_writes_a_raw_plus :
  Urllib.quote_plus "a+b c" = "a%2Bb+c"
  /\ Urllib.is_reserved "+" = true
  /\ Urllib.mem_char "+" "a+b c" = true
  /\ Urllib.mem_char "+" (Urllib.quote_plus "a+b c") = true.
Proof. repeat split. Qed.

(** [update_gitlab_submodule_reference] puts [submodule_path] in the URL
    as it is given. *)
Lemma update_gitlab_submodule_reference_url (cfg : config)
    (project_id submodule_path branch commit_sha : string) (commit_message : option string) :
  rq_url (RepoTools.update_gitlab_submodule_reference_request cfg project_id submodule_path
            branch commit_sha commit_message)
  = get_gitlab_api cfg +:+ "/projects/" +:+ project_id +:+ "/repository/submodules/"
    +:+ submodule_path.
Proof. reflexivity. Qed.

(** * Further properties of the code

    What follows is read off the source alone; the properties are numbered
    X1, X2, ... *)

(** ** The configuration store over time *)

Lemma nonempty_field_kept (a : option string) (old : string) :
  nonempty old = true ->
  nonempty (if truthy_str a then default "" a else old) = true.
Proof.
  intros Hold. destruct a as [s|]; cbn [truthy_str default]; [|exact Hold].
  fold (nonempty s). destruct (nonempty s) eqn:E; [exact E | exact Hold].
Qed.

Lemma set_gitlab_config_keeps_configured (a t : option string) (c : config) :
  is_configured c = true -> is_configured (set_gitlab_config a t c) = true.
Proof.
  unfold is_configured. intros H. apply andb_true_iff in H as [Hu Ht].
  rewrite set_gitlab_config_api_url, set_gitlab_config_token.
  rewrite !nonempty_field_kept by assumption. reflexivity.
Qed.

Lemma run_op_keeps_configured (op : config_op) (c : config) :
  is_configured c = true -> is_configured (run_op c op) = true.
Proof.
  intros H. destruct op as [a t | a t]; cbn [run_op].
  - apply set_gitlab_config_keeps_configured, H.
  - unfold configure_gitlab. destruct (negb _); cbn [snd]; [exact H|].
    apply set_gitlab_config_keeps_configured, H.
Qed.

(** X1.  A configured store stays configured: no sequence of calls of
    [set_gitlab_config] and [configure_gitlab], with whatever arguments,
    empties the URL or the token, so [is_configured] cannot go back from
    true to false. *)
Theorem configured_store_stays_configured (ops : list config_op) (c : config) :
  is_configured c = true -> is_configured (run_ops ops c) = true.
Proof.
  unfold run_ops. revert c. induction ops as [|op ops IH]; intros c H; cbn [foldl].
  - exact H.
  - apply IH, run_op_keeps_configured, H.
Qed.

Lemma configured_store_stays_configured_witness :
  is_configured
    (run_ops [ SetGitlabConfig (Some "") (Some "");
               ConfigureGitlab (Passed (Some "")) Omitted;
               ConfigureGitlab (Passed None) (Passed (Some "glpat-other")) ]
       Examples.configured) = true.
Proof.
  apply (configured_store_stays_configured _ Examples.configured). reflexivity.
Defined.

(** X2.  [configure_gitlab] answers with an error exactly when the token
    is left out, [None] or empty, and a call that is refused changes
    nothing in the store, the URL it was given included. *)
Theorem configure_gitlab_refusal (a t : arg (option string)) (c : config) :
  has_key "error" (configure_gitlab a t c).1 = negb (truthy_str (arg_default None t))
  /\ has_key "status" (configure_gitlab a t c).1 = truthy_str (arg_default None t)
  /\ (has_key "error" (configure_gitlab a t c).1 = true -> (configure_gitlab a t c).2 = c).
Proof.
  unfold configure_gitlab.
  destruct (truthy_str (arg_default None t)); cbn [negb fst snd].
  - repeat split; try discriminate.
  - repeat split.
Qed.

(** X3.  After a call of [configure_gitlab] with a non-empty token the
    answer always says [configured], but the store is configured only if
    the URL passed is non-empty or a URL was stored before: with the
    default URL it always is, with an explicit empty URL or [None] it is
    only if the store already had one. *)
Theorem configure_gitlab_configured_when (a : arg (option string)) (tok : string)
    (c : config) :
  nonempty tok = true ->
  py_item "status" (configure_gitlab a (Passed (Some tok)) c).1 = Some (PyStr "configured")
  /\ is_configured (configure_gitlab a (Passed (Some tok)) c).2
     = truthy_str (arg_default (Some default_api_url) a) || nonempty (api_url c)
  /\ is_configured (configure_gitlab Omitted (Passed (Some tok)) c).2 = true.
Proof.
  intros Htok. unfold configure_gitlab. cbn [arg_default].
  rewrite truthy_str_Some, Htok. cbn [negb fst snd].
  split; [reflexivity|].
  unfold is_configured. rewrite !set_gitlab_config_api_url, !set_gitlab_config_token.
  rewrite !truthy_str_Some, ?Htok. cbn [default from_option id].
  rewrite ?Htok, ?andb_true_r.
  split; [|reflexivity].
  destruct (arg_default (Some default_api_url) a) as [u|].
  - rewrite truthy_str_Some. cbn [from_option id].
    destruct (nonempty u) eqn:E; [exact E | reflexivity].
  - reflexivity.
Qed.

Lemma configure_gitlab_configured_when_witness :
  py_item "status"
    (configure_gitlab (Passed (Some "")) (Passed (Some "glpat-example"))
       (mk_config "" "")).1 = Some (PyStr "configured")
  /\ is_configured
       (configure_gitlab (Passed (Some "")) (Passed (Some "glpat-example"))
          (mk_config "" "")).2 = false
  /\ is_configured
       (configure_gitlab Omitted (Passed (Some "glpat-example")) (mk_config "" "")).2 = true.
Proof.
  exact (configure_gitlab_configured_when (Passed (Some "")) "glpat-example"
           (mk_config "" "") eq_refl).
Defined.

(** X4.  The token given to [configure_gitlab] is the one used from then
    on: [get_gitlab_token] returns it, [get_headers] is exactly the
    [Accept] line and this token, and [check_gitlab_config] reports a
    token as set without showing it. *)
Theorem configure_gitlab_token_round_trip (a : arg (option string)) (tok : string)
    (c : config) :
  nonempty tok = true ->
  let c' := (configure_gitlab a (Passed (Some tok)) c).2 in
  get_gitlab_token c' = tok
  /\ get_headers c' = {[ "PRIVATE-TOKEN" := tok; "Accept" := "application/json" ]}
  /\ token_headers c' ∅ = {[ "PRIVATE-TOKEN" := tok ]}
  /\ py_item "token_set" (check_gitlab_config c') = Some (PyBool true).
Proof.
  intros Htok c'.
  assert (Ht : token c' = tok).
  { subst c'. unfold configure_gitlab. cbn [arg_default].
    rewrite truthy_str_Some, Htok. cbn [negb snd].
    rewrite set_gitlab_config_token, truthy_str_Some, Htok. reflexivity. }
  unfold get_gitlab_token, get_headers, token_headers, get_gitlab_token, check_gitlab_config.
  rewrite Ht, Htok. repeat (split; [reflexivity|]).
  cbn [py_item]. lookup_key. reflexivity.
Qed.

Lemma configure_gitlab_token_round_trip_witness :
  let c' := (configure_gitlab Omitted (Passed (Some "glpat-example")) (mk_config "" "")).2 in
  get_gitlab_token c' = "glpat-example"
  /\ get_headers c' = {[ "PRIVATE-TOKEN" := "glpat-example"; "Accept" := "application/json" ]}
  /\ token_headers c' ∅ = {[ "PRIVATE-TOKEN" := "glpat-example" ]}
  /\ py_item "token_set" (check_gitlab_config c') = Some (PyBool true).
Proof.
  exact (configure_gitlab_token_round_trip Omitted "glpat-example" (mk_config "" "") eq_refl).
Defined.

(** ** What [quote_plus] keeps of a path *)

Section QuotePlusInverse.

Import Urllib Unquote.

Ltac byte_cases c := destruct c as [[] [] [] [] [] [] [] []]; vm_compute; reflexivity.

Lemma safe_is_plain (c : ascii) :
  always_safe c = true -> Ascii.eqb c "+" = false /\ Ascii.eqb c "%" = false.
Proof. destruct c as [[] [] [] [] [] [] [] []]; vm_compute; intros; split; congruence. Qed.

Lemma percent_decodes (c : ascii) :
  ascii_of_N (16 * hex_value (hex_digit (N_of_ascii c / 16))
              + hex_value (hex_digit (N_of_ascii c mod 16))) = c.
Proof. byte_cases c. Qed.

Lemma unquote_plus_plain (c : ascii) (rest : string) :
  Ascii.eqb c "+" = false -> Ascii.eqb c "%" = false ->
  unquote_plus (String c rest) = String c (unquote_plus rest).
Proof. intros Hp Hq. cbn [unquote_plus]. rewrite Hp, Hq. reflexivity. Qed.

Lemma unquote_plus_encode (c : ascii) (rest : string) :
  unquote_plus (plus_encode c +:+ rest) = String c (unquote_plus rest).
Proof.
  unfold plus_encode. destruct (always_safe c) eqn:Hs.
  - destruct (safe_is_plain c Hs) as [Hp Hq].
    change (String c EmptyString +:+ rest) with (String c rest).
    apply unquote_plus_plain; assumption.
  - destruct (Ascii.eqb_spec c " ") as [-> | Hsp]; [reflexivity|].
    unfold percent.
    change (unquote_plus (String "%" (String (hex_digit (N_of_ascii c / 16))
              (String (hex_digit (N_of_ascii c mod 16)) rest)))
            = String c (unquote_plus rest)).
    cbn [unquote_plus]. change (Ascii.eqb "%" "+") with false.
    change (Ascii.eqb "%" "%") with true. cbv iota.
    rewrite percent_decodes. reflexivity.
Qed.

Lemma unquote_plus_quote_plus (s : string) :
  unquote_plus (quote_plus s) = s.
Proof.
  rewrite quote_plus_bytewise. induction s as [|c s IH]; [reflexivity|].
  cbn [concat_map]. rewrite unquote_plus_encode, IH. reflexivity.
Qed.

Lemma quote_plus_inj (s t : string) :
  quote_plus s = quote_plus t -> s = t.
Proof.
  intros H. rewrite <- (unquote_plus_quote_plus s), <- (unquote_plus_quote_plus t), H.
  reflexivity.
Qed.

Lemma append_inv_head (p a b : string) :
  p +:+ a = p +:+ b -> a = b.
Proof.
  induction p as [|c p IH]; intros H; [exact H|].
  apply IH. change (String c (p +:+ a) = String c (p +:+ b)) in H.
  injection H as H. exact H.
Qed.

Lemma append_assoc (a b c : string) :
  (a +:+ b) +:+ c = a +:+ b +:+ c.
Proof.
  induction a as [|x a IH]; [reflexivity | exact (f_equal (String x) IH)].
Qed.

Lemma length_append (a b : string) :
  String.length (a +:+ b) = (String.length a + String.length b)%nat.
Proof.
  induction a as [|x a IH]; [reflexivity | exact (f_equal S IH)].
Qed.

Lemma concat_map_app (f : ascii -> string) (s t : string) :
  concat_map f (s +:+ t) = concat_map f s +:+ concat_map f t.
Proof.
  induction s as [|c s IH]; [reflexivity|].
  change (f c +:+ concat_map f (s +:+ t) = (f c +:+ concat_map f s) +:+ concat_map f t).
  rewrite IH. symmetry. apply append_assoc.
Qed.

Lemma length_plus_encode (c : ascii) :
  String.length (plus_encode c) = (if is_escaped c then 3 else 1)%nat.
Proof. byte_cases c. Qed.

Lemma length_quote_plus (s : string) :
  String.length (quote_plus s) = (String.length s + 2 * count_chars is_escaped s)%nat.
Proof.
  rewrite quote_plus_bytewise. induction s as [|c s IH]; [reflexivity|].
  cbn [concat_map count_chars String.length].
  rewrite length_append, length_plus_encode, IH.
  destruct (is_escaped c); lia.
Qed.

Lemma count_chars_le (p : ascii -> bool) (s : string) :
  (count_chars p s <= String.length s)%nat.
Proof.
  induction s as [|c s IH]; cbn [count_chars String.length]; [lia|].
  destruct (p c); lia.
Qed.

Lemma plus_encode_safe (c : ascii) :
  always_safe c = true -> plus_encode c = String c EmptyString.
Proof. unfold plus_encode. intros ->. reflexivity. Qed.

Lemma plus_encode_head (c : ascii) :
  is_escaped c = false -> always_safe c = false -> plus_encode c = "+" /\ c = " "%char.
Proof.
  unfold is_escaped, plus_encode. intros He Hs. rewrite Hs in *. cbn [negb andb] in He.
  apply negb_false_iff in He. rewrite He. split; [reflexivity|].
  apply Ascii.eqb_eq, He.
Qed.

Lemma quote_plus_safe (s : string) :
  all_chars always_safe s = true -> quote_plus s = s.
Proof.
  rewrite quote_plus_bytewise. induction s as [|c s IH]; [reflexivity|].
  cbn [all_chars concat_map]. intros H. apply andb_true_iff in H as [Hc Hs].
  rewrite (plus_encode_safe c Hc), (IH Hs). reflexivity.
Qed.

(** Without an escaped byte the encoding keeps every position, so a
    fixed point has no space either. *)
Lemma unescaped_fixed_point (s : string) :
  count_chars is_escaped s = 0%nat ->
  concat_map plus_encode s = s -> all_chars always_safe s = true.
Proof.
  induction s as [|c s IH]; [reflexivity|].
  cbn [count_chars concat_map all_chars]. intros Hn Heq.
  destruct (is_escaped c) eqn:He; [discriminate Hn|].
  destruct (always_safe c) eqn:Hs.
  - rewrite (plus_encode_safe c Hs) in Heq. injection Heq as Heq.
    cbn [andb]. apply IH; [exact Hn | exact Heq].
  - destruct (plus_encode_head c He Hs) as [Hp ->]. rewrite Hp in Heq.
    discriminate Heq.
Qed.

Lemma quote_plus_fixed_point (s : string) :
  quote_plus s = s -> all_chars always_safe s = true.
Proof.
  intros H. apply unescaped_fixed_point.
  - pose proof (length_quote_plus s) as L. rewrite H in L. lia.
  - rewrite <- quote_plus_bytewise. exact H.
Qed.

End QuotePlusInverse.

(** X5.  Two different file paths never give the same URL: [quote_plus]
    is injective, and so is the URL each file tool builds for a given
    store and project, as a function of [file_path]. *)
Theorem files_url_injective (cfg : config) (project_id f1 f2 : string) :
  files_url cfg project_id f1 = files_url cfg project_id f2 -> f1 = f2.
Proof.
  unfold files_url. intros H.
  do 4 apply append_inv_head in H.
  apply quote_plus_inj, H.
Qed.

Lemma files_url_injective_witness :
  "docs/read me.md" = "docs/read me.md".
Proof.
  exact (files_url_injective Examples.configured "42" "docs/read me.md" "docs/read me.md"
           eq_refl).
Defined.

(** X6.  [quote_plus] encodes a path piece by piece: the encoding of a
    concatenation is the concatenation of the encodings, although the
    function decides how to treat spaces by a test on the whole string. *)
Theorem quote_plus_append (s t : string) :
  Urllib.quote_plus (s +:+ t) = Urllib.quote_plus s +:+ Urllib.quote_plus t.
Proof. rewrite !quote_plus_bytewise. apply concat_map_app. Qed.

(** X7.  [quote_plus] leaves a path as it is exactly when every byte of
    it is a letter, a digit or one of [_.-~]; and encoding twice gives
    the result of encoding once in that case only, so a path that was
    already encoded is changed again. *)
Theorem quote_plus_unchanged_iff_safe (s : string) :
  (Urllib.quote_plus s = s <-> Urllib.all_chars Urllib.always_safe s = true)
  /\ (Urllib.quote_plus (Urllib.quote_plus s) = Urllib.quote_plus s
      <-> Urllib.all_chars Urllib.always_safe s = true).
Proof.
  assert (H1 : Urllib.quote_plus s = s <-> Urllib.all_chars Urllib.always_safe s = true).
  { split; [apply quote_plus_fixed_point | apply quote_plus_safe]. }
  split; [exact H1|]. rewrite <- H1. split.
  - apply quote_plus_inj.
  - intros H. exact (f_equal Urllib.quote_plus H).
Qed.

(** X8.  Counted in bytes of the UTF-8 encoding of the path, which is
    what [quote_plus] works on: the encoded segment has one character for
    each byte of the path plus two for every byte that is escaped, so it
    has at least as many characters as the path has bytes, and at most
    three times as many.  (A path of one character outside ASCII has two
    bytes or more, each of them escaped.) *)
Theorem quote_plus_length (s : string) :
  String.length (Urllib.quote_plus s)
  = (String.length s + 2 * Unquote.count_chars Unquote.is_escaped s)%nat
  /\ (String.length s <= String.length (Urllib.quote_plus s) <= 3 * String.length s)%nat.
Proof.
  pose proof (length_quote_plus s) as L.
  pose proof (count_chars_le Unquote.is_escaped s) as C.
  split; [exact L | lia].
Qed.

(** ** The further tools and the shared pattern *)

Section FurtherTools.

Variable w : world.

Lemma status_304_is_no_error (r : response) :
  (status_code r =? 304) = true -> is_error_status r = false.
Proof.
  intros H. apply Z.eqb_eq in H.
  unfold is_error_status, is_client_error, is_server_error. rewrite H. reflexivity.
Qed.

(** Send, answer 304 with a fixed value, and go on as the pattern does
    otherwise. *)
Lemma guarded_304_eq (rq : request) (v : pyval) :
  try_except
    (response ← requests_send w rq;
     if status_code response =? 304 then Return v
     else (raise_for_status response;; response_json response))
    api_handlers
  = match w rq with
    | NoResponse _ msg => Return (network_error_result msg)
    | Got r =>
        if status_code r =? 304 then Return v
        else if is_error_status r then http_error_result r
             else decoded_or_error r
    | Refused f msg => Raise (mk_exn (local_class f) msg None)
    | NeverReturns => Hangs
    end.
Proof.
  unfold requests_send, raise_for_status.
  destruct (w rq) as [? ? | r | ? ? |]; cbn [mbind outcome_bind try_except].
  - apply handle_transport.
  - destruct (status_code r =? 304); [reflexivity|].
    destruct (is_error_status r); cbn [mbind outcome_bind try_except].
    + apply handle_http_error.
    + apply try_decode.
  - apply handle_local.
  - reflexivity.
Qed.

Lemma send_and_decode_eq (rq : request) :
  try_except (send_and_decode w rq) api_handlers = standard_tool w rq ResponseJson.
Proof. reflexivity. Qed.

End FurtherTools.

Lemma standard_tool_returns (w : world) (rq : request) (s : success_value) :
  well_behaved (w rq) = true -> exists v, standard_tool w rq s = Return v.
Proof.
  rewrite standard_tool_eq. unfold http_error_result, decoded_or_error.
  destruct (w rq) as [? ? | r | ? ? |]; cbn [well_behaved]; try discriminate; [eauto|].
  intros Hb. destruct (is_error_status r), s, (body_json r); try discriminate Hb; eauto.
Qed.

(** Unfolds a further tool down to the skeleton. *)
Ltac unfold_more_tool :=
  cbn [run_more_tool more_tool_request] in *;
  unfold set_gitlab_commit_pipeline_status, reorder_issue, subscribe_to_issue,
    unsubscribe_from_issue, create_todo_on_issue, get_gitlab_contributors,
    get_gitlab_merge_base in *;
  cbv zeta in *;
  rewrite ?guarded_304_eq, ?send_and_decode_eq in *.

(** The two halves of the statement below for a tool that sends [rq]. *)
Ltac follows_standard w :=
  intros w; unfold_more_tool;
  split; [apply standard_tool_returns | intros _; reflexivity].

Ltac follows_304 w :=
  intros w; unfold_more_tool; rewrite standard_tool_eq;
  split;
  [ let Hb := fresh "Hb" in
    unfold http_error_result, decoded_or_error;
    destruct (w _) as [? ? | r | ? ? |]; cbn [well_behaved]; try discriminate; [eauto|];
    intros Hb; destruct (status_code r =? 304); [eauto|];
    destruct (is_error_status r), (body_json r); try discriminate Hb; eauto
  | let H := fresh "H" in
    let E := fresh "E" in
    intros H; destruct (w _) as [? ? | r | ? ? |] eqn:E; try reflexivity;
    rewrite (H r eq_refl eq_refl); reflexivity ].

(** X9.  The seven further tools and what they owe to the shared pattern.
    A tool that refuses its arguments ([reorder_issue] without an id,
    [get_gitlab_merge_base] with a sequence of fewer than two refs)
    returns a dictionary with an ["error"] key that does not depend on the
    remote side.  [get_gitlab_merge_base] given an iterator instead of a
    sequence raises a [TypeError] before the [try] block, whatever the
    remote side.  A tool that sends its request behaves as the shared
    pattern does on that request, except that the three tools acting on an
    issue answer 304 themselves; it returns a value whenever the call
    comes back, with a response or a [RequestException], and the decoder
    fails, if at all, with a [JSONDecodeError]. *)
Theorem further_tools_follow_the_pattern (cfg : config) (c : more_tool_call) :
  match more_tool_request cfg c with
  | None =>
      if refuses_arguments c
      then exists v, has_key "error" v = true
                     /\ forall w, run_more_tool cfg w c = Return v
      else exists e, exn_class_of e = TypeError
                     /\ forall w, run_more_tool cfg w c = Raise e
  | Some rq =>
      forall w,
        (well_behaved (w rq) = true -> exists v, run_more_tool cfg w c = Return v)
        /\ ((forall r, w rq = Got r -> answers_304_itself c = true ->
               (status_code r =? 304) = false) ->
            run_more_tool cfg w c = standard_tool w rq ResponseJson)
  end.
Proof.
  destruct c; cbn [more_tool_request run_more_tool answers_304_itself refuses_arguments].
  - follows_standard w.
  - unfold reorder_issue.
    destruct (bool_decide (move_after_id = None) && bool_decide (move_before_id = None)).
    + eexists. split; [|intros w; reflexivity].
      apply (has_key_true _ _ _ (lookup_singleton_eq _ _)).
    + follows_standard w.
  - follows_304 w.
  - follows_304 w.
  - follows_304 w.
  - follows_standard w.
  - unfold get_gitlab_merge_base. cbv zeta. destruct refs as [items | items];
      cbn [py_len py_list mbind outcome_bind].
    + destruct (length items <? 2)%nat.
      * eexists. split; [|intros w; reflexivity].
        apply (has_key_true _ _ _ (lookup_insert_eq _ _ _)).
      * intros w. rewrite send_and_decode_eq.
        split; [apply standard_tool_returns | intros _; reflexivity].
    + eexists. split; [|intros w; reflexivity]. reflexivity.
Qed.

(** X10.  The three tools that subscribe to an issue, unsubscribe from it
    or put it on the to-do list take 304 for an answer of its own kind:
    the result is a dictionary whose status is [not_modified], without an
    ["error"] key, and the body of the response is not read, so the
    result is the same for every response with this code. *)
Theorem issue_actions_on_304 (cfg : config) (w : world) (c : more_tool_call)
    (rq : request) (r : response) :
  answers_304_itself c = true ->
  more_tool_request cfg c = Some rq ->
  w rq = Got r ->
  status_code r = 304 ->
  exists message,
    run_more_tool cfg w c = Return (not_modified message)
    /\ py_item "status" (not_modified message) = Some (PyStr "not_modified")
    /\ has_key "error" (not_modified message) = false
    /\ (forall w' r', w' rq = Got r' -> status_code r' = 304 ->
          run_more_tool cfg w' c = Return (not_modified message)).
Proof.
  intros H304 Hrq Hw Hcode.
  destruct c; try discriminate H304; cbn [more_tool_request] in Hrq; injection Hrq as <-;
    unfold_more_tool; eexists;
    (split; [rewrite Hw, Hcode; reflexivity|]);
    (split; [reflexivity|]);
    (split; [apply has_key_false; unfold not_modified; lookup_key; reflexivity|]);
    intros w' r' Hw' Hcode'; unfold_more_tool; rewrite Hw', Hcode'; reflexivity.
Qed.

Lemma issue_actions_on_304_witness :
  exists message,
    run_more_tool Examples.configured (Examples.answers MoreExamples.not_modified_empty)
      (SubscribeToIssue "42" 7) = Return (not_modified message)
    /\ py_item "status" (not_modified message) = Some (PyStr "not_modified")
    /\ has_key "error" (not_modified message) = false
    /\ (forall w' r',
          w' (issue_action_request Examples.configured "42" 7 "subscribe") = Got r' ->
          status_code r' = 304 ->
          run_more_tool Examples.configured w' (SubscribeToIssue "42" 7)
          = Return (not_modified message)).
Proof.
  exact (issue_actions_on_304 Examples.configured
           (Examples.answers MoreExamples.not_modified_empty)
           (SubscribeToIssue "42" 7) _ MoreExamples.not_modified_empty
           eq_refl eq_refl eq_refl eq_refl).
Defined.

(** ** [get_gitlab_contributors] *)

Lemma lookup_set_if_valid_eq (k : string) (value : option string) (valid : list string)
    (d : pydict) :
  set_if_valid k value valid d !! k
  = if truthy_str value && bool_decide (str_lower (default EmptyString value) ∈ valid)
    then Some (PyStr (str_lower (default EmptyString value)))
    else d !! k.
Proof.
  unfold set_if_valid. destruct (truthy_str value); [|reflexivity].
  cbn [andb]. destruct (bool_decide _); [apply lookup_insert_eq | reflexivity].
Qed.

Lemma lookup_set_if_valid_ne (k k' : string) (value : option string) (valid : list string)
    (d : pydict) :
  k <> k' -> set_if_valid k value valid d !! k' = d !! k'.
Proof.
  intros Hk. unfold set_if_valid. destruct (truthy_str value); [|reflexivity].
  destruct (bool_decide _); [apply lookup_insert_ne; exact Hk | reflexivity].
Qed.

Lemma empty_is_not_valid :
  ("" ∉ valid_orders) /\ ("" ∉ valid_sorts).
Proof.
  unfold valid_orders, valid_sorts. rewrite !not_elem_of_cons.
  repeat split; try discriminate; apply not_elem_of_nil.
Qed.

Lemma valid_value_is_truthy (s : string) (valid : list string) :
  ("" ∉ valid) -> str_lower s ∈ valid -> truthy_str (Some s) = true.
Proof.
  intros Hne Hin. destruct s as [|c s]; [|reflexivity].
  exfalso. apply Hne. exact Hin.
Qed.

(** X11.  Whatever [order_by] and [sort] are, the query of
    [get_gitlab_contributors] carries for [order_by] nothing or one of
    [name], [email], [commits], and for [sort] nothing or one of [asc],
    [desc], and no other key: a value outside these lists is dropped and
    the request goes out without it.  The letter case of the argument is
    immaterial, and the value sent is in lower case. *)
Theorem get_gitlab_contributors_query (cfg : config) (project_id : string)
    (order_by sort : option string) :
  let params := rq_params (get_gitlab_contributors_request cfg project_id order_by sort) in
  params !! "order_by"
    ∈ [None; Some (PyStr "name"); Some (PyStr "email"); Some (PyStr "commits")]
  /\ params !! "sort" ∈ [None; Some (PyStr "asc"); Some (PyStr "desc")]
  /\ (forall k, k <> "order_by" -> k <> "sort" -> params !! k = None)
  /\ (forall o, order_by = Some o -> str_lower o ∈ valid_orders ->
        params !! "order_by" = Some (PyStr (str_lower o)))
  /\ (forall s, sort = Some s -> str_lower s ∈ valid_sorts ->
        params !! "sort" = Some (PyStr (str_lower s))).
Proof.
  cbn [get_gitlab_contributors_request rq_params].
  assert (Ho : set_if_valid "sort" sort valid_sorts
                 (set_if_valid "order_by" order_by valid_orders ∅) !! "order_by"
               = if truthy_str order_by
                    && bool_decide (str_lower (default EmptyString order_by) ∈ valid_orders)
                 then Some (PyStr (str_lower (default EmptyString order_by)))
                 else None).
  { rewrite lookup_set_if_valid_ne by discriminate.
    rewrite lookup_set_if_valid_eq, lookup_empty. reflexivity. }
  assert (Hs : set_if_valid "sort" sort valid_sorts
                 (set_if_valid "order_by" order_by valid_orders ∅) !! "sort"
               = if truthy_str sort
                    && bool_decide (str_lower (default EmptyString sort) ∈ valid_sorts)
                 then Some (PyStr (str_lower (default EmptyString sort)))
                 else None).
  { rewrite lookup_set_if_valid_eq.
    rewrite lookup_set_if_valid_ne by discriminate.
    rewrite lookup_empty. reflexivity. }
  rewrite Ho, Hs. clear Ho Hs.
  split; [|split; [|split; [|split]]].
  - destruct (truthy_str order_by); cbn [andb]; [|set_solver].
    destruct (bool_decide_reflect
                (str_lower (default EmptyString order_by) ∈ valid_orders)) as [Hin|];
      [|set_solver].
    unfold valid_orders in Hin.
    apply elem_of_cons in Hin as [-> | Hin]; [set_solver|].
    apply elem_of_cons in Hin as [-> | Hin]; [set_solver|].
    apply elem_of_cons in Hin as [-> | Hin]; [set_solver|].
    apply elem_of_nil in Hin. contradiction.
  - destruct (truthy_str sort); cbn [andb]; [|set_solver].
    destruct (bool_decide_reflect
                (str_lower (default EmptyString sort) ∈ valid_sorts)) as [Hin|];
      [|set_solver].
    unfold valid_sorts in Hin.
    apply elem_of_cons in Hin as [-> | Hin]; [set_solver|].
    apply elem_of_cons in Hin as [-> | Hin]; [set_solver|].
    apply elem_of_nil in Hin. contradiction.
  - intros k Ho Hs.
    rewrite !lookup_set_if_valid_ne by congruence. apply lookup_empty.
  - intros o -> Hin. cbn [default from_option id].
    rewrite (valid_value_is_truthy o valid_orders (proj1 empty_is_not_valid) Hin).
    rewrite bool_decide_eq_true_2 by exact Hin. reflexivity.
  - intros s -> Hin. cbn [default from_option id].
    rewrite (valid_value_is_truthy s valid_sorts (proj2 empty_is_not_valid) Hin).
    rewrite bool_decide_eq_true_2 by exact Hin. reflexivity.
Qed.

Example get_gitlab_contributors_mixed_case :
  rq_params (get_gitlab_contributors_request Examples.configured "42"
               (Some "Commits") (Some "newest"))
  = {[ "order_by" := PyStr "commits" ]}.
Proof. vm_compute. reflexivity. Qed.

(** ** [set_gitlab_commit_pipeline_status] *)

(** X12.  In the body of [set_gitlab_commit_pipeline_status] the label of
    the status goes under [name] whenever a name is given, and under
    [context] only when no name is given: the two keys are never sent
    together, and a context passed along with a name is dropped.  The
    state is always sent. *)
Theorem set_gitlab_commit_pipeline_status_label (cfg : config)
    (project_id sha state : string) (coverage : option pyval)
    (description name context : option string) (pipeline_id : option Z)
    (ref target_url : option string) :
  let payload :=
    body_dict (rq_body (set_gitlab_commit_pipeline_status_request cfg project_id sha state
                          coverage description name context pipeline_id ref target_url)) in
  payload !! "state" = Some (PyStr state)
  /\ payload !! "name" = PyStr <$> name
  /\ payload !! "context" = match name with
                             | Some _ => None
                             | None => PyStr <$> context
                             end
  /\ (payload !! "name" = None \/ payload !! "context" = None).
Proof.
  cbn [set_gitlab_commit_pipeline_status_request rq_body body_dict].
  assert (Hs : forall k (p : pydict),
             k <> "coverage" -> k <> "description" -> k <> "pipeline_id" -> k <> "ref" ->
             k <> "target_url" ->
             set_some "target_url" (PyStr <$> target_url)
               (set_some "ref" (PyStr <$> ref)
                  (set_some "pipeline_id" (PyInt <$> pipeline_id)
                     (set_some "description" (PyStr <$> description)
                        (set_some "coverage" coverage p)))) !! k = p !! k).
  { intros k p ? ? ? ? ?. rewrite !lookup_set_some_ne by congruence. reflexivity. }
  rewrite !Hs by discriminate.
  destruct name as [n|], context as [ctx|]; cbn [fmap option_fmap option_map set_some];
    lookup_key; repeat split; auto.
Qed.

(** ** [cherry_pick_gitlab_commit] and [revert_gitlab_commit] *)

Section PickTools.

Variable w : world.

Lemma handle_transport_pick (k : transport_failure) (msg : string) :
  handle pick_handlers (mk_exn (transport_class k) msg None)
  = Return (network_error_result msg).
Proof. destruct k; reflexivity. Qed.

Lemma handle_local_pick (k : local_failure) (msg : string) :
  handle pick_handlers (mk_exn (local_class k) msg None)
  = Raise (mk_exn (local_class k) msg None).
Proof. destruct k; reflexivity. Qed.

Lemma try_decode_pick (r : response) :
  try_except (response_json r) pick_handlers = decoded_or_error r.
Proof.
  unfold response_json, decoded_or_error.
  destruct (body_json r) as [v | msg | k msg]; [reflexivity | reflexivity |].
  destruct k; reflexivity.
Qed.

(** The [try] block of the two tools: the tests on 201 and on 200 with
    [dry_run] lead to the same [return] as the last line does. *)
Lemma pick_body_eq (rq : request) (dry_run : option bool) :
  try_except
    (response ← requests_send w rq;
     if status_code response =? 201 then response_json response
     else if (status_code response =? 200) && truthy_bool dry_run
          then response_json response
          else (raise_for_status response;; response_json response))
    pick_handlers
  = match w rq with
    | NoResponse _ msg => Return (network_error_result msg)
    | Got r =>
        if is_error_status r
        then pick_error_handler (mk_exn HTTPError (http_error_msg r) (Some r))
        else decoded_or_error r
    | Refused f msg => Raise (mk_exn (local_class f) msg None)
    | NeverReturns => Hangs
    end.
Proof.
  unfold requests_send, raise_for_status.
  destruct (w rq) as [? ? | r | ? ? |]; cbn [mbind outcome_bind try_except].
  - apply handle_transport_pick.
  - destruct (is_error_status r) eqn:E.
    + rewrite (error_status_not_2xx r 201 E), (error_status_not_2xx r 200 E) by lia.
      reflexivity.
    + destruct (status_code r =? 201); [apply try_decode_pick|].
      destruct ((status_code r =? 200) && truthy_bool dry_run); apply try_decode_pick.
  - apply handle_local_pick.
  - reflexivity.
Qed.

Lemma pick_error_handler_object (r : response) (d : pydict) :
  body_json r = Decoded (PyDict d) ->
  pick_error_handler (mk_exn HTTPError (http_error_msg r) (Some r))
  = Return (pick_error_result r d).
Proof.
  intros Hb. unfold pick_error_handler, e_response, response_json, pick_error_result.
  cbn [exn_response exn_str mbind outcome_bind]. rewrite Hb.
  cbn [mbind outcome_bind str_in].
  destruct (bool_decide (is_Some (d !! "error_code")));
    cbn [orb mbind outcome_bind str_in]; [reflexivity|].
  destruct (bool_decide (is_Some (d !! "message"))); reflexivity.
Qed.

Lemma pick_error_handler_not_iterable (r : response) (v : pyval) :
  body_json r = Decoded v -> not_iterable v = true ->
  exists e, pick_error_handler (mk_exn HTTPError (http_error_msg r) (Some r)) = Raise e
            /\ exn_class_of e = TypeError.
Proof.
  intros Hb Hv. unfold pick_error_handler, e_response, response_json.
  cbn [exn_response exn_str mbind outcome_bind]. rewrite Hb.
  destruct v; try discriminate Hv; eexists; split; reflexivity.
Qed.

End PickTools.

(** X13.  On every response whose code is not an error,
    [cherry_pick_gitlab_commit] and [revert_gitlab_commit] give what
    [return response.json()] gives under their two clauses, whatever the
    code and whatever [dry_run] is: the decoded body; the network-error
    dictionary when the body is not JSON; and when the decoder raises a
    [ValueError] or a [RecursionError], that exception, which reaches the
    caller.  [dry_run] changes what is sent and nothing in how the answer
    is read. *)
Theorem pick_tools_success (cfg : config) (w : world) (project_id sha branch : string)
    (dry_run : option bool) (message : option string) (r : response) :
  is_error_status r = false ->
  (w (cherry_pick_gitlab_commit_request cfg project_id sha branch dry_run message) = Got r ->
   cherry_pick_gitlab_commit cfg w project_id sha branch dry_run message
   = match body_json r with
     | Decoded j => Return j
     | Undecodable msg =>
         Return (PyDict {[ "error" := PyStr ("Network/Request Error: " +:+ msg) ]})
     | DecoderRaises k msg => Raise (mk_exn (decoder_class k) msg None)
     end)
  /\ (w (revert_gitlab_commit_request cfg project_id sha branch dry_run) = Got r ->
      revert_gitlab_commit cfg w project_id sha branch dry_run
      = match body_json r with
        | Decoded j => Return j
        | Undecodable msg =>
            Return (PyDict {[ "error" := PyStr ("Network/Request Error: " +:+ msg) ]})
        | DecoderRaises k msg => Raise (mk_exn (decoder_class k) msg None)
        end).
Proof.
  intros Hok. unfold cherry_pick_gitlab_commit, revert_gitlab_commit.
  rewrite !pick_body_eq. split; intros ->; rewrite Hok; reflexivity.
Qed.

Lemma pick_tools_success_witness :
  cherry_pick_gitlab_commit Examples.configured
    (Examples.answers MoreExamples.ok_empty_object) "42" "abc" "main" None None
  = Return (PyDict ∅)
  /\ revert_gitlab_commit Examples.configured
       (Examples.answers MoreExamples.ok_empty_object) "42" "abc" "main" (Some false)
     = Return (PyDict ∅).
Proof.
  split.
  - exact (proj1 (pick_tools_success Examples.configured
                    (Examples.answers MoreExamples.ok_empty_object) "42" "abc" "main"
                    None None MoreExamples.ok_empty_object eq_refl) eq_refl).
  - exact (proj2 (pick_tools_success Examples.configured
                    (Examples.answers MoreExamples.ok_empty_object) "42" "abc" "main"
                    (Some false) None MoreExamples.ok_empty_object eq_refl) eq_refl).
Defined.

(** X14.  On a 4xx or 5xx response whose body is a JSON object, the two
    tools return a dictionary with an ["error"] key.  If the object has a
    [message] or an [error_code], the error is the message of the object
    (the text of the HTTP error when there is none) and comes with an
    [error_code] (["unknown_api_error"] when the object has none), and
    the object itself is not returned; otherwise the result is the one
    of the shared pattern, with the object as details. *)
Theorem pick_tools_error_object (cfg : config) (w : world)
    (project_id sha branch : string) (dry_run : option bool) (message : option string)
    (r : response) (d : pydict) :
  is_error_status r = true ->
  body_json r = Decoded (PyDict d) ->
  has_key "error" (pick_error_result r d) = true
  /\ has_key "details" (pick_error_result r d)
     = negb (has_key "error_code" (PyDict d) || has_key "message" (PyDict d))
  /\ has_key "error_code" (pick_error_result r d)
     = has_key "error_code" (PyDict d) || has_key "message" (PyDict d)
  /\ (w (cherry_pick_gitlab_commit_request cfg project_id sha branch dry_run message) = Got r ->
      cherry_pick_gitlab_commit cfg w project_id sha branch dry_run message
      = Return (pick_error_result r d))
  /\ (w (revert_gitlab_commit_request cfg project_id sha branch dry_run) = Got r ->
      revert_gitlab_commit cfg w project_id sha branch dry_run
      = Return (pick_error_result r d)).
Proof.
  intros Herr Hb. unfold cherry_pick_gitlab_commit, revert_gitlab_commit.
  rewrite !pick_body_eq. unfold pick_error_result. cbn [has_key].
  destruct (bool_decide (is_Some (d !! "error_code")) || bool_decide (is_Some (d !! "message")))
    eqn:E; cbn [negb has_key];
    (split; [apply bool_decide_eq_true; lookup_key; eauto|]);
    (split; [first [apply bool_decide_eq_false | apply bool_decide_eq_true];
             lookup_key; first [apply is_Some_None | eauto] |]);
    (split; [first [apply bool_decide_eq_false | apply bool_decide_eq_true];
             lookup_key; first [apply is_Some_None | eauto] |]);
    (split; intros ->; rewrite Herr, (pick_error_handler_object r d Hb);
       unfold pick_error_result; rewrite E; reflexivity).
Qed.

Lemma pick_tools_error_object_witness :
  cherry_pick_gitlab_commit Examples.configured (Examples.answers MoreExamples.conflict)
    "42" "abc" "main" None None
  = Return (PyDict {[ "error" := PyStr "Sorry, we cannot cherry-pick this commit automatically.";
                      "error_code" := PyStr "conflict" ]}).
Proof.
  exact (proj1 (proj2 (proj2 (proj2
           (pick_tools_error_object Examples.configured
              (Examples.answers MoreExamples.conflict) "42" "abc" "main" None None
              MoreExamples.conflict _ eq_refl eq_refl)))) eq_refl).
Defined.

(** X15.  The two tools do not always return: on a 4xx or 5xx response
    whose body is the JSON text of [null], of a boolean or of a number,
    the test [in] of the [HTTPError] clause raises a [TypeError], which
    no clause of the function catches. *)
Theorem pick_tools_raise_on_scalar_body (cfg : config) (w : world)
    (project_id sha branch : string) (dry_run : option bool) (message : option string)
    (r : response) (v : pyval) :
  is_error_status r = true ->
  body_json r = Decoded v ->
  not_iterable v = true ->
  (w (cherry_pick_gitlab_commit_request cfg project_id sha branch dry_run message) = Got r ->
   exists e, cherry_pick_gitlab_commit cfg w project_id sha branch dry_run message = Raise e
             /\ exn_class_of e = TypeError)
  /\ (w (revert_gitlab_commit_request cfg project_id sha branch dry_run) = Got r ->
      exists e, revert_gitlab_commit cfg w project_id sha branch dry_run = Raise e
                /\ exn_class_of e = TypeError).
Proof.
  intros Herr Hb Hv. unfold cherry_pick_gitlab_commit, revert_gitlab_commit.
  rewrite !pick_body_eq.
  split; intros ->; rewrite Herr; exact (pick_error_handler_not_iterable r v Hb Hv).
Qed.

Lemma pick_tools_raise_on_scalar_body_witness :
  exists e,
    revert_gitlab_commit Examples.configured (Examples.answers MoreExamples.bad_gateway_null)
      "42" "abc" "main" None = Raise e
    /\ exn_class_of e = TypeError.
Proof.
  exact (proj2 (pick_tools_raise_on_scalar_body Examples.configured
                  (Examples.answers MoreExamples.bad_gateway_null) "42" "abc" "main"
                  None None MoreExamples.bad_gateway_null PyNone eq_refl eq_refl eq_refl)
           eq_refl).
Defined.

(** ** [get_gitlab_commit_signature] *)

(** X16.  On a 404 whose body is a JSON object with a string under
    [message], [get_gitlab_commit_signature] reports the commit as
    unsigned exactly when the message is ["404 GPG Signature Not Found"]
    in any letter case; otherwise the error is the text of the HTTP
    error.  The details are the object in both cases. *)
Theorem get_gitlab_commit_signature_on_404 (cfg : config) (w : world)
    (project_id sha : string) (r : response) (d : pydict) (m : string) :
  w (get_gitlab_commit_signature_request cfg project_id sha) = Got r ->
  status_code r = 404 ->
  body_json r = Decoded (PyDict d) ->
  d !! "message" = Some (PyStr m) ->
  get_gitlab_commit_signature cfg w project_id sha
  = Return (PyDict {[ "error" := PyStr (if String.eqb (str_lower m) "404 gpg signature not found"
                                        then "Commit signature not found (Commit is likely unsigned)."
                                        else http_error_msg r);
                      "details" := PyDict d ]}).
Proof.
  intros Hw Hcode Hb Hm.
  unfold get_gitlab_commit_signature, send_and_decode, requests_send, raise_for_status.
  rewrite Hw. cbn [mbind outcome_bind].
  assert (He : is_error_status r = true).
  { unfold is_error_status, is_client_error. rewrite Hcode. reflexivity. }
  rewrite He. cbn [mbind outcome_bind try_except handle issubclass exn_class_of].
  unfold signature_error_handler, e_response, response_json.
  cbn [exn_response exn_str mbind outcome_bind]. rewrite Hb, Hcode.
  cbn [Z.eqb Pos.eqb mbind outcome_bind get_message]. rewrite Hm.
  cbn [default from_option id py_lower mbind outcome_bind].
  destruct (String.eqb (str_lower m) "404 gpg signature not found"); reflexivity.
Qed.

Lemma get_gitlab_commit_signature_on_404_witness :
  get_gitlab_commit_signature Examples.configured (Examples.answers MoreExamples.unsigned)
    "42" "abc"
  = Return (PyDict {[ "error" := PyStr "Commit signature not found (Commit is likely unsigned).";
                      "details" := PyDict {[ "message" := PyStr "404 GPG Signature Not Found" ]} ]}).
Proof.
  exact (get_gitlab_commit_signature_on_404 Examples.configured
           (Examples.answers MoreExamples.unsigned) "42" "abc" MoreExamples.unsigned
           _ "404 GPG Signature Not Found" eq_refl eq_refl eq_refl eq_refl).
Defined.

Lemma signature_error_handler_other_code (r : response) :
  (status_code r =? 404) = false ->
  signature_error_handler (mk_exn HTTPError (http_error_msg r) (Some r))
  = http_error_result r.
Proof.
  intros Hc. unfold signature_error_handler, e_response, response_json, http_error_result.
  cbn [exn_response exn_str mbind outcome_bind]. rewrite Hc.
  destruct (body_json r) as [v | msg | k msg]; [reflexivity | reflexivity |].
  destruct k; reflexivity.
Qed.

(** X17.  Unless the response is a 404, [get_gitlab_commit_signature]
    is the shared pattern: on every remote side that answers no request of
    the tool with a 404, the tool and the pattern have the same outcome,
    be it a value or an exception. *)
Theorem get_gitlab_commit_signature_is_standard (cfg : config) (w : world)
    (project_id sha : string) :
  (forall r, w (get_gitlab_commit_signature_request cfg project_id sha) = Got r ->
             (status_code r =? 404) = false) ->
  get_gitlab_commit_signature cfg w project_id sha
  = standard_tool w (get_gitlab_commit_signature_request cfg project_id sha) ResponseJson.
Proof.
  intros H. rewrite standard_tool_eq.
  unfold get_gitlab_commit_signature, send_and_decode, requests_send, raise_for_status.
  destruct (w _) as [k msg | r | k msg |] eqn:E; cbn [mbind outcome_bind try_except].
  - destruct k; reflexivity.
  - destruct (is_error_status r); cbn [mbind outcome_bind try_except].
    + cbn [handle issubclass exn_class_of].
      apply signature_error_handler_other_code, H. reflexivity.
    + unfold response_json, decoded_or_error.
      destruct (body_json r) as [v | msg | k msg]; [reflexivity | reflexivity |].
      destruct k; reflexivity.
  - destruct k; reflexivity.
  - reflexivity.
Qed.

Lemma get_gitlab_commit_signature_is_standard_witness :
  get_gitlab_commit_signature Examples.configured
    (Examples.answers MoreExamples.bad_gateway_null) "42" "abc"
  = standard_tool (Examples.answers MoreExamples.bad_gateway_null)
      (get_gitlab_commit_signature_request Examples.configured "42" "abc") ResponseJson.
Proof.
  apply (get_gitlab_commit_signature_is_standard Examples.configured
           (Examples.answers MoreExamples.bad_gateway_null)).
  intros r Hr. injection Hr as <-. reflexivity.
Defined.

(** ** [delete_project] *)

(** X18.  [delete_project] returns [None] exactly when the response has
    a code that is neither an error nor 202 nor 204, a plain 200 for
    one: the function then runs off its end. *)
Theorem delete_project_returns_none_iff (cfg : config) (w : world) (project_id : string)
    (full_path : option string) (permanently_remove : option pyval) :
  ProjectTools.delete_project cfg w project_id full_path permanently_remove = Return PyNone
  <-> exists r,
        w (ProjectTools.delete_project_request cfg project_id full_path permanently_remove)
        = Got r
        /\ is_error_status r = false
        /\ status_code r <> 202 /\ status_code r <> 204.
Proof.
  rewrite delete_project_eq.
  destruct (w _) as [k msg | r | k msg |].
  - split; [discriminate|]. intros (r & Hr & _). discriminate Hr.
  - destruct (is_error_status r) eqn:He.
    + split; [|intros (r' & Hr & He' & _); injection Hr as <-; congruence].
      unfold http_error_result. destruct (body_json r); discriminate.
    + destruct (Z.eqb_spec (status_code r) 202) as [H202 | H202];
        destruct (Z.eqb_spec (status_code r) 204) as [H204 | H204]; cbn [orb];
        (split; [try discriminate | intros (r' & Hr & _ & N202 & N204);
                                     injection Hr as <-; try contradiction]).
      * intros _. exists r. auto.
      * reflexivity.
  - split; [discriminate|]. intros (r & Hr & _). discriminate Hr.
  - split; [discriminate|]. intros (r & Hr & _). discriminate Hr.
Qed.

Example delete_project_on_200 :
  ProjectTools.delete_project Examples.configured (Examples.answers MoreExamples.ok_other)
    "42" None None = Return PyNone.
Proof. reflexivity. Qed.

(** ** The check of [edit_issue] and [update_gitlab_merge_request] *)

Section AtLeastOneField.

Lemma dict_is_empty_iff (d : pydict) : dict_is_empty d = true <-> d = ∅.
Proof.
  unfold dict_is_empty. rewrite Nat.eqb_eq. apply map_size_empty_iff.
Qed.

Lemma set_some_empty (k : string) (v : option pyval) (d : pydict) :
  set_some k v d = ∅ -> v = None /\ d = ∅.
Proof.
  destruct v as [x|]; cbn [set_some]; intros H; [|auto].
  exfalso. exact (insert_non_empty _ _ _ H).
Qed.

Lemma drop_none_cons_empty (k : string) (v : pyval) (l : list (string * pyval)) :
  drop_none ((k, v) :: l) = ∅ -> is_none v = true /\ drop_none l = ∅.
Proof.
  unfold drop_none. cbn [filter list_filter].
  destruct (decide _) as [Hn | Hn]; cbn [snd] in Hn; cbn [list_to_map foldr]; intros H.
  - exfalso. exact (insert_non_empty _ _ _ H).
  - split; [destruct (is_none v); congruence | exact H].
Qed.

Lemma opt_str_is_none (x : option string) : is_none (opt_str x) = true -> x = None.
Proof. destruct x; [discriminate | reflexivity]. Qed.

Lemma opt_bool_is_none (x : option bool) : is_none (opt_bool x) = true -> x = None.
Proof. destruct x; [discriminate | reflexivity]. Qed.

Lemma opt_int_is_none (x : option Z) :
  is_none (MergeRequestTools.opt_int x) = true -> x = None.
Proof. destruct x; [discriminate | reflexivity]. Qed.

Lemma opt_ints_is_none (x : option (list Z)) :
  is_none (MergeRequestTools.opt_ints x) = true -> x = None.
Proof. destruct x; [discriminate | reflexivity]. Qed.

Lemma edit_issue_data_empty (f : IssueTools.edit_issue_fields) :
  dict_is_empty (IssueTools.edit_issue_data f) = true <-> f = no_edit_issue_fields.
Proof.
  split; [|intros ->; reflexivity].
  rewrite dict_is_empty_iff. unfold IssueTools.edit_issue_data. cbv zeta.
  destruct f. cbn [IssueTools.add_labels IssueTools.assignee_ids IssueTools.confidential
    IssueTools.description IssueTools.discussion_locked IssueTools.due_date
    IssueTools.epic_id IssueTools.issue_type IssueTools.labels IssueTools.milestone_id
    IssueTools.remove_labels IssueTools.state_event IssueTools.title
    IssueTools.updated_at IssueTools.weight].
  intros H.
  repeat (apply set_some_empty in H as [?%fmap_None H]).
  subst. reflexivity.
Qed.

Lemma update_gitlab_merge_request_payload_empty (f : MergeRequestTools.update_fields) :
  dict_is_empty (MergeRequestTools.update_gitlab_merge_request_payload f) = true
  <-> f = no_update_fields.
Proof.
  split; [|intros ->; reflexivity].
  rewrite dict_is_empty_iff. unfold MergeRequestTools.update_gitlab_merge_request_payload.
  cbv zeta. destruct f.
  cbn [MergeRequestTools.title MergeRequestTools.description MergeRequestTools.target_branch
    MergeRequestTools.state_event MergeRequestTools.assignee_ids
    MergeRequestTools.reviewer_ids MergeRequestTools.add_labels
    MergeRequestTools.remove_labels MergeRequestTools.labels MergeRequestTools.milestone_id
    MergeRequestTools.remove_source_branch MergeRequestTools.squash
    MergeRequestTools.discussion_locked MergeRequestTools.allow_collaboration
    MergeRequestTools.merge_after MergeRequestTools.assignee_id
    MergeRequestTools.allow_maintainer_to_push].
  intros H.
  repeat (apply drop_none_cons_empty in H as [?Hn H]).
  repeat match goal with
         | Hn : is_none (opt_str _) = true |- _ => apply opt_str_is_none in Hn
         | Hn : is_none (opt_bool _) = true |- _ => apply opt_bool_is_none in Hn
         | Hn : is_none (MergeRequestTools.opt_int _) = true |- _ => apply opt_int_is_none in Hn
         | Hn : is_none (MergeRequestTools.opt_ints _) = true |- _ =>
             apply opt_ints_is_none in Hn
         end.
  subst. reflexivity.
Qed.

End AtLeastOneField.

(** X19.  [edit_issue] refuses a call exactly when each of its fifteen
    optional arguments is [None], with the same answer whatever the
    remote side is.  Any argument that is not [None], be it an empty
    string, an empty list, [False] or zero, makes it send the request,
    and from there on it is the shared pattern. *)
Theorem edit_issue_needs_a_field (cfg : config) (w : world) (project_id : string)
    (issue_iid : Z) (f : IssueTools.edit_issue_fields) :
  (f = no_edit_issue_fields ->
   IssueTools.edit_issue cfg w project_id issue_iid f
   = Return (PyDict {[ "error" := PyStr "At least one parameter to update is required." ]}))
  /\ (f <> no_edit_issue_fields ->
      IssueTools.edit_issue cfg w project_id issue_iid f
      = standard_tool w (IssueTools.edit_issue_request cfg project_id issue_iid f)
          ResponseJson).
Proof.
  unfold IssueTools.edit_issue. split.
  - intros ->. reflexivity.
  - intros Hf. destruct (dict_is_empty (IssueTools.edit_issue_data f)) eqn:E; [|reflexivity].
    exfalso. apply Hf, edit_issue_data_empty, E.
Qed.

(** X20.  [update_gitlab_merge_request] refuses a call exactly when each
    of its seventeen optional arguments is [None]; with any argument that
    is not [None] it sends the request and is the shared pattern. *)
Theorem update_gitlab_merge_request_needs_a_field (cfg : config) (w : world)
    (project_id : string) (merge_request_iid : Z) (f : MergeRequestTools.update_fields) :
  (f = no_update_fields ->
   MergeRequestTools.update_gitlab_merge_request cfg w project_id merge_request_iid f
   = Return (PyDict {[ "error" := PyStr ("Update failed: Must provide at least one field "
                         +:+ "to update (e.g., title, description, state_event).") ]}))
  /\ (f <> no_update_fields ->
      MergeRequestTools.update_gitlab_merge_request cfg w project_id merge_request_iid f
      = standard_tool w
          (MergeRequestTools.update_gitlab_merge_request_request cfg project_id
             merge_request_iid f) ResponseJson).
Proof.
  unfold MergeRequestTools.update_gitlab_merge_request. split.
  - intros ->. reflexivity.
  - intros Hf.
    destruct (dict_is_empty (MergeRequestTools.update_gitlab_merge_request_payload f)) eqn:E;
      [|reflexivity].
    exfalso. apply Hf, update_gitlab_merge_request_payload_empty, E.
Qed.

(** ** The URL a tool builds, and where the token goes in a request *)

(** X21.  The URL string each modelled tool hands to [requests] is the
    stored [api_url], then [/projects/] ([/users/] for
    [list_user_contributed_projects]), then a path that depends on the
    arguments of the call and not on the store.  The arguments are put in
    the path as they are given; what the library makes of the string is
    not looked at here. *)
Theorem request_url_is_api_url_then_path :
  forall c : modelled_call, exists path : string, forall (cfg : config) (rq : request),
    modelled_request cfg c = Some rq ->
    rq_url rq = get_gitlab_api cfg +:+ first_segment c +:+ path.
Proof.
  intros c. destruct c as [c | c | c]; destruct c; eexists; intros cfg rq Hrq;
    cbn [modelled_request tool_request more_tool_request other_tool_request] in Hrq;
    try (destruct (dict_is_empty _); [discriminate Hrq|]);
    try (destruct (bool_decide _ && bool_decide _); [discriminate Hrq|]);
    try match type of Hrq with
        | context [match ?x with Sequence _ => _ | Iterator _ => _ end] =>
            destruct x; [|discriminate Hrq]
        end;
    try (destruct (length _ <? 2)%nat; [discriminate Hrq|]);
    injection Hrq as <-; unfold_request; cbn [first_segment];
    rewrite ?append_assoc; reflexivity.
Qed.

Lemma delete_token_headers (cfg : config) (h : gmap string string) :
  delete "PRIVATE-TOKEN" (token_headers cfg h) = delete "PRIVATE-TOKEN" h.
Proof.
  unfold token_headers. destruct (nonempty (get_gitlab_token cfg)); [|reflexivity].
  apply delete_insert_eq.
Qed.

(** X22.  In the request a modelled tool builds, the token is in the
    [PRIVATE-TOKEN] header and nowhere else: two stores with the same URL
    and different tokens make each tool build requests that agree on the
    method, the URL, the query, the body and all other headers, and a tool
    sends no request under the one exactly when it sends none under the
    other.  This is about the request only, not about what a tool
    prints. *)
Theorem token_only_in_its_header (u t1 t2 : string) (c : modelled_call) :
  without_token <$> modelled_request (mk_config u t1) c
  = without_token <$> modelled_request (mk_config u t2) c.
Proof.
  destruct c as [c | c | c]; destruct c;
    cbn [modelled_request tool_request more_tool_request other_tool_request];
    try (destruct (dict_is_empty _); [reflexivity|]);
    try (destruct (bool_decide _ && bool_decide _); [reflexivity|]);
    try match goal with
        | |- context [match ?x with Sequence _ => _ | Iterator _ => _ end] =>
            destruct x; [|reflexivity]
        end;
    try (destruct (length _ <? 2)%nat; [reflexivity|]);
    cbn [fmap option_fmap option_map]; apply f_equal;
    unfold without_token; unfold_request;
    rewrite ?delete_token_headers, ?delete_insert_eq, ?delete_singleton_eq;
    reflexivity.
Qed.

(** ** [update_incident_metric_image] *)

(** X23.  [update_incident_metric_image] checks its arguments against
    [None] and fills the form by truth value, so the check lets empty
    strings through: when [url] or [url_text] is given but neither is a
    non-empty string, the tool sends its PUT with an empty form, and is
    the shared pattern on that request. *)
Theorem update_incident_metric_image_empty_form (cfg : config) (w : world)
    (project_id : string) (issue_iid image_id : Z) (url url_text : option string) :
  url <> None \/ url_text <> None ->
  truthy_str url = false ->
  truthy_str url_text = false ->
  rq_body (update_incident_metric_image_request cfg project_id issue_iid image_id
             url url_text) = FormBody ∅
  /\ update_incident_metric_image cfg w project_id issue_iid image_id url url_text
     = standard_tool w
         (update_incident_metric_image_request cfg project_id issue_iid image_id
            url url_text) ResponseJson.
Proof.
  intros Hsome Hu Ht. split.
  - unfold update_incident_metric_image_request. cbv zeta. cbn [rq_body].
    rewrite Hu, Ht. reflexivity.
  - unfold update_incident_metric_image.
    destruct Hsome as [H | H]; rewrite (bool_decide_eq_false_2 _ H), ?andb_false_r;
      reflexivity.
Qed.

Lemma update_incident_metric_image_empty_form_witness :
  rq_body (update_incident_metric_image_request Examples.configured "42" 7 3
             (Some "") None) = FormBody ∅
  /\ update_incident_metric_image Examples.configured Examples.offline "42" 7 3 (Some "") None
     = standard_tool Examples.offline
         (update_incident_metric_image_request Examples.configured "42" 7 3 (Some "") None)
         ResponseJson.
Proof.
  apply (update_incident_metric_image_empty_form Examples.configured Examples.offline
           "42" 7 3 (Some "") None); [left; discriminate | reflexivity | reflexivity].
Defined.

(** ** The merge-request actions *)

Section MergeRequestActions.

Variable w : world.

(** The [try] block of the three tools, with the code [expected] that
    makes them return the body and what they do on 304. *)
Lemma merge_request_action_eq (rq : request) (expected : Z) (on_304 : response -> outcome pyval) :
  200 <= expected < 300 ->
  try_except
    (response ← requests_send w rq;
     let status_code := status_code response in
     if status_code =? expected then response_json response
     else if status_code =? 304 then on_304 response
          else (raise_for_status response;; Return PyNone))
    api_handlers
  = match w rq with
    | NoResponse _ msg => Return (network_error_result msg)
    | Got r =>
        if is_error_status r then http_error_result r
        else if status_code r =? expected then decoded_or_error r
             else if status_code r =? 304 then try_except (on_304 r) api_handlers
                  else Return PyNone
    | Refused f msg => Raise (mk_exn (local_class f) msg None)
    | NeverReturns => Hangs
    end.
Proof.
  intros Hexp. unfold requests_send, raise_for_status. cbv zeta.
  destruct (w rq) as [? ? | r | ? ? |]; cbn [mbind outcome_bind try_except];
    [ | | apply handle_local | reflexivity].
  - apply handle_transport.
  - destruct (is_error_status r) eqn:E.
    + rewrite (error_status_not_2xx r expected E Hexp).
      assert (H304 : (status_code r =? 304) = false).
      { unfold is_error_status, is_client_error, is_server_error in E.
        apply Z.eqb_neq. lia. }
      rewrite H304. cbn [mbind outcome_bind try_except]. apply handle_http_error.
    + destruct (status_code r =? expected); [apply try_decode|].
      destruct (status_code r =? 304); reflexivity.
Qed.

End MergeRequestActions.

(** X24.  [subscribe_to_gitlab_merge_request],
    [unsubscribe_from_gitlab_merge_request] and
    [create_gitlab_merge_request_todo] return [None], and do not read the
    body, on every response whose code is not an error, not 304 and not
    the one code they expect: 200 for the first two, 201 for the third.
    So a subscription answered with 201 gives [None]. *)
Theorem merge_request_actions_return_none (cfg : config) (w : world) (project_id : string)
    (merge_request_iid : Z) (r : response) :
  is_error_status r = false ->
  status_code r <> 304 ->
  (w (merge_request_action_request cfg project_id merge_request_iid "subscribe") = Got r ->
   status_code r <> 200 ->
   subscribe_to_gitlab_merge_request cfg w project_id merge_request_iid = Return PyNone)
  /\ (w (merge_request_action_request cfg project_id merge_request_iid "unsubscribe") = Got r ->
      status_code r <> 200 ->
      unsubscribe_from_gitlab_merge_request cfg w project_id merge_request_iid
      = Return PyNone)
  /\ (w (merge_request_action_request cfg project_id merge_request_iid "todo") = Got r ->
      status_code r <> 201 ->
      create_gitlab_merge_request_todo cfg w project_id merge_request_iid = Return PyNone).
Proof.
  intros Hok H304.
  unfold subscribe_to_gitlab_merge_request, unsubscribe_from_gitlab_merge_request,
    create_gitlab_merge_request_todo.
  rewrite !merge_request_action_eq by lia.
  apply Z.eqb_neq in H304.
  repeat split; intros -> Hexp; apply Z.eqb_neq in Hexp; rewrite Hok, Hexp, H304; reflexivity.
Qed.

Lemma merge_request_actions_return_none_witness :
  subscribe_to_gitlab_merge_request Examples.configured
    (Examples.answers MoreExamples.created) "42" 7 = Return PyNone.
Proof.
  apply (merge_request_actions_return_none Examples.configured
           (Examples.answers MoreExamples.created) "42" 7 MoreExamples.created);
    [reflexivity | discriminate | reflexivity | discriminate].
Defined.

(** ** [search_repositories] *)

(** X25.  [search_repositories] never returns: whatever its arguments
    and the store, evaluating [client] raises a [NameError], which neither
    of the two [except] clauses of the function catches, so it reaches the
    caller as it is. *)
Theorem search_repositories_raises (cfg : config) (search : string)
    (page per_page : arg (option Z)) :
  exists e,
    search_repositories cfg search page per_page = Raise e
    /\ exn_class_of e = NameError
    /\ handle search_repositories_handlers e = Raise e.
Proof. eexists. repeat split. Qed.

(** ** [list_user_contributed_projects] *)

(** X26.  When the call of [list_user_contributed_projects] comes back,
    with a response or with a [RequestException], and the decoder does not
    fail on the body of a response without an error code other than with a
    [JSONDecodeError], the tool returns an array or a dictionary with an
    ["error"] key, never another JSON value.  A response without a body
    gives the empty array before the status is looked at, so a 404 with an
    empty body is reported as no projects. *)
Theorem list_user_contributed_projects_result (cfg : config) (w : world) (user_id : string)
    (order_by : option string) (simple : option bool) (sort : option string) :
  (match w (list_user_contributed_projects_request cfg user_id order_by simple sort) with
   | NoResponse _ _ => True
   | Got r =>
       content_is_empty r = true \/ is_error_status r = true
       \/ match body_json r with
          | DecoderRaises _ _ => False
          | _ => True
          end
   | Refused _ _ | NeverReturns => False
   end ->
   exists v,
     list_user_contributed_projects cfg w user_id order_by simple sort = Return v
     /\ (is_list v = true \/ has_key "error" v = true))
  /\ (forall r,
        w (list_user_contributed_projects_request cfg user_id order_by simple sort) = Got r ->
        text r = "" ->
        list_user_contributed_projects cfg w user_id order_by simple sort
        = Return (PyList [])).
Proof.
  unfold list_user_contributed_projects, requests_send, raise_for_status.
  destruct (w _) as [k msg | r | k msg |]; cbn [mbind outcome_bind try_except].
  - split; [|intros r Hr; discriminate Hr]. intros _.
    rewrite handle_transport_any. eexists. split; [reflexivity|]. right.
    apply (has_key_true _ _ _ (lookup_singleton_eq _ _)).
  - unfold content_is_empty. destruct (String.eqb_spec (text r) "") as [He | He].
    + split; [|intros r' _ _; reflexivity]. intros _.
      eexists. split; [reflexivity | left; reflexivity].
    + split; [|intros r' Hr Ht; injection Hr as <-; contradiction].
      intros [Hc | Hok]; [discriminate Hc|].
      destruct (is_error_status r); cbn [mbind outcome_bind try_except].
      * rewrite handle_http_error_any. unfold http_error_result_any.
        destruct (body_json r); eexists; (split; [reflexivity|]); right;
          apply (has_key_true _ _ _ (lookup_insert_eq _ _ _)).
      * destruct Hok as [Hf | Hok]; [discriminate Hf|].
        unfold response_json. destruct (body_json r) as [v | msg | ? ?];
          [ | | contradiction];
          cbn [mbind outcome_bind try_except handle issubclass exn_class_of].
        -- destruct v; eexists; (split; [reflexivity|]);
             first [ left; reflexivity
                   | right; apply (has_key_true _ _ _ (lookup_insert_eq _ _ _)) ].
        -- eexists. split; [reflexivity|]. right.
           apply (has_key_true _ _ _ (lookup_insert_eq _ _ _)).
  - split; [contradiction | intros r Hr; discriminate Hr].
  - split; [contradiction | intros r Hr; discriminate Hr].
Qed.

Example list_user_contributed_projects_on_empty_404 :
  list_user_contributed_projects Examples.configured
    (Examples.answers MoreExamples.not_found_empty) "nobody" None None None
  = Return (PyList []).
Proof. reflexivity. Qed.
